(** * AgentScope: model wrappers, chat formatters and agent reply loops

    A shallow embedding of
      - [examples/conversation_sql/conversation_sql.py]   (module [SQL]),
      - [examples/converstation_with_codeact_agent/codeact_agent.py]
                                                          (module [CodeAct]),
      - [src/agentscope/models/dashscope_model.py]        (module [DashScope]),
      - [src/agentscope/models/zhipu_model.py]            (module [Zhipu]),
    together with the small part of Python they rely on (module [Py]).

    Conventions.
      - A Python [str] is a [string]; the character with code [n] stands for
        the code point [n], so the embedding covers the texts whose code
        points are below 256.
      - Python exceptions are values of [Py.exn]; a computation that may raise
        returns a [Py.result].
      - Effects on collaborators that live outside the repository (the LLM
        service, the SQL engine, the notebook executor) are threaded through
        an abstract world; effects the code performs itself (printing,
        speaking, monitor updates, invocation records) are logged in the
        state of the module they belong to. *)

From Stdlib Require Import ZArith Ascii String DecimalString.
From stdpp Require Import gmap strings list fin_maps functions.

#[local] Open Scope Z_scope.
#[local] Set Warnings "-register-all".

(* ===================================================================== *)
(** * Python values, exceptions and strings *)
(* ===================================================================== *)

Module Py.

(** JSON-like values: what message dictionaries, keyword arguments and
    [model_dump()] payloads hold.  A [float] is kept as mantissa and binary
    exponent; the code never computes with one. *)
Inductive val :=
  | VNone
  | VBool (b : bool)
  | VInt (z : Z)
  | VFloat (m e : Z)
  | VStr (s : string)
  | VList (l : list val)
  | VDict (d : gmap string val).

(** The exceptions the modelled code raises or meets.  All of them derive
    from [Exception], so [except Exception] catches every one.  An exception
    raised by a collaborator outside the repository is an [ExternalError]. *)
Inductive exn :=
  | ValueError (msg : string)
  | TypeError (msg : string)
  | RuntimeError (msg : string)
  | AttributeError (msg : string)
  | UnboundLocalError (var : string)
  | KeyError (key : string)
  | IndexError (msg : string)
  | AssertionError
  | ExternalError (cls msg : string).

(** The outcome of a call.  [OutOfFuel] is not a Python outcome: a [while]
    loop is embedded with a bound on its iterations, and [OutOfFuel] marks a
    run that met the bound.  No handler catches it; the theorems show that
    the runs they speak of end in [Ok] or [Raise]. *)
Inductive result (A : Type) :=
  | Ok (a : A)
  | Raise (e : exn)
  | OutOfFuel.
Arguments Ok {A} a.
Arguments Raise {A} e.
Arguments OutOfFuel {A}.

(** State and exceptions: the state survives a raise, as in Python. *)
Definition M (S A : Type) : Type := S -> result A * S.

Definition ret {S A} (a : A) : M S A := fun s => (Ok a, s).
Definition raise {S A} (e : exn) : M S A := fun s => (Raise e, s).
Definition out_of_fuel {S A} : M S A := fun s => (OutOfFuel, s).
Definition bind {S A B} (m : M S A) (k : A -> M S B) : M S B :=
  fun s => match m s with
           | (Ok a, s') => k a s'
           | (Raise e, s') => (Raise e, s')
           | (OutOfFuel, s') => (OutOfFuel, s')
           end.
Definition modify {S} (f : S -> S) : M S unit := fun s => (Ok tt, f s).

(** [try: body except Exception: handler] *)
Definition try_except {S A} (body : M S A) (handler : exn -> M S A) : M S A :=
  fun s => match body s with
           | (Ok a, s') => (Ok a, s')
           | (Raise e, s') => handler e s'
           | (OutOfFuel, s') => (OutOfFuel, s')
           end.

#[global] Instance M_ret {S} : MRet (M S) := fun A a => ret a.
#[global] Instance M_bind {S} : MBind (M S) := fun A B k m => bind m k.

(** ** Strings *)

Definition LF : string := String "010"%char EmptyString.

(** [str(n)] for an [int]. *)
Definition str_of_int (z : Z) : string := NilZero.string_of_int (Z.to_int z).

(** [ch.isspace()] for a code point below 256: the ASCII table of CPython
    (TAB..CR, FS..US, SPACE) and the two Latin-1 spaces NEL and NBSP. *)
Definition isspace (c : ascii) : bool :=
  let n := N_of_ascii c in
  ((9 <=? n) && (n <=? 13) || (28 <=? n) && (n <=? 32)
   || (n =? 133) || (n =? 160))%N.

(** [ch.lower()] for a code point below 256: A..Z and the Latin-1 capitals
    (all of U+00C0..U+00DE but the multiplication sign) move up by 32. *)
Definition lower_char (c : ascii) : ascii :=
  let n := N_of_ascii c in
  if ((65 <=? n) && (n <=? 90)
      || (192 <=? n) && (n <=? 222) && negb (n =? 215))%N
  then ascii_of_N (n + 32) else c.

Fixpoint lower (s : string) : string :=
  match s with
  | EmptyString => EmptyString
  | String c s' => String (lower_char c) (lower s')
  end.

(** [s.startswith(p)] *)
Definition startswith (s p : string) : bool := String.prefix p s.

(** [s.replace(a, b)] for single characters [a] and [b]. *)
Fixpoint replace_char (a b : ascii) (s : string) : string :=
  match s with
  | EmptyString => EmptyString
  | String c s' => String (if Ascii.eqb c a then b else c) (replace_char a b s')
  end.

Definition cons_word (w : string) (ws : list string) : list string :=
  if String.eqb w EmptyString then ws else w :: ws.

(** [s.split()]: the maximal runs of non-space characters, in order.
    [split_run s] is the run that starts [s] and the words after it. *)
Fixpoint split_run (s : string) : string * list string :=
  match s with
  | EmptyString => (EmptyString, [])
  | String c s' =>
      let '(w, ws) := split_run s' in
      if isspace c then (EmptyString, cons_word w ws) else (String c w, ws)
  end.

Definition split_ws (s : string) : list string :=
  let '(w, ws) := split_run s in cons_word w ws.

(** [sep.join(l)] *)
Fixpoint join (sep : string) (l : list string) : string :=
  match l with
  | [] => EmptyString
  | [x] => x
  | x :: rest => x +:+ sep +:+ join sep rest
  end.

Fixpoint lstrip (s : string) : string :=
  match s with
  | EmptyString => EmptyString
  | String c s' => if isspace c then lstrip s' else s
  end.

Fixpoint rstrip (s : string) : string :=
  match s with
  | EmptyString => EmptyString
  | String c s' =>
      let r := rstrip s' in
      if isspace c && String.eqb r EmptyString then EmptyString else String c r
  end.

(** [s.strip()] *)
Definition strip (s : string) : string := rstrip (lstrip s).

(** [s.split(sep)] for a non-empty [sep]: scan left to right, [skip] counts
    the characters of a separator just met that are still to be dropped and
    [cur] holds the piece being read, last character first. *)
Fixpoint split_go (sep s : string) (skip : nat) (cur : string) : list string :=
  match s with
  | EmptyString => [String.rev cur]
  | String c s' =>
      match skip with
      | S k => split_go sep s' k cur
      | O =>
          if startswith s sep
          then String.rev cur :: split_go sep s' (String.length sep - 1) EmptyString
          else split_go sep s' 0 (String c cur)
      end
  end.

Definition split (s sep : string) : list string := split_go sep s 0 EmptyString.

(** [l[0]] on a list of strings; [split] never returns the empty list. *)
Definition first (l : list string) : string := hd EmptyString l.

(** [sub in s] on strings, as a proposition: [s] has an occurrence of [sub]. *)
Definition contains (s sub : string) : Prop :=
  exists pre post : string, s = pre +:+ sub +:+ post.

(** ** Operations on values *)

(** [type(v)] as an f-string prints it. *)
Definition type_name (v : val) : string :=
  match v with
  | VNone => "<class 'NoneType'>"
  | VBool _ => "<class 'bool'>"
  | VInt _ => "<class 'int'>"
  | VFloat _ _ => "<class 'float'>"
  | VStr _ => "<class 'str'>"
  | VList _ => "<class 'list'>"
  | VDict _ => "<class 'dict'>"
  end.

(** [len(v)] *)
Definition len (v : val) : result Z :=
  match v with
  | VList l => Ok (Z.of_nat (length l))
  | VDict d => Ok (Z.of_nat (size d))
  | VStr s => Ok (Z.of_nat (String.length s))
  | _ => Raise (TypeError "object has no len()")
  end.

(** [v[key]] for a string [key] *)
Definition getitem (v : val) (key : string) : result val :=
  match v with
  | VDict d => match d !! key with
               | Some x => Ok x
               | None => Raise (KeyError key)
               end
  | VList _ => Raise (TypeError "list indices must be integers or slices, not str")
  | VStr _ => Raise (TypeError "string indices must be integers, not 'str'")
  | _ => Raise (TypeError "object is not subscriptable")
  end.

(** [v[0]] *)
Definition getitem0 (v : val) : result val :=
  match v with
  | VList (x :: _) => Ok x
  | VList [] => Raise (IndexError "list index out of range")
  | VStr (String c _) => Ok (VStr (String c EmptyString))
  | VStr EmptyString => Raise (IndexError "string index out of range")
  | VDict _ => Raise (KeyError "0")
  | _ => Raise (TypeError "object is not subscriptable")
  end.

(** [[f(x) for x in l]], stopping at the first element on which [f] raises. *)
Fixpoint comprehension {A B} (f : A -> result B) (l : list A) : result (list B) :=
  match l with
  | [] => Ok []
  | x :: l' =>
      match f x with
      | Ok y => match comprehension f l' with
                | Ok ys => Ok (y :: ys)
                | Raise e => Raise e
                | OutOfFuel => OutOfFuel
                end
      | Raise e => Raise e
      | OutOfFuel => OutOfFuel
      end
  end.

(** [[x[key] for x in v]]: a list gives its elements, a dictionary its keys
    and a string its characters, and indexing a string by [key] raises. *)
Definition project_each (key : string) (v : val) : result (list val) :=
  match v with
  | VList l => comprehension (fun x => getitem x key) l
  | VDict d =>
      if decide (size d = 0%nat) then Ok []
      else Raise (TypeError "string indices must be integers, not 'str'")
  | VStr s =>
      if String.eqb s EmptyString then Ok []
      else Raise (TypeError "string indices must be integers, not 'str'")
  | _ => Raise (TypeError "object is not iterable")
  end.

(** Lift a pure outcome into a stateful computation. *)
Definition lift {S A} (r : result A) : M S A := fun s => (r, s).

End Py.

Import Py.

(** A chat message as the wrappers receive it: a dictionary. *)
Abbreviation message := (gmap string val) (only parsing).

(** Modelled from the spec: [ModelResponse] of [agentscope.models.model],
    which is not among the sources.  A tagged result: exactly one of the
    text, the stream and the embedding is populated, next to the raw
    payload of the provider. *)
Record ModelResponse (Stream Raw : Type) := mkModelResponse {
  text : option string;
  embedding : option val;
  stream : option Stream;
  raw : Raw;
}.
Arguments mkModelResponse {Stream Raw}.
Arguments text {Stream Raw}.
Arguments embedding {Stream Raw}.
Arguments stream {Stream Raw}.
Arguments raw {Stream Raw}.

(** Modelled from the spec: [Msg] of [agentscope.message], which is not
    among the sources.  One turn of a conversation: a name, a role, a
    content (text or a structured payload) and an optional media
    reference. *)
Record Msg := mkMsg {
  name : string;
  content : val;
  role : string;
  url : option val;
}.

(* ===================================================================== *)
(** * examples/conversation_sql/conversation_sql.py *)
(* ===================================================================== *)

Module SQL.

(** [process_duplication] *)
Definition process_duplication (sql : string) : string :=
  first (split (strip sql) "/*").

(** The attributes of a [SQLAgent] that [reply] reads. *)
Record SQLAgent := mkSQLAgent {
  self_name : string;
  db_id : string;
  db_path : string;
  max_retries : Z;
}.

(** [SQLAgent.__init__]: the retry bound is the constant 3. *)
Definition init (name db_id db_path : string) : SQLAgent :=
  {| self_name := name; db_id := db_id; db_path := db_path; max_retries := 3 |}.

Definition self_intro (self : SQLAgent) : string :=
  "Hi, I am an agent able to preform SQL querys" +:+ LF +:+
  "        base on natual language instructions." +:+ LF +:+
  "        Below is a description of the database " +:+ db_id self +:+ " provided.".

Definition start_intro (self : SQLAgent) : string :=
  "Is there any you want to" +:+ LF +:+
  "        ask about the database " +:+ db_id self +:+ "?".

(** What the agent does to the outside, in order. *)
Inductive event :=
  | EvModel (messages : list message)
  | EvQuery (sql path_db : string).

(** [world]: the state of the collaborators; [stdout]: the lines printed;
    [spoken]: the messages passed to [speak]; [trace]: the calls made. *)
Record state (W : Type) := mkState {
  world : W;
  stdout : list string;
  spoken : list Msg;
  trace : list event;
}.
Arguments mkState {W}.
Arguments world {W}.
Arguments stdout {W}.
Arguments spoken {W}.
Arguments trace {W}.

Section Agent.
Context {W : Type}.

(** Collaborators that are not part of the repository's sources:
    the model wrapper behind [self.model], [query_sqlite] and the prompt
    generator of [sql_utils], and Python's [str]. *)
Variable model : list message -> M W (ModelResponse unit unit).
Variable query_sqlite : string -> string -> M W string.
Variable is_sql_question_prompt : val -> val.
Variable describe_sql : val.
Variable generate_prompt : Msg -> val.
Variable str : val -> string.

Variable self : SQLAgent.

Definition log (e : event) : M (state W) unit :=
  modify (fun s => mkState (world s) (stdout s) (spoken s) (trace s ++ [e])).

Definition in_world {A} (m : M W A) : M (state W) A :=
  fun s => let '(r, w) := m (world s) in
           (r, mkState w (stdout s) (spoken s) (trace s)).

Definition print (line : string) : M (state W) unit :=
  modify (fun s => mkState (world s) (stdout s ++ [line]) (spoken s) (trace s)).

(** Modelled from the spec: [AgentBase.speak], which is not among the
    sources; the agent emits the message. *)
Definition speak (msg : Msg) : M (state W) unit :=
  modify (fun s => mkState (world s) (stdout s) (spoken s ++ [msg]) (trace s)).

(** [self.model(messages)] *)
Definition call_model (messages : list message)
  : M (state W) (ModelResponse unit unit) :=
  log (EvModel messages);; in_world (model messages).

(** [[{"role": "assistant", "content": prompt}]] *)
Definition assistant_messages (prompt : val) : list message :=
  [ {[ "role" := VStr "assistant"; "content" := prompt ]} ].

(** A method call [t.m()] on the [text] of a response, which is [None]
    when the wrapper did not fill it. *)
Definition text_or_raise (what : string) (r : ModelResponse unit unit)
  : M (state W) string :=
  match text r with
  | Some t => mret t
  | None => raise (AttributeError what)
  end.

(** [get_response_from_prompt] *)
Definition get_response_from_prompt (prompt : val) : M (state W) string :=
  let messages := assistant_messages prompt in
  r ← call_model messages;
  sql ← text_or_raise "'NoneType' object has no attribute 'replace'" r;
  let sql := join " " (split_ws (replace_char "010" " " sql)) in
  let sql := process_duplication sql in
  if startswith sql "SELECT" then mret (sql +:+ LF)
  else if startswith sql " " then mret ("SELECT" +:+ sql +:+ LF)
  else mret ("SELECT " +:+ sql +:+ LF).

(** [answer_from_result]; a [None] text is returned as it is and only
    fails where the caller concatenates it. *)
Definition answer_from_result (question response_text : string)
  : M (state W) (option string) :=
  let prompt :=
    "Given the sql query and and the result," +:+ LF +:+
    "        answer the user's question." +:+ LF +:+
    "        " +:+ LF +:+ " User question: " +:+ question +:+ " " +:+ LF +:+
    " " +:+ response_text in
  let messages := assistant_messages (VStr prompt) in
  r ← call_model messages;
  mret (text r).

(** [is_question_related] *)
Definition is_question_related (question : val) : M (state W) (option string) :=
  let is_sql_prompt := is_sql_question_prompt question in
  let messages := assistant_messages is_sql_prompt in
  r ← call_model messages;
  mret (text r).

(** The locals of [reply] that the retry loop assigns.  [msg] is [None]
    while the name is unbound. *)
Record locals := mkLocals {
  attempt : Z;
  result_ : option string;
  msg : option Msg;
}.

(** The body of the [try] block. *)
Definition attempt_body (x : Msg) (prepared_prompt : val) (l : locals)
  : M (state W) locals :=
  sql_response ← get_response_from_prompt prepared_prompt;
  exec_result ← log (EvQuery sql_response (db_path self));;
                in_world (query_sqlite sql_response (db_path self));
  let response_text :=
    "Generated SQL query is: " +:+ sql_response +:+ " " +:+ LF +:+ LF +:+
    "                The execution result is: " +:+ exec_result in
  answer ← answer_from_result (str (content x)) response_text;
  match answer with
  | None => raise (TypeError "can only concatenate str (not NoneType) to str")
  | Some answer =>
      let response_text := response_text +:+ LF +:+ LF +:+ answer in
      let result := response_text in
      let msg := mkMsg (self_name self) (VStr result) "sql assistant" None in
      speak msg;;
      mret (mkLocals (attempt l) (Some result) (Some msg))
  end.

Definition retry_line (attempt : Z) : string :=
  "We fail to execute the generated query." +:+
  "Attempt " +:+ str_of_int (attempt + 1) +:+ " of " +:+
  str_of_int (max_retries self) +:+ " " +:+ "failed. Retrying!".

(** [while attempt < self.max_retries: try: ...; break
     except Exception: print(...); attempt += 1] *)
Fixpoint retry_loop (fuel : nat) (x : Msg) (prepared_prompt : val) (l : locals)
  : M (state W) locals :=
  if attempt l <? max_retries self then
    match fuel with
    | O => out_of_fuel
    | S fuel' =>
        try_except
          (attempt_body x prepared_prompt l)
          (fun _ =>
             print (retry_line (attempt l));;
             retry_loop fuel' x prepared_prompt
               (mkLocals (attempt l + 1) (result_ l) (msg l)))
    end
  else mret l.

Definition sorry_line : string :=
  "Sorry, the agent failed to execute query after" +:+ " " +:+
  str_of_int (max_retries self) +:+ " " +:+ "attempts".

(** [return msg]: reading a local that was never assigned raises. *)
Definition return_local (var : string) (v : option Msg) : M (state W) Msg :=
  match v with
  | Some m => mret m
  | None => raise (UnboundLocalError var)
  end.

(** [reply] *)
Definition reply (fuel : nat) (x : option Msg) : M (state W) Msg :=
  match x with
  | None =>
      let messages := assistant_messages describe_sql in
      r ← call_model messages;
      match text r with
      | None => raise (TypeError "sequence item 1: expected str instance, NoneType found")
      | Some t =>
          let response := join (LF +:+ LF) [self_intro self; t; start_intro self] in
          let msg := mkMsg (self_name self) (VStr response) "sql assistant" None in
          speak msg;;
          mret msg
      end
  | Some x =>
      is_sql_response ← is_question_related (content x);
      is_sql_response ←
        match is_sql_response with
        | Some t => mret t
        | None => raise (AttributeError "'NoneType' object has no attribute 'lower'")
        end;
      if negb (String.eqb (lower is_sql_response) "yes") then
        let response_text := is_sql_response in
        let result := response_text in
        let msg := mkMsg (self_name self) (VStr result) "sql assistant" None in
        speak msg;;
        mret msg
      else
        let prepared_prompt := generate_prompt x in
        l ← retry_loop fuel x prepared_prompt (mkLocals 0 None None);
        (if result_ l is None then print sorry_line else mret tt);;
        return_local "msg" (msg l)
  end.

(** ** Vocabulary of the properties *)

(** A computation that prints nothing. *)
Definition keeps_stdout {A} (m : M (state W) A) : Prop :=
  forall s, stdout (m s).2 = stdout s.

(** The lines printed by [n] failed attempts in a row, the first of which
    is attempt number [attempt] (counted from 0). *)
Fixpoint retry_lines (n : nat) (attempt : Z) : list string :=
  match n with
  | O => []
  | S n' => retry_line attempt :: retry_lines n' (attempt + 1)
  end.

End Agent.

(** The statements sent to the database, in order. *)
Definition queries (t : list event) : list string :=
  omap (fun e => match e with
                 | EvQuery sql _ => Some sql
                 | EvModel _ => None
                 end) t.

End SQL.

(* ===================================================================== *)
(** * examples/converstation_with_codeact_agent/codeact_agent.py *)
(* ===================================================================== *)

Module CodeAct.

Definition SYSTEM_MESSAGE : string :=
  "system" +:+ LF +:+
  "You are a helpful assistant that gives helpful, detailed, and polite answers to the user's questions." +:+ LF +:+
  "You should interact with the interactive Python (Jupyter Notebook) environment and receive the corresponding output when needed. The code written by assistant should be enclosed using [execute] tag, for example: [execute] print('Hello World!') [/execute]." +:+ LF +:+
  "You should attempt fewer things at a time instead of putting too much code in one [execute] block. You can install packages through PIP by [execute] !pip install [package needed] [/execute] and should always import packages and define variables before starting to use them." +:+ LF +:+
  "You should stop [execute] and provide an answer when they have already obtained the answer from the execution result. Whenever possible, execute the code for the user using [execute] instead of providing it." +:+ LF +:+
  "Your response should be concise, but do express their thoughts. Always write the code in [execute] block to execute them." +:+ LF +:+
  "You should not ask for the user's input unless necessary. Solve the task on your own and leave no unanswered questions behind." +:+ LF +:+
  "You should do every thing by your self." +:+ LF +:+
  EmptyString.

(** [EXAMPLE_MESSAGE.format(example_code=example_code)] *)
Definition EXAMPLE_MESSAGE (example_code : string) : string :=
  LF +:+ "Additionally, you are provided with the following code available:" +:+ LF +:+
  example_code +:+ LF +:+
  "The above code is already available in your interactive Python (Jupyter Notebook) environment, allowing you to directly use these variables and functions without needing to redeclare them." +:+ LF.

(** Modelled from the spec: the execution result of [agentscope.service],
    which is not among the sources: a status (success or failure) and a
    content (the output or the error). *)
Inductive ServiceExecStatus := SUCCESS | ERROR.

Record ServiceResponse := mkServiceResponse {
  status : ServiceExecStatus;
  res_content : val;
}.

(** ** The regular expression of [handle_code_execution] *)

Fixpoint drop_chars (n : nat) (s : string) : string :=
  match n, s with
  | S n', String _ s' => drop_chars n' s'
  | _, _ => s
  end.

(** What follows the first occurrence of [pat] in [s]. *)
Fixpoint after_first (pat s : string) : option string :=
  if startswith s pat then Some (drop_chars (String.length pat) s)
  else match s with
       | EmptyString => None
       | String _ s' => after_first pat s'
       end.

(** What precedes the last occurrence of [pat] in [s]. *)
Fixpoint before_last (pat s : string) : option string :=
  match s with
  | EmptyString => if startswith s pat then Some EmptyString else None
  | String c s' =>
      match before_last pat s' with
      | Some b => Some (String c b)
      | None => if startswith s pat then Some EmptyString else None
      end
  end.

(** [re.search] for an opening tag, any text (the newline included, by
    [re.DOTALL]) and a closing tag, with its
    [group(1)]: the match starts at the first opening tag that has a closing
    tag after it, and the greedy group runs to the last closing tag. *)
Definition search_execute (response_text : string) : option string :=
  rest ← after_first "[execute]" response_text;
  before_last "[/execute]" rest.

(** The attributes of a [CodeActAgent] that the methods read. *)
Record CodeActAgent := mkCodeActAgent {
  self_name : string;
  n_max_executions : Z;
  example_code : string;
}.

Inductive event (P : Type) :=
  | EvModel (prompt : P)
  | EvExec (code : string).
Arguments EvModel {P}.
Arguments EvExec {P}.

(** [memory] is [self.memory]. *)
Record state (W P : Type) := mkState {
  world : W;
  memory : list Msg;
  spoken : list Msg;
  trace : list (event P);
}.
Arguments mkState {W P}.
Arguments world {W P}.
Arguments memory {W P}.
Arguments spoken {W P}.
Arguments trace {W P}.

Section Agent.
Context {W P : Type}.

(** Collaborators that are not part of the repository's sources: the
    model wrapper behind [self.model] with its [format], the notebook
    executor (which answers every run with a status and an output), and
    Python's [str]. *)
Variable model_format : list Msg -> P.
Variable model : P -> M W (ModelResponse unit unit).
Variable run_code_on_notebook : string -> W -> ServiceResponse * W.
Variable str : val -> string.

Definition log (e : event P) : M (state W P) unit :=
  modify (fun s => mkState (world s) (memory s) (spoken s) (trace s ++ [e])).

(** Modelled from the spec: [AgentBase.speak], which is not among the
    sources; the agent emits the message. *)
Definition speak (msg : Msg) : M (state W P) unit :=
  modify (fun s => mkState (world s) (memory s) (spoken s ++ [msg]) (trace s)).

Definition in_world {A} (m : M W A) : M (state W P) A :=
  fun s => let '(r, w) := m (world s) in
           (r, mkState w (memory s) (spoken s) (trace s)).

(** Modelled from the spec: the conversation memory, whose class is not
    among the sources.  It is an ordered sequence of messages, its appends
    are monotonic, and [add(None)] adds nothing. *)
Definition memory_add (x : option Msg) : M (state W P) unit :=
  modify (fun s =>
    mkState (world s) (memory s ++ option_list x) (spoken s) (trace s)).

(** Modelled from the spec: [self.memory.get_memory()], the whole sequence. *)
Definition get_memory : M (state W P) (list Msg) :=
  fun s => (Ok (memory s), s).

(** Modelled from the spec: [self.memory.get_memory(1)[-1]], the trailing
    entry; indexing the empty list raises. *)
Definition memory_last : M (state W P) Msg :=
  fun s => match list.last (memory s) with
           | Some m => (Ok m, s)
           | None => (Raise (IndexError "list index out of range"), s)
           end.

(** [handle_code_result] *)
Definition handle_code_result
    (code_execution_result : ServiceResponse) (content_pre_sring : string) : Msg :=
  let code_exec_content := content_pre_sring in
  let code_exec_content :=
    match status code_execution_result with
    | SUCCESS => code_exec_content +:+ "Excution Successful:" +:+ LF
    | ERROR => code_exec_content +:+ "Excution Failed:" +:+ LF
    end in
  let code_exec_content :=
    code_exec_content +:+ ("Execution Output:" +:+ LF +:+
                           str (res_content code_execution_result)) in
  mkMsg "user" (VStr code_exec_content) "user" None.

(** [self.code_executor.run_code_on_notebook(code)] *)
Definition run_code (code : string) : M (state W P) ServiceResponse :=
  log (EvExec code);;
  in_world (fun w => let '(r, w') := run_code_on_notebook code w in (Ok r, w')).

(** [handle_code_execution]; [re.search] rejects a text that is [None]. *)
Definition handle_code_execution (response_text : option string)
  : M (state W P) (option ServiceResponse) :=
  match response_text with
  | None => raise (TypeError "expected string or bytes-like object, got 'NoneType'")
  | Some response_text =>
      match search_execute response_text with
      | Some code =>
          let code := strip code in
          result ← run_code code;
          mret (Some result)
      | None => mret None
      end
  end.

(** [CodeActAgent.__init__], on the empty memory the base class creates. *)
Definition init (name example_code : string) : M (state W P) CodeActAgent :=
  let self := mkCodeActAgent name 5 example_code in
  let sys_msg := mkMsg "system" (VStr SYSTEM_MESSAGE) "system" None in
  let example_msg := mkMsg "user" (VStr (EXAMPLE_MESSAGE example_code)) "user" None in
  memory_add (Some sys_msg);;
  (if negb (String.eqb example_code EmptyString) then
     code_execution_result ← run_code example_code;
     let code_exec_msg :=
       handle_code_result code_execution_result "Example Code excuted: " in
     memory_add (Some example_msg);;
     memory_add (Some code_exec_msg);;
     speak code_exec_msg
   else mret tt);;
  mret self.

Variable self : CodeActAgent.

Definition text_val (t : option string) : val :=
  match t with Some t => VStr t | None => VNone end.

(** The [while] loop of [reply]; the value is the final [excution_count]. *)
Fixpoint reply_loop (fuel : nat) (excution_count : Z) : M (state W P) Z :=
  trailing ← memory_last;
  if String.eqb (role trailing) "user" && (excution_count <? n_max_executions self) then
    match fuel with
    | O => out_of_fuel
    | S fuel' =>
        mem ← get_memory;
        let prompt := model_format mem in
        model_res ← (log (EvModel prompt);; in_world (model prompt));
        let msg_res := mkMsg (self_name self) (text_val (text model_res)) "assistant" None in
        memory_add (Some msg_res);;
        speak msg_res;;
        code_execution_result ← handle_code_execution (text model_res);
        match code_execution_result with
        | Some code_execution_result =>
            let excution_count := excution_count + 1 in
            let code_exec_msg := handle_code_result code_execution_result EmptyString in
            memory_add (Some code_exec_msg);;
            speak code_exec_msg;;
            reply_loop fuel' excution_count
        | None => reply_loop fuel' excution_count
        end
    end
  else mret excution_count.

Definition code_max_exec_msg : Msg :=
  mkMsg "assitant"
    (VStr ("I have reached the maximum number " +:+
           "of executions (self.n_max_executions=" +:+
           str_of_int (n_max_executions self) +:+ "). " +:+
           "Can you assist me or ask me another question?"))
    "assistant" None.

(** [reply] *)
Definition reply (fuel : nat) (x : option Msg) : M (state W P) unit :=
  memory_add x;;
  excution_count ← reply_loop fuel 0;
  if excution_count =? n_max_executions self then
    trailing ← memory_last;
    (if String.eqb (role trailing) "user" then mret tt else raise AssertionError);;
    memory_add (Some code_max_exec_msg);;
    speak code_max_exec_msg
  else mret tt.

(** ** Vocabulary of the properties *)

(** Every response of the model contains an execution block. *)
Definition always_executes : Prop :=
  forall prompt w, exists r w' t,
    model prompt w = (Ok r, w') /\ text r = Some t /\
    is_Some (search_execute t).

(** The trace of a run of rounds, each one model call followed by one
    code execution. *)
Definition rounds (calls : list (P * string)) : list (event P) :=
  calls ≫= (fun '(prompt, code) => [EvModel prompt; EvExec code]).

(** The trailing memory entry is tagged [user]. *)
Definition trailing_user (mem : list Msg) : Prop :=
  exists m, list.last mem = Some m /\ role m = "user".

(** [reply] returns after exactly [n_max_executions] rounds, so with that
    many executions and no model call after the last of them, and the
    memory then ends with the fixed notice. *)
Definition reaches_ceiling (fuel : nat) (x : option Msg) (s : state W P) : Prop :=
  exists s' calls,
    reply fuel x s = (Ok tt, s') /\
    trace s' = trace s ++ rounds calls /\
    Z.of_nat (length calls) = n_max_executions self /\
    list.last (memory s') = Some code_max_exec_msg.

End Agent.
End CodeAct.

(* ===================================================================== *)
(** * The chat formatter shared by the DashScope and ZhipuAI wrappers *)
(* ===================================================================== *)

Module ChatFormat.

(** An argument of [format] or an element of a list argument, by its class:
    a [Msg], an instance of another subclass of [MessageBase] (it has the
    same attributes), or any other value that is neither [None] nor a
    list. *)
Inductive pyobj :=
  | OMsg (m : Msg)
  | OMessageBase (m : Msg)
  | OVal (v : val).

(** One positional argument of [format(self, *args)]. *)
Inductive format_arg :=
  | ANone
  | AObj (o : pyobj)
  | AList (l : list pyobj).

Definition obj_type_name (o : pyobj) : string :=
  match o with
  | OMsg _ => "<class 'agentscope.message.Msg'>"
  | OMessageBase _ => "<class 'agentscope.message.MessageBase'>"
  | OVal v => type_name v
  end.

Definition arg_type_name (a : format_arg) : string :=
  match a with
  | ANone => "<class 'NoneType'>"
  | AObj o => obj_type_name o
  | AList _ => "<class 'list'>"
  end.

Section Format.
(** [isinstance(_, Msg)] in the DashScope wrapper and
    [isinstance(_, MessageBase)] in the ZhipuAI one: the message behind an
    object of the accepted class. *)
Variable as_message : pyobj -> option Msg.

(** [_convert_to_str] of [agentscope.utils.tools], which is not among the
    sources. *)
Variable _convert_to_str : val -> string.

Definition type_error (a : format_arg) : exn :=
  TypeError ("The input should be a Msg object or a list " +:+
             "of Msg objects, got " +:+ arg_type_name a +:+ ".").

(** [all(isinstance(__, Msg) for __ in _)], with the elements as messages. *)
Fixpoint all_messages (l : list pyobj) : option (list Msg) :=
  match l with
  | [] => Some []
  | o :: l' =>
      match as_message o, all_messages l' with
      | Some m, Some ms => Some (m :: ms)
      | _, _ => None
      end
  end.

(** The first loop: parse all arguments into [input_msgs]. *)
Fixpoint parse_args (args : list format_arg) (input_msgs : list Msg)
  : result (list Msg) :=
  match args with
  | [] => Ok input_msgs
  | a :: args' =>
      match a with
      | ANone => parse_args args' input_msgs
      | AObj o =>
          match as_message o with
          | Some m => parse_args args' (input_msgs ++ [m])
          | None => Raise (type_error a)
          end
      | AList l =>
          match all_messages l with
          | Some ms => parse_args args' (input_msgs ++ ms)
          | None => Raise (type_error a)
          end
      end
  end.

Definition system_entry (unit : Msg) : message :=
  {[ "role" := VStr (role unit);
     "content" := VStr (_convert_to_str (content unit)) ]}.

(** ["{unit.name}: {_convert_to_str(unit.content)}"] *)
Definition dialogue_line (unit : Msg) : string :=
  name unit +:+ ": " +:+ _convert_to_str (content unit).

(** [for i, unit in enumerate(input_msgs)], from index [i] on. *)
Fixpoint enumerate_loop (i : nat) (input_msgs : list Msg)
    (messages : list message) (dialogue : list string)
  : list message * list string :=
  match input_msgs with
  | [] => (messages, dialogue)
  | unit :: rest =>
      if Nat.eqb i 0 && String.eqb (role unit) "system"
      then enumerate_loop (S i) rest (messages ++ [system_entry unit]) dialogue
      else enumerate_loop (S i) rest messages (dialogue ++ [dialogue_line unit])
  end.

Definition user_entry (dialogue_history : string) : message :=
  {[ "role" := VStr "user";
     "content" := VStr ("## Dialogue History" +:+ LF +:+ dialogue_history) ]}.

(** [format] *)
Definition format (args : list format_arg) : result (list message) :=
  match parse_args args [] with
  | Ok input_msgs =>
      let '(messages, dialogue) := enumerate_loop 0 input_msgs [] [] in
      let dialogue_history := join LF dialogue in
      Ok (messages ++ [user_entry dialogue_history])
  | Raise e => Raise e
  | OutOfFuel => OutOfFuel
  end.

End Format.
End ChatFormat.

(** The [messages] argument of a chat wrapper call: a list of message
    dictionaries, as the docstrings of the wrappers describe it, or a value
    that is not a list. *)
Inductive messages_arg :=
  | MsgList (l : list message)
  | NotList (v : val).

(** ["role" in msg and "content" in msg] *)
Definition has_role_and_content (msg : message) : bool :=
  bool_decide (is_Some (msg !! "role")) && bool_decide (is_Some (msg !! "content")).

(** The argument is a list and every element has both keys. *)
Definition valid_messages (messages : messages_arg) : Prop :=
  exists msgs, messages = MsgList msgs /\
    forall msg, msg ∈ msgs -> is_Some (msg !! "role") /\ is_Some (msg !! "content").


(** Modelled from the spec: the usage monitor of [ModelWrapperBase], which
    is not among the sources.  A usage update adds each given amount to the
    metric of that name (call count +1, token counts from the response). *)
Definition update_monitor (amounts monitor : gmap string Z) : gmap string Z :=
  union_with (fun total amount => Some (total + amount)) monitor amounts.

(* ===================================================================== *)
(** * src/agentscope/models/dashscope_model.py *)
(* ===================================================================== *)

Module DashScope.

(** [HTTPStatus.OK] *)
Definition HTTPStatus_OK : Z := 200.

(** A [GenerationResponse] in the message result format;
    [output_content] is [output["choices"][0]["message"]["content"]]. *)
Record GenerationResponse := mkGenerationResponse {
  status_code : Z;
  request_id : string;
  code : string;
  message_ : string;
  output_content : string;
  usage : gmap string Z;
}.

Definition set_content (r : GenerationResponse) (text : string) : GenerationResponse :=
  mkGenerationResponse (status_code r) (request_id r) (code r) (message_ r)
                       text (usage r).

(** The attributes of a [DashScopeChatWrapper]. *)
Record DashScopeChatWrapper := mkWrapper {
  model_name : string;
  generate_args : gmap string val;
  self_stream : bool;
}.

(** Chunk objects are mutable and shared by reference. *)
Definition addr := nat.

Inductive event :=
  | EvRequest (kwargs : gmap string val)
  | EvYield (text : string)
  | EvUpdateMonitor (amounts : gmap string Z)
  | EvSaveInvocation (arguments : gmap string val) (response : GenerationResponse).

(** [heap]: the response objects; [monitor]: the usage metrics;
    [invocations]: the saved invocation records; [trace]: what happened, in
    order. *)
Record state := mkState {
  heap : addr -> GenerationResponse;
  monitor : gmap string Z;
  invocations : list (gmap string val * GenerationResponse);
  trace : list event;
}.

Definition log (e : event) : M state unit :=
  modify (fun s => mkState (heap s) (monitor s) (invocations s) (trace s ++ [e])).

Definition read (a : addr) : M state GenerationResponse :=
  fun s => (Ok (heap s a), s).

Definition write (a : addr) (r : GenerationResponse) : M state unit :=
  modify (fun s => mkState (<[a := r]> (heap s)) (monitor s) (invocations s) (trace s)).

(** Modelled from the spec: [self.update_monitor], called with the amounts
    as keyword arguments. *)
Definition self_update_monitor (amounts : gmap string Z) : M state unit :=
  log (EvUpdateMonitor amounts);;
  modify (fun s => mkState (heap s) (update_monitor amounts (monitor s))
                           (invocations s) (trace s)).

(** Modelled from the spec: [self._save_model_invocation], one record
    (arguments and response) per call. *)
Definition _save_model_invocation
    (arguments : gmap string val) (response : GenerationResponse) : M state unit :=
  log (EvSaveInvocation arguments response);;
  modify (fun s => mkState (heap s) (monitor s)
                           (invocations s ++ [(arguments, response)]) (trace s)).

(** [_save_model_invocation_and_update_monitor] *)
Definition _save_model_invocation_and_update_monitor
    (kwargs : gmap string val) (response : GenerationResponse) : M state unit :=
  let input_tokens := default 0 (usage response !! "input_tokens") in
  let output_tokens := default 0 (usage response !! "output_tokens") in
  self_update_monitor
    {[ "call_counter" := 1;
       "prompt_tokens" := input_tokens;
       "completion_tokens" := output_tokens;
       "total_tokens" := input_tokens + output_tokens ]};;
  _save_model_invocation kwargs response.

(** The error message of the streaming branch. *)
Definition chunk_error_msg (chunk : GenerationResponse) : string :=
  "Request id: " +:+ request_id chunk +:+ LF +:+
  "Status code: " +:+ str_of_int (status_code chunk) +:+ LF +:+
  "Error code: " +:+ code chunk +:+ LF +:+
  "Error message: " +:+ message_ chunk.

(** The error message of the blocking branch. *)
Definition response_error_msg (response : GenerationResponse) : string :=
  "Request id: " +:+ request_id response +:+ "," +:+ LF +:+
  "Status code: " +:+ str_of_int (status_code response) +:+ "," +:+ LF +:+
  "Error code: " +:+ code response +:+ "," +:+ LF +:+
  "Error message: " +:+ message_ response +:+ ".".

(** ** The generator of the streaming branch *)

(** A suspended run of [generator()]: its locals, the rest of the provider's
    stream, and the program point.  [pending] is the chunk whose
    [last_chunk = chunk] is still to run when the generator is resumed after
    its [yield]; [finished] is set once the body has returned or raised. *)
Record generator := mkGenerator {
  gen_kwargs : gmap string val;
  last_chunk : option addr;
  gen_text : string;
  pending : option addr;
  response : list addr;
  finished : bool;
}.

(** [generator()], before its first [next]. *)
Definition generator_start (kwargs : gmap string val) (response : list addr)
  : generator :=
  mkGenerator kwargs None EmptyString None response false.

Definition generator_finish (g : generator) : generator :=
  mkGenerator (gen_kwargs g) (last_chunk g) (gen_text g) None [] true.

(** [next(gen)]: [Ok (Some text, _)] is a yield and [Ok (None, _)] is
    [StopIteration]. *)
Definition next (g : generator) : M state (option string * generator) :=
  if finished g then mret (None, g)
  else
    (* resumed after the yield: last_chunk = chunk *)
    let last_chunk := match pending g with
                      | Some chunk => Some chunk
                      | None => last_chunk g
                      end in
    match response g with
    | chunk :: rest =>
        c ← read chunk;
        if negb (status_code c =? HTTPStatus_OK) then
          raise (RuntimeError (chunk_error_msg c))
        else
          let text := gen_text g +:+ output_content c in
          log (EvYield text);;
          mret (Some text,
                mkGenerator (gen_kwargs g) last_chunk text (Some chunk) rest false)
    | [] =>
        match last_chunk with
        | None =>
            raise (AttributeError "'NoneType' object has no attribute 'output'")
        | Some a =>
            (* Replace the last chunk with the full text *)
            c ← read a;
            write a (set_content c (gen_text g));;
            c ← read a;
            _save_model_invocation_and_update_monitor (gen_kwargs g) c;;
            mret (None, generator_finish g)
        end
    end.

(** [for text in gen: ...]: the consumer pulls until [StopIteration] and
    keeps what was yielded. *)
Fixpoint drain (fuel : nat) (g : generator) (yielded : list string)
  : M state (list string) :=
  match fuel with
  | O => out_of_fuel
  | S fuel' =>
      r ← next g;
      match r with
      | (Some text, g') => drain fuel' g' (yielded ++ [text])
      | (None, _) => mret yielded
      end
  end.

(** ** Vocabulary of the properties *)

(** The cumulative snapshots of a sequence of deltas: each is the full text
    so far, starting from [acc]. *)
Fixpoint cumulative (acc : string) (deltas : list string) : list string :=
  match deltas with
  | [] => []
  | d :: deltas' => (acc +:+ d) :: cumulative (acc +:+ d) deltas'
  end.

(** The fully assembled text. *)
Fixpoint assembled (deltas : list string) : string :=
  match deltas with
  | [] => EmptyString
  | d :: deltas' => d +:+ assembled deltas'
  end.

(** The deltas carried by a sequence of chunk objects in the heap [h]. *)
Definition contents (h : addr -> GenerationResponse) (chunks : list addr)
  : list string :=
  (fun a => output_content (h a)) <$> chunks.

(** The chunk [last_chunk] names once the loop of the generator is over. *)
Definition final_chunk (g : generator) : option addr :=
  match list.last (response g) with
  | Some a => Some a
  | None => match pending g with
            | Some a => Some a
            | None => last_chunk g
            end
  end.

(** The amounts of the usage update for a response. *)
Definition usage_amounts (r : GenerationResponse) : gmap string Z :=
  let input_tokens := default 0 (usage r !! "input_tokens") in
  let output_tokens := default 0 (usage r !! "output_tokens") in
  {[ "call_counter" := 1;
     "prompt_tokens" := input_tokens;
     "completion_tokens" := output_tokens;
     "total_tokens" := input_tokens + output_tokens ]}.

(** [raw] of the returned [ModelResponse]: the provider's answer. *)
Inductive raw_response :=
  | RawResponse (r : GenerationResponse)
  | RawStream (chunks : list addr).

Section Call.
(** [dashscope.Generation.call] on the keyword arguments: one blocking
    answer, or with
    [stream=True] a finite sequence of chunk objects. *)
Variable Generation_call : gmap string val -> GenerationResponse.
Variable Generation_stream : gmap string val -> list addr.

Variable self : DashScopeChatWrapper.

(** The keyword arguments of the request: the call-site options over the
    wrapper's defaults (step 1), then the update of step 3 and the switch
    to incremental output. *)
Definition request_kwargs (msgs : list message) (stream : bool)
    (kwargs : gmap string val) : gmap string val :=
  let kwargs := kwargs ∪ generate_args self in
  let kwargs :=
    <[ "stream" := VBool stream ]>
    (<[ "result_format" := VStr "message" ]>
    (<[ "messages" := VList (VDict <$> msgs) ]>
    (<[ "model" := VStr (model_name self) ]> kwargs))) in
  if stream then <[ "incremental_output" := VBool true ]> kwargs else kwargs.

(** [if stream is None: stream = self.stream] *)
Definition effective_stream (stream : option bool) : bool :=
  match stream with
  | None => self_stream self
  | Some b => b
  end.

(** [DashScopeChatWrapper.__call__] *)
Definition call (messages : messages_arg) (stream : option bool)
    (kwargs : gmap string val)
  : M state (ModelResponse generator raw_response) :=
  (* step2: checking messages *)
  match messages with
  | NotList v =>
      raise (ValueError ("Dashscope `messages` field expected type `list`, " +:+
                         "got `" +:+ type_name v +:+ "` instead."))
  | MsgList msgs =>
      if negb (forallb has_role_and_content msgs) then
        raise (ValueError ("Each message in the 'messages' list must contain a 'role' " +:+
                           "and 'content' key for DashScope API."))
      else
        (* step3: forward to generate response *)
        let stream := effective_stream stream in
        let kwargs := request_kwargs msgs stream kwargs in
        log (EvRequest kwargs);;
        if stream then
          let response := Generation_stream kwargs in
          mret (mkModelResponse None None
                  (Some (generator_start kwargs response)) (RawStream response))
        else
          let response := Generation_call kwargs in
          if negb (status_code response =? HTTPStatus_OK) then
            raise (RuntimeError (response_error_msg response))
          else
            _save_model_invocation_and_update_monitor kwargs response;;
            mret (mkModelResponse (Some (output_content response)) None None
                    (RawResponse response))
  end.

End Call.

(** [DashScopeChatWrapper.format]: the accepted class is [Msg]. *)
Definition as_Msg (o : ChatFormat.pyobj) : option Msg :=
  match o with
  | ChatFormat.OMsg m => Some m
  | _ => None
  end.

Definition format (_convert_to_str : val -> string)
  : list ChatFormat.format_arg -> result (list message) :=
  ChatFormat.format as_Msg _convert_to_str.

(** ** [DashScopeTextEmbeddingWrapper] *)

(** The answer of [dashscope.TextEmbedding.call]; [emb_output] is
    [response.output] and [emb_usage] is [response.usage]. *)
Record EmbeddingResponse := mkEmbeddingResponse {
  emb_status_code : Z;
  emb_request_id : string;
  emb_code : string;
  emb_message : string;
  emb_output : val;
  emb_usage : gmap string Z;
}.

Inductive emb_event :=
  | EmbRequest (texts : val) (kwargs : gmap string val)
  | EmbSaveInvocation (arguments : gmap string val) (response : EmbeddingResponse)
  | EmbUpdateMonitor (amounts : gmap string Z).

Record emb_state := mkEmbState {
  emb_monitor : gmap string Z;
  emb_trace : list emb_event;
}.

Definition emb_log (e : emb_event) : M emb_state unit :=
  modify (fun s => mkEmbState (emb_monitor s) (emb_trace s ++ [e])).

Section Embedding.
Variable TextEmbedding_call : val -> gmap string val -> EmbeddingResponse.
Variable model_name : string.
Variable generate_args : gmap string val.

(** [DashScopeTextEmbeddingWrapper.__call__] *)
Definition embedding_call (texts : val) (kwargs : gmap string val)
  : M emb_state (ModelResponse unit EmbeddingResponse) :=
  (* step1: prepare keyword arguments *)
  let kwargs := kwargs ∪ generate_args in
  (* step2: forward to generate response *)
  emb_log (EmbRequest texts kwargs);;
  let response := TextEmbedding_call texts kwargs in
  if negb (emb_status_code response =? HTTPStatus_OK) then
    raise (RuntimeError
             (" Request id: " +:+ emb_request_id response +:+ "," +:+
              " Status code: " +:+ str_of_int (emb_status_code response) +:+ "," +:+
              " error code: " +:+ emb_code response +:+ "," +:+
              " error message: " +:+ emb_message response +:+ "."))
  else
    (* step3: record the model api invocation if needed *)
    emb_log (EmbSaveInvocation
               (kwargs ∪ {[ "model" := VStr model_name; "input" := texts ]})
               response);;
    (* step4: update monitor accordingly *)
    (if bool_decide (is_Some (emb_usage response !! "call_counter")) then
       raise (TypeError "got multiple values for keyword argument 'call_counter'")
     else mret tt);;
    let amounts := <[ "call_counter" := 1 ]> (emb_usage response) in
    emb_log (EmbUpdateMonitor amounts);;
    modify (fun s => mkEmbState (update_monitor amounts (emb_monitor s)) (emb_trace s));;
    (* step5: return response *)
    embeddings ← lift (getitem (emb_output response) "embeddings");
    vectors ← lift (project_each "embedding" embeddings);
    mret (mkModelResponse None (Some (VList vectors)) None response).

End Embedding.
End DashScope.

(* ===================================================================== *)
(** * src/agentscope/models/zhipu_model.py *)
(* ===================================================================== *)

Module Zhipu.

(** The answer of [client.chat.completions.create]: the contents of the
    messages of its choices, its usage, and its [model_dump()]. *)
Record Completion := mkCompletion {
  choices : list (option string);
  usage : gmap string Z;
  model_dump : val;
}.

(** The answer of [client.embeddings.create]. *)
Record EmbeddingsResponded := mkEmbeddingsResponded {
  emb_usage : gmap string Z;
  emb_model_dump : val;
}.

Inductive event :=
  | EvRequest (kwargs : gmap string val)
  | EvEmbeddingRequest (input : val) (model : string)
  | EvSaveInvocation (arguments : gmap string val) (response : val)
  | EvUpdateMonitor (amounts : gmap string Z).

Record state := mkState {
  monitor : gmap string Z;
  invocations : list (gmap string val * val);
  trace : list event;
}.

Definition log (e : event) : M state unit :=
  modify (fun s => mkState (monitor s) (invocations s) (trace s ++ [e])).

(** Modelled from the spec: [self._save_model_invocation], one record
    (arguments and response) per call. *)
Definition _save_model_invocation (arguments : gmap string val) (response : val)
  : M state unit :=
  log (EvSaveInvocation arguments response);;
  modify (fun s => mkState (monitor s) (invocations s ++ [(arguments, response)])
                           (trace s)).

(** Modelled from the spec: [self.update_monitor(call_counter=1, ...)] with
    the usage unpacked after it; a usage that names [call_counter] again is
    rejected by the call itself. *)
Definition self_update_monitor (usage : gmap string Z) : M state unit :=
  (if bool_decide (is_Some (usage !! "call_counter")) then
     raise (TypeError "got multiple values for keyword argument 'call_counter'")
   else mret tt);;
  let amounts := <[ "call_counter" := 1 ]> usage in
  log (EvUpdateMonitor amounts);;
  modify (fun s => mkState (update_monitor amounts (monitor s)) (invocations s)
                           (trace s)).

Section Wrapper.
(** The client of the [zhipuai] package; its calls may raise. *)
Variable chat_completions_create : gmap string val -> result Completion.
Variable embeddings_create : val -> string -> result EmbeddingsResponded.

Variable model_name : string.
Variable generate_args : gmap string val.

(** [ZhipuAIChatWrapper.__call__] *)
Definition call (messages : messages_arg) (kwargs : gmap string val)
  : M state (ModelResponse unit val) :=
  (* step1: prepare keyword arguments *)
  let kwargs := kwargs ∪ generate_args in
  (* step2: checking messages *)
  match messages with
  | NotList v =>
      raise (ValueError ("ZhipuAI `messages` field expected type `list`, " +:+
                         "got `" +:+ type_name v +:+ "` instead."))
  | MsgList msgs =>
      if negb (forallb has_role_and_content msgs) then
        raise (ValueError ("Each message in the 'messages' list must contain a 'role' " +:+
                           "and 'content' key for ZhipuAI API."))
      else
        (* step3: forward to generate response *)
        (if bool_decide (is_Some (kwargs !! "model")) then
           raise (TypeError "got multiple values for keyword argument 'model'")
         else if bool_decide (is_Some (kwargs !! "messages")) then
           raise (TypeError "got multiple values for keyword argument 'messages'")
         else mret tt);;
        let request :=
          <[ "model" := VStr model_name ]>
          (<[ "messages" := VList (VDict <$> msgs) ]> kwargs) in
        log (EvRequest request);;
        response ← lift (chat_completions_create request);
        (* step4: record the api invocation if needed *)
        _save_model_invocation
          (kwargs ∪ {[ "model" := VStr model_name;
                       "messages" := VList (VDict <$> msgs) ]})
          (model_dump response);;
        (* step5: update monitor accordingly *)
        self_update_monitor (usage response);;
        (* step6: return response *)
        match choices response with
        | [] => raise (IndexError "list index out of range")
        | content :: _ =>
            mret (mkModelResponse content None None (model_dump response))
        end
  end.

(** [ZhipuAIEmbeddingWrapper.__call__] *)
Definition embedding_call (texts : val) (kwargs : gmap string val)
  : M state (ModelResponse unit val) :=
  (* step1: prepare keyword arguments *)
  let kwargs := kwargs ∪ generate_args in
  (* step2: forward to generate response *)
  log (EvEmbeddingRequest texts model_name);;
  response ← lift (embeddings_create texts model_name);
  (* step3: record the model api invocation if needed *)
  _save_model_invocation
    (kwargs ∪ {[ "model" := VStr model_name; "input" := texts ]})
    (emb_model_dump response);;
  (* step4: update monitor accordingly *)
  self_update_monitor (emb_usage response);;
  (* step5: return response *)
  let response_json := emb_model_dump response in
  data ← lift (getitem response_json "data");
  n ← lift (len data);
  if n =? 0 then
    data ← lift (getitem response_json "data");
    vectors ← lift (getitem data "embedding");
    vector ← lift (getitem0 vectors);
    mret (mkModelResponse None (Some vector) None response_json)
  else
    data ← lift (getitem response_json "data");
    vectors ← lift (project_each "embedding" data);
    mret (mkModelResponse None (Some (VList vectors)) None response_json).

End Wrapper.

(** [ZhipuAIChatWrapper.format]: the accepted class is [MessageBase]. *)
Definition as_MessageBase (o : ChatFormat.pyobj) : option Msg :=
  match o with
  | ChatFormat.OMsg m => Some m
  | ChatFormat.OMessageBase m => Some m
  | ChatFormat.OVal _ => None
  end.

Definition format (_convert_to_str : val -> string)
  : list ChatFormat.format_arg -> result (list message) :=
  ChatFormat.format as_MessageBase _convert_to_str.

End Zhipu.


(* ===================================================================== *)
(** * src/agentscope/models/dashscope_model.py: the multimodal wrapper *)
(* ===================================================================== *)

Module MultiModal.

(** A response of the multimodal API; [output_content] is
    [output["choices"][0]["message"]["content"]], a text or a list of
    blocks. *)
Record Response := mkResponse {
  status_code : Z;
  request_id : string;
  code : string;
  message_ : string;
  output_content : val;
  usage : gmap string Z;
}.

(** What [dashscope.MultiModalConversation.call] hands back: a response or,
    when streaming is asked for, a generator (the path the source marks as
    not handled). *)
Inductive answer :=
  | Answer (r : Response)
  | Generator.

(** The [ModelResponse(text=content, raw=response)] of the call; the text
    is whatever the provider put in the content. *)
Record TextResponse := mkTextResponse {
  text_value : val;
  raw_response : Response;
}.

Inductive event :=
  | EvRequest (kwargs : gmap string val)
  | EvSaveInvocation (arguments : gmap string val) (response : Response)
  | EvUpdateMonitor (amounts : gmap string Z).

Record state := mkState {
  monitor : gmap string Z;
  invocations : list (gmap string val * Response);
  trace : list event;
}.

Definition log (e : event) : M state unit :=
  modify (fun s => mkState (monitor s) (invocations s) (trace s ++ [e])).

(** Modelled from the spec: [self._save_model_invocation], one record
    (arguments and response) per call. *)
Definition _save_model_invocation
    (arguments : gmap string val) (response : Response) : M state unit :=
  log (EvSaveInvocation arguments response);;
  modify (fun s => mkState (monitor s) (invocations s ++ [(arguments, response)])
                           (trace s)).

(** Modelled from the spec: [self.update_monitor], called with the amounts
    as keyword arguments. *)
Definition self_update_monitor (amounts : gmap string Z) : M state unit :=
  log (EvUpdateMonitor amounts);;
  modify (fun s => mkState (update_monitor amounts (monitor s)) (invocations s)
                           (trace s)).

Definition error_msg (response : Response) : string :=
  " Request id: " +:+ request_id response +:+ "," +:+
  " Status code: " +:+ str_of_int (status_code response) +:+ "," +:+
  " error code: " +:+ code response +:+ "," +:+
  " error message: " +:+ message_ response +:+ ".".

Section Wrapper.
(** [dashscope.MultiModalConversation.call] on the keyword arguments. *)
Variable MultiModalConversation_call : gmap string val -> answer.

(** [_guess_type_by_extension] and [_convert_to_str] of
    [agentscope.utils.tools], which are not among the sources, and
    [os.path.exists]. *)
Variable _guess_type_by_extension : string -> string.
Variable _convert_to_str : val -> string.
Variable os_path_exists : string -> bool.

Variable model_name : string.
Variable generate_args : gmap string val.

(** [DashScopeMultiModalWrapper.__call__]; a keyword given twice (once by
    name, once in the unpacked options) is rejected by the call itself. *)
Definition call (messages : val) (kwargs : gmap string val) : M state TextResponse :=
  (* step1: prepare keyword arguments *)
  let kwargs := kwargs ∪ generate_args in
  (* step2: forward to generate response *)
  (if bool_decide (is_Some (kwargs !! "model")) then
     raise (TypeError "got multiple values for keyword argument 'model'")
   else if bool_decide (is_Some (kwargs !! "messages")) then
     raise (TypeError "got multiple values for keyword argument 'messages'")
   else mret tt);;
  let request :=
    <[ "model" := VStr model_name ]> (<[ "messages" := messages ]> kwargs) in
  log (EvRequest request);;
  match MultiModalConversation_call request with
  | Generator =>
      raise (AttributeError "'generator' object has no attribute 'status_code'")
  | Answer response =>
      if negb (status_code response =? DashScope.HTTPStatus_OK) then
        raise (RuntimeError (error_msg response))
      else
        (* step3: record the model api invocation if needed *)
        _save_model_invocation
          (kwargs ∪ {[ "model" := VStr model_name; "messages" := messages ]})
          response;;
        (* step4: update monitor accordingly *)
        let input_tokens := default 0 (usage response !! "input_tokens") in
        let image_tokens := default 0 (usage response !! "image_tokens") in
        let audio_tokens := default 0 (usage response !! "audio_tokens") in
        let output_tokens := default 0 (usage response !! "output_tokens") in
        self_update_monitor
          {[ "call_counter" := 1;
             "prompt_tokens" := input_tokens;
             "completion_tokens" := output_tokens;
             "total_tokens" :=
               input_tokens + output_tokens + image_tokens + audio_tokens ]};;
        (* step5: return response *)
        let content := output_content response in
        content ←
          match content with
          | VList _ =>
              block ← lift (getitem0 content);
              lift (getitem block "text")
          | _ => mret content
          end;
        mret (mkTextResponse content response)
  end.

(** [convert_url]; the warning it logs for a skipped url is not modelled. *)
Fixpoint convert_url (url : val) : result (list (gmap string val)) :=
  match url with
  | VNone => Ok []
  | VStr url =>
      let url_type := _guess_type_by_extension url in
      if bool_decide (url_type ∈ ["audio"; "image"]) then
        (* Add prefix for local files *)
        let url := if os_path_exists url then "file://" +:+ url else url in
        Ok [ {[ url_type := VStr url ]} ]
      else
        (* skip unsupported url *)
        Ok []
  | VList l =>
      (fix extend (l : list val) : result (list (gmap string val)) :=
         match l with
         | [] => Ok []
         | x :: l' =>
             match convert_url x with
             | Ok ds =>
                 match extend l' with
                 | Ok dicts => Ok (ds ++ dicts)
                 | Raise e => Raise e
                 | OutOfFuel => OutOfFuel
                 end
             | Raise e => Raise e
             | OutOfFuel => OutOfFuel
             end
         end) l
  | _ =>
      Raise (TypeError ("Unsupported url type " +:+ type_name url +:+ ", " +:+
                        "str or list expected."))
  end.

(** [unit.url], where an absent url is [None]. *)
Definition url_of (unit : Msg) : val := default VNone (url unit).

Definition text_block (t : string) : gmap string val := {[ "text" := VStr t ]}.

(** [for i, unit in enumerate(input_msgs)], from index [i] on. *)
Fixpoint enumerate_loop (i : nat) (input_msgs : list Msg)
    (messages : list message) (dialogue : list string)
    (image_or_audio_dicts : list (gmap string val))
  : result (list message * list string * list (gmap string val)) :=
  match input_msgs with
  | [] => Ok (messages, dialogue, image_or_audio_dicts)
  | unit :: rest =>
      if Nat.eqb i 0 && String.eqb (role unit) "system" then
        (* system prompt *)
        match convert_url (url_of unit) with
        | Ok blocks =>
            let blocks := blocks ++ [text_block (_convert_to_str (content unit))] in
            enumerate_loop (S i) rest
              (messages ++ [ {[ "role" := VStr (role unit);
                                "content" := VList (VDict <$> blocks) ]} ])
              dialogue image_or_audio_dicts
        | Raise e => Raise e
        | OutOfFuel => OutOfFuel
        end
      else
        (* text message *)
        let dialogue :=
          dialogue ++ [name unit +:+ ": " +:+ _convert_to_str (content unit)] in
        (* image and audio *)
        match convert_url (url_of unit) with
        | Ok ds => enumerate_loop (S i) rest messages dialogue (image_or_audio_dicts ++ ds)
        | Raise e => Raise e
        | OutOfFuel => OutOfFuel
        end
  end.

(** [DashScopeMultiModalWrapper.format] *)
Definition format (args : list ChatFormat.format_arg) : result (list message) :=
  match ChatFormat.parse_args DashScope.as_Msg args [] with
  | Ok input_msgs =>
      match enumerate_loop 0 input_msgs [] [] [] with
      | Ok (messages, dialogue, image_or_audio_dicts) =>
          let dialogue_history := join LF dialogue in
          Ok (messages ++
              [ {[ "role" := VStr "user";
                   "content" :=
                     VList (VDict <$>
                       (* Place the image or audio before the dialogue history *)
                       (image_or_audio_dicts ++
                        [text_block ("## Dialogue History" +:+ LF +:+ dialogue_history)])) ]} ])
      | Raise e => Raise e
      | OutOfFuel => OutOfFuel
      end
  | Raise e => Raise e
  | OutOfFuel => OutOfFuel
  end.

End Wrapper.
End MultiModal.

(* ===================================================================== *)
(** * src/agentscope/models/dashscope_model.py: the image synthesis wrapper *)
(* ===================================================================== *)

Module ImageSynthesis.

(** A response of the image synthesis API; [output] is [response.output]. *)
Record Response := mkResponse {
  status_code : Z;
  request_id : string;
  code : string;
  message_ : string;
  output : val;
  usage : gmap string Z;
}.

(** The [ModelResponse(image_urls=urls, raw=response)] of the call. *)
Record ImageResponse := mkImageResponse {
  image_urls : list val;
  raw_response : Response;
}.

Inductive event :=
  | EvRequest (kwargs : gmap string val)
  | EvSaveInvocation (arguments : gmap string val) (response : Response)
  | EvUpdateMonitor (amounts : gmap string Z)
  | EvSaveImage (url : val).

(** [world] is the state of the file manager. *)
Record state (W : Type) := mkState {
  world : W;
  monitor : gmap string Z;
  invocations : list (gmap string val * Response);
  trace : list event;
}.
Arguments mkState {W}.
Arguments world {W}.
Arguments monitor {W}.
Arguments invocations {W}.
Arguments trace {W}.

Section Wrapper.
Context {W : Type}.

(** [dashscope.ImageSynthesis.call] on the keyword arguments, and
    [file_manager.save_image], which is not among the sources. *)
Variable ImageSynthesis_call : gmap string val -> Response.
Variable save_image : val -> M W val.

Variable model_name : string.
Variable generate_args : gmap string val.

Definition log (e : event) : M (state W) unit :=
  modify (fun s => mkState (world s) (monitor s) (invocations s) (trace s ++ [e])).

(** [[file_manager.save_image(_) for _ in urls]] *)
Fixpoint save_all (urls : list val) : M (state W) (list val) :=
  match urls with
  | [] => mret []
  | url :: urls' =>
      log (EvSaveImage url);;
      saved ← (fun s => let '(r, w) := save_image url (world s) in
                        (r, mkState w (monitor s) (invocations s) (trace s)));
      rest ← save_all urls';
      mret (saved :: rest)
  end.

(** [DashScopeImageSynthesisWrapper.__call__]; a keyword given twice is
    rejected by the call itself. *)
Definition call (prompt : string) (save_local : bool) (kwargs : gmap string val)
  : M (state W) ImageResponse :=
  (* step1: prepare keyword arguments *)
  let kwargs := kwargs ∪ generate_args in
  (* step2: forward to generate response *)
  (if bool_decide (is_Some (kwargs !! "model")) then
     raise (TypeError "got multiple values for keyword argument 'model'")
   else if bool_decide (is_Some (kwargs !! "prompt")) then
     raise (TypeError "got multiple values for keyword argument 'prompt'")
   else mret tt);;
  let request :=
    <[ "model" := VStr model_name ]> (<[ "prompt" := VStr prompt ]> kwargs) in
  log (EvRequest request);;
  let response := ImageSynthesis_call request in
  if negb (status_code response =? DashScope.HTTPStatus_OK) then
    raise (RuntimeError
             (" Request id: " +:+ request_id response +:+ "," +:+
              " Status code: " +:+ str_of_int (status_code response) +:+ "," +:+
              " error code: " +:+ code response +:+ "," +:+
              " error message: " +:+ message_ response +:+ "."))
  else
    (* step3: record the model api invocation if needed *)
    log (EvSaveInvocation
           (kwargs ∪ {[ "model" := VStr model_name; "prompt" := VStr prompt ]})
           response);;
    modify (fun s =>
      mkState (world s) (monitor s)
        (invocations s ++
         [(kwargs ∪ {[ "model" := VStr model_name; "prompt" := VStr prompt ]},
           response)])
        (trace s));;
    (* step4: update monitor accordingly *)
    (if bool_decide (is_Some (usage response !! "call_counter")) then
       raise (TypeError "got multiple values for keyword argument 'call_counter'")
     else mret tt);;
    let amounts := <[ "call_counter" := 1 ]> (usage response) in
    log (EvUpdateMonitor amounts);;
    modify (fun s => mkState (world s) (update_monitor amounts (monitor s))
                             (invocations s) (trace s));;
    (* step5: return response *)
    images ← lift (getitem (output response) "results");
    (* Get image urls as a list *)
    urls ← lift (project_each "url" images);
    if save_local then
      (* Return local url if save_local is True *)
      urls ← save_all urls;
      mret (mkImageResponse urls response)
    else mret (mkImageResponse urls response).

End Wrapper.
End ImageSynthesis.

(* ===================================================================== *)
(** * Vocabulary of further properties *)
(* ===================================================================== *)

Module Observe.

(** The part of [s] before the first occurrence of [sep] (all of [s] when
    there is none). *)
Fixpoint before (sep s : string) : string :=
  match s with
  | EmptyString => EmptyString
  | String c s' => if startswith s sep then EmptyString else String c (before sep s')
  end.

(** [s] does not start with a space character. *)
Definition starts_nonspace (s : string) : Prop :=
  match s with
  | EmptyString => True
  | String c _ => isspace c = false
  end.

(** The number of code executions in a trace of the CodeAct agent. *)
Definition executions {P} (t : list (CodeAct.event P)) : nat :=
  length (List.filter (fun e => match e with
                                | CodeAct.EvExec _ => true
                                | CodeAct.EvModel _ => false
                                end) t).

(** The number of model calls in a trace of the CodeAct agent. *)
Definition model_calls {P} (t : list (CodeAct.event P)) : nat :=
  length (List.filter (fun e => match e with
                                | CodeAct.EvModel _ => true
                                | CodeAct.EvExec _ => false
                                end) t).

(** A computation of the SQL agent that only adds to the trace, and adds at
    most [k] database queries. *)
Definition adds_queries {W A} (k : nat) (m : M (SQL.state W) A) : Prop :=
  forall s, exists t,
    SQL.trace (m s).2 = SQL.trace s ++ t /\ (length (SQL.queries t) <= k)%nat.

(** A computation that ends, by returning or by raising, from every
    state: it never meets the bound put on the iterations of a loop. *)
Definition ends {S A} (m : M S A) : Prop :=
  forall s, (m s).1 <> OutOfFuel.

(** An argument that [format] accepts: [None], an object of the accepted
    class, or a list of such objects. *)
Definition acceptable (as_message : ChatFormat.pyobj -> option Msg)
    (a : ChatFormat.format_arg) : bool :=
  match a with
  | ChatFormat.ANone => true
  | ChatFormat.AObj o => bool_decide (is_Some (as_message o))
  | ChatFormat.AList l => forallb (fun o => bool_decide (is_Some (as_message o))) l
  end.

(** The messages that the arguments of [format] carry, in order. *)
Definition messages_of (as_message : ChatFormat.pyobj -> option Msg)
    (args : list ChatFormat.format_arg) : list Msg :=
  concat ((fun a => match a with
                    | ChatFormat.ANone => []
                    | ChatFormat.AObj o => option_list (as_message o)
                    | ChatFormat.AList l => omap as_message l
                    end) <$> args).

(** The keys of a request that the chat wrapper of DashScope sets itself. *)
Definition reserved_keys : list string :=
  ["model"; "messages"; "result_format"; "stream"; "incremental_output"].

(** Every dictionary has exactly one entry, under the key [image] or the
    key [audio]. *)
Definition media_dict (d : gmap string val) : Prop :=
  exists url, d = {[ "image" := VStr url ]} \/ d = {[ "audio" := VStr url ]}.

End Observe.

(* ===================================================================== *)
(** * Scenarios: concrete collaborators on which the code is run *)
(* ===================================================================== *)

Module Scenario.

Definition reply_text (t : string) : ModelResponse unit unit :=
  mkModelResponse (Some t) None None tt.

(** A model that answers every prompt with the same text. *)
Definition constant_model {A} (t : string) : A -> M unit (ModelResponse unit unit) :=
  fun _ w => (Ok (reply_text t), w).

Definition show (v : val) : string :=
  match v with
  | VStr s => s
  | _ => type_name v
  end.

(** ** The SQL agent *)

(** A model that finds the classification prompt SQL-related and answers
    any other prompt with a column list. *)
Definition sql_model (messages : list (gmap string val))
  : M unit (ModelResponse unit unit) :=
  fun w =>
    match messages with
    | [m] => match m !! "content" with
             | Some (VStr "classify") => (Ok (reply_text "YES"), w)
             | _ => (Ok (reply_text "id FROM singer"), w)
             end
    | _ => (Ok (reply_text "id FROM singer"), w)
    end.

(** A database on which every query fails. *)
Definition failing_query (sql path_db : string) : M unit string :=
  fun w => (Raise (ExternalError "sqlite3.OperationalError" "no such table: singer"), w).

Definition sql_agent : SQL.SQLAgent :=
  SQL.init "sql agent" "concert_singer" "./database/concert_singer/concert_singer.sqlite".

Definition question : Msg :=
  mkMsg "user" (VStr "How many singers are there?") "user" None.

Definition sql_start : SQL.state unit := SQL.mkState tt [] [] [].

Definition sql_reply (x : option Msg) : result Msg * SQL.state unit :=
  SQL.reply sql_model failing_query (fun _ => VStr "classify") (VStr "describe")
            (fun _ => VStr "generate") show sql_agent 3 x sql_start.

(** ** The CodeAct agent *)

(** A model whose every response asks for an execution. *)
Definition exec_model : list Msg -> M unit (ModelResponse unit unit) :=
  constant_model "Let me check. [execute] print(1 + 1) [/execute]".

Definition notebook (code : string) (w : unit) : CodeAct.ServiceResponse * unit :=
  (CodeAct.mkServiceResponse CodeAct.SUCCESS (VStr "2"), w).

(** The agent and its memory after [__init__] without example code. *)
Definition codeact_init : result CodeAct.CodeActAgent * CodeAct.state unit (list Msg) :=
  CodeAct.init notebook show "assistant" EmptyString (CodeAct.mkState tt [] [] []).

Definition codeact_agent : CodeAct.CodeActAgent :=
  CodeAct.mkCodeActAgent "assistant" 5 EmptyString.

Definition codeact_start : CodeAct.state unit (list Msg) := codeact_init.2.

Definition codeact_reply (fuel : nat) (x : option Msg)
  : result unit * CodeAct.state unit (list Msg) :=
  CodeAct.reply (fun mem => mem) exec_model notebook show codeact_agent fuel x
                codeact_start.

(** A message that comes from another agent. *)
Definition from_agent : Msg :=
  mkMsg "Bob" (VStr "Please compute 1 + 1.") "assistant" None.

Definition from_user : Msg :=
  mkMsg "user" (VStr "Please compute 1 + 1.") "user" None.

(** ** The chat wrappers *)

Definition user_messages : list (gmap string val) :=
  [ {[ "role" := VStr "user"; "content" := VStr "Hi" ]} ].

Definition ds_wrapper : DashScope.DashScopeChatWrapper :=
  DashScope.mkWrapper "qwen-max" ∅ false.

Definition chunk (delta : string) : DashScope.GenerationResponse :=
  DashScope.mkGenerationResponse 200 "req-1" EmptyString EmptyString delta
    {[ "input_tokens" := 3; "output_tokens" := 2 ]}.

(** Two chunk objects, at the addresses 0 and 1. *)
Definition ds_heap (a : DashScope.addr) : DashScope.GenerationResponse :=
  match a with
  | O => chunk "Hel"
  | _ => chunk "lo"
  end.

Definition ds_start : DashScope.state := DashScope.mkState ds_heap ∅ [] [].

Definition server_error : DashScope.GenerationResponse :=
  DashScope.mkGenerationResponse 500 "req-2" "InternalError" "server busy"
    EmptyString ∅.

(** A streaming call on a provider that sends the chunks at [chunks]. *)
Definition ds_stream_call (chunks : list DashScope.addr) :=
  DashScope.call (fun _ => server_error) (fun _ => chunks) ds_wrapper
                 (MsgList user_messages) (Some true) ∅ ds_start.

Definition ds_generator (chunks : list DashScope.addr) : DashScope.generator :=
  DashScope.generator_start
    (DashScope.request_kwargs ds_wrapper user_messages true ∅) chunks.

Definition ds_drained (chunks : list DashScope.addr) :=
  DashScope.drain 3 (ds_generator chunks) [] (ds_stream_call chunks).2.

(** A blocking call on a provider that answers with a server error. *)
Definition ds_blocking_call :=
  DashScope.call (fun _ => server_error) (fun _ => []) ds_wrapper
                 (MsgList user_messages) None ∅ ds_start.

(** ** The embedding wrapper of ZhipuAI *)

Definition embedding_usage : gmap string Z :=
  {[ "prompt_tokens" := 0; "completion_tokens" := 0; "total_tokens" := 0 ]}.

Definition vector : val := VList [VFloat 1 (-1); VFloat 3 (-2)].

(** A successful answer that holds the embeddings [items]. *)
Definition embeddings_of (items : list val) : Zhipu.EmbeddingsResponded :=
  Zhipu.mkEmbeddingsResponded embedding_usage
    (VDict {[ "model" := VStr "embedding-2"; "object" := VStr "list";
              "data" := VList items ]}).

Definition zhipu_embed (items : list val) :=
  Zhipu.embedding_call (fun _ _ => Ok (embeddings_of items)) "embedding-2" ∅
                       (VStr "hello") ∅ (Zhipu.mkState ∅ [] []).

(** ** The chat formatter *)

Definition system_prompt : Msg :=
  mkMsg "system" (VStr "You're a helpful assistant") "system" None.

Definition bob : Msg :=
  mkMsg "Bob" (VStr "Hi, how can I help you?") "assistant" None.

Definition user_turn : Msg :=
  mkMsg "user" (VStr "What's the date today?") "user" None.

(** ** Further collaborators *)

(** A model whose service cannot be reached. *)
Definition unreachable_model {A} : A -> M unit (ModelResponse unit unit) :=
  fun _ w => (Raise (ExternalError "ConnectionError" "timed out"), w).

(** A database that answers every query. *)
Definition answering_query (sql path_db : string) : M unit string :=
  fun w => (Ok "[(1,), (2,)]", w).

(** The SQL agent with a given model and database. *)
Definition sql_reply_with
    (model : list (gmap string val) -> M unit (ModelResponse unit unit))
    (query : string -> string -> M unit string) (fuel : nat) (x : option Msg)
  : result Msg * SQL.state unit :=
  SQL.reply model query (fun _ => VStr "classify") (VStr "describe")
            (fun _ => VStr "generate") show sql_agent fuel x sql_start.

(** The CodeAct agent with a given model. *)
Definition codeact_reply_with
    (model : list Msg -> M unit (ModelResponse unit unit)) (fuel : nat)
    (x : option Msg) : result unit * CodeAct.state unit (list Msg) :=
  CodeAct.reply (fun mem => mem) model notebook show codeact_agent fuel x
                codeact_start.

(** A stream whose second chunk reports a server error. *)
Definition ds_failing_heap (a : DashScope.addr) : DashScope.GenerationResponse :=
  match a with
  | O => chunk "Hel"
  | _ => server_error
  end.

Definition ds_failing_start : DashScope.state :=
  DashScope.mkState ds_failing_heap ∅ [] [].

(** A blocking call on a provider that answers with the text [Hello]. *)
Definition ds_ok_call :=
  DashScope.call (fun _ => chunk "Hello") (fun _ => []) ds_wrapper
                 (MsgList user_messages) None ∅ ds_start.

(** An answer of the chat API of ZhipuAI. *)
Definition completion : Zhipu.Completion :=
  Zhipu.mkCompletion [Some "Hello"]
    {[ "prompt_tokens" := 3; "completion_tokens" := 2; "total_tokens" := 5 ]}
    (VDict {[ "id" := VStr "req-3" ]}).

Definition zhipu_start : Zhipu.state := Zhipu.mkState ∅ [] [].

(** File types by name, and the one file that exists locally. *)
Definition guess_type (url : string) : string :=
  if String.eqb url "cat.png" then "image"
  else if String.eqb url "https://example.com/dog.jpg" then "image"
  else if String.eqb url "hello.mp3" then "audio"
  else "unknown".

Definition local_file (url : string) : bool := String.eqb url "cat.png".

Definition system_with_figure : Msg :=
  mkMsg "system" (VStr "You're a helpful assistant") "system" (Some (VStr "cat.png")).

Definition bob_with_figures : Msg :=
  mkMsg "Bob" (VStr "How about this picture?") "assistant"
        (Some (VList [VStr "https://example.com/dog.jpg"; VStr "notes.txt"])).

Definition user_with_audio : Msg :=
  mkMsg "user" (VStr "Listen to this.") "user" (Some (VStr "hello.mp3")).

Definition user_with_bad_url : Msg :=
  mkMsg "user" (VStr "Look.") "user" (Some (VInt 7)).

(** An answer of the multimodal API whose content is a list of blocks. *)
Definition mm_response : MultiModal.Response :=
  MultiModal.mkResponse 200 "req-4" EmptyString EmptyString
    (VList [VDict {[ "text" := VStr "A cat." ]}])
    {[ "input_tokens" := 3; "output_tokens" := 2; "image_tokens" := 10 ]}.

Definition mm_error : MultiModal.Response :=
  MultiModal.mkResponse 400 "req-5" "InvalidParameter" "bad image" VNone ∅.

Definition mm_start : MultiModal.state := MultiModal.mkState ∅ [] [].

(** An answer of the image synthesis API with two images. *)
Definition image_response : ImageSynthesis.Response :=
  ImageSynthesis.mkResponse 200 "req-6" EmptyString EmptyString
    (VDict {[ "results" := VList [VDict {[ "url" := VStr "https://example.com/1.png" ]};
                                  VDict {[ "url" := VStr "https://example.com/2.png" ]}] ]})
    {[ "image_count" := 2 ]}.

Definition image_error : ImageSynthesis.Response :=
  ImageSynthesis.mkResponse 429 "req-7" "Throttling" "too many requests" VNone ∅.

(** A file manager that stores every image under the same local name. *)
Definition save_image (url : val) : M unit val :=
  fun w => (Ok (VStr "./run/image.png"), w).

Definition image_start : ImageSynthesis.state unit :=
  ImageSynthesis.mkState tt ∅ [] [].

End Scenario.

(* ===================================================================== *)
(** * Strings *)
(* ===================================================================== *)

Lemma append_cons x (a b : string) : String x a +:+ b = String x (a +:+ b).
Proof. reflexivity. Qed.

Lemma append_assoc (a b c : string) : (a +:+ b) +:+ c = a +:+ (b +:+ c).
Proof.
  induction a as [|x a IH]; [reflexivity|]. rewrite !append_cons, IH. reflexivity.
Qed.

Lemma append_empty_r (a : string) : a +:+ EmptyString = a.
Proof.
  induction a as [|x a IH]; [reflexivity|]. rewrite !append_cons, IH. reflexivity.
Qed.

Lemma contains_here (sub post : string) : contains (sub +:+ post) sub.
Proof. exists EmptyString, post. reflexivity. Qed.

Lemma contains_later (p s sub : string) : contains s sub -> contains (p +:+ s) sub.
Proof.
  intros (pre & post & ->). exists (p +:+ pre), post.
  rewrite append_assoc. reflexivity.
Qed.


Example split_ws_runs : split_ws "  a  b c " = ["a"; "b"; "c"].
Proof. reflexivity. Qed.

Example split_on_comment : split "ab/*cd/*e" "/*" = ["ab"; "cd"; "e"].
Proof. reflexivity. Qed.

Example strip_both_ends : strip "  a b  " = "a b".
Proof. reflexivity. Qed.

Example lower_mixed : lower "YeS" = "yes".
Proof. reflexivity. Qed.

Example str_of_int_500 : str_of_int 500 = "500".
Proof. reflexivity. Qed.

(* ===================================================================== *)
(** * Properties of the SQL agent *)
(* ===================================================================== *)

Section SQLProperties.
Context {W : Type}.
Variable model : list (gmap string val) -> M W (ModelResponse unit unit).
Variable query_sqlite : string -> string -> M W string.
Variable is_sql_question_prompt : val -> val.
Variable describe_sql : val.
Variable generate_prompt : Msg -> val.
Variable str : val -> string.
Variable self : SQL.SQLAgent.

Lemma get_response_from_prompt_text prompt (s : SQL.state W) r w' t :
  model (SQL.assistant_messages prompt) (SQL.world s) = (Ok r, w') ->
  text r = Some t ->
  (SQL.get_response_from_prompt model prompt s).1 =
    Ok (let sql := SQL.process_duplication
                     (join " " (split_ws (replace_char "010" " " t))) in
        if startswith sql "SELECT" then sql +:+ LF
        else if startswith sql " " then "SELECT" +:+ sql +:+ LF
        else "SELECT " +:+ sql +:+ LF).
Proof.
  intros Hm Ht.
  unfold SQL.get_response_from_prompt, SQL.call_model, SQL.text_or_raise.
  unfold mbind, M_bind, bind, SQL.log, modify, SQL.in_world. simpl.
  rewrite Hm. simpl. rewrite Ht. simpl.
  repeat case_match; reflexivity.
Qed.


(** ** The retry loop *)

Ltac run :=
  unfold mbind, M_bind, mret, M_ret, bind, ret, raise, modify, lift,
    SQL.log, SQL.in_world, SQL.print, SQL.speak, SQL.call_model,
    SQL.text_or_raise, SQL.return_local in *; simpl in *.

Lemma keeps_bind {A B} (m : M (SQL.state W) A) (k : A -> M (SQL.state W) B) :
  SQL.keeps_stdout m -> (forall a, SQL.keeps_stdout (k a)) -> SQL.keeps_stdout (m ≫= k).
Proof.
  intros Hm Hk s. unfold mbind, M_bind, bind. specialize (Hm s).
  destruct (m s) as [[a|e|] s1]; simpl in *; [|done..].
  rewrite Hk. exact Hm.
Qed.

Lemma keeps_ret {A} (a : A) : SQL.keeps_stdout (mret a : M (SQL.state W) A).
Proof. intros s. reflexivity. Qed.

Lemma keeps_raise {A} e : SQL.keeps_stdout (raise e : M (SQL.state W) A).
Proof. intros s. reflexivity. Qed.

Lemma keeps_log e : SQL.keeps_stdout (SQL.log e : M (SQL.state W) unit).
Proof. intros s. reflexivity. Qed.

Lemma keeps_speak m : SQL.keeps_stdout (SQL.speak m : M (SQL.state W) unit).
Proof. intros s. reflexivity. Qed.

Lemma keeps_in_world {A} (m : M W A) : SQL.keeps_stdout (SQL.in_world m).
Proof. intros s. unfold SQL.in_world. destruct (m (SQL.world s)). reflexivity. Qed.

Ltac keeps :=
  repeat first
    [ apply keeps_ret | apply keeps_raise | apply keeps_log | apply keeps_speak
    | apply keeps_in_world | apply keeps_bind; [|intros ?] | case_match ].

Lemma attempt_body_stdout x prompt l (s : SQL.state W) :
  SQL.stdout (SQL.attempt_body model query_sqlite str self x prompt l s).2
  = SQL.stdout s.
Proof.
  revert s. change (SQL.keeps_stdout (SQL.attempt_body model query_sqlite str self x prompt l)).
  unfold SQL.attempt_body, SQL.get_response_from_prompt, SQL.answer_from_result,
    SQL.call_model, SQL.text_or_raise.
  keeps.
Qed.

Lemma retry_lines_length n a : length (SQL.retry_lines self n a) = n.
Proof. revert a. induction n; simpl; intros; [|rewrite IHn]; reflexivity. Qed.

Section AllAttemptsFail.
Variable x : Msg.
Variable prompt : val.
Hypothesis always_fails :
  forall l (s : SQL.state W),
    exists e, (SQL.attempt_body model query_sqlite str self x prompt l s).1 = Raise e.

(** When every attempt raises, the loop runs until the bound, prints one
    line per attempt and leaves [result] and [msg] as they were. *)
Lemma retry_loop_all_fail fuel l (s : SQL.state W) :
  (Z.to_nat (SQL.max_retries self - SQL.attempt l) <= fuel)%nat ->
  exists s',
    SQL.retry_loop model query_sqlite str self fuel x prompt l s
    = (Ok (SQL.mkLocals (Z.max (SQL.attempt l) (SQL.max_retries self))
                        (SQL.result_ l) (SQL.msg l)), s') /\
    SQL.stdout s' =
      SQL.stdout s ++
      SQL.retry_lines self (Z.to_nat (SQL.max_retries self - SQL.attempt l)) (SQL.attempt l).
Proof.
  revert l s. induction fuel as [|fuel IH]; intros l s Hfuel.
  - simpl. destruct (Z.ltb_spec (SQL.attempt l) (SQL.max_retries self)); [lia|].
    exists s. replace (Z.to_nat _) with 0%nat by lia.
    rewrite Z.max_l by lia. destruct l; simpl. rewrite app_nil_r. done.
  - simpl. destruct (Z.ltb_spec (SQL.attempt l) (SQL.max_retries self)) as [Hlt|Hge].
    + unfold try_except.
      destruct (always_fails l s) as [e He].
      pose proof (attempt_body_stdout x prompt l s) as Hout.
      destruct (SQL.attempt_body _ _ _ _ _ _ _ s) as [r s1]. simpl in He, Hout.
      subst r. run.
      destruct (IH (SQL.mkLocals (SQL.attempt l + 1) (SQL.result_ l) (SQL.msg l))
                   (SQL.mkState (SQL.world s1) (SQL.stdout s1 ++ [SQL.retry_line self (SQL.attempt l)])
                                (SQL.spoken s1) (SQL.trace s1)))
        as (s' & Hrun & Hs'); [simpl; lia|].
      exists s'. rewrite Hrun. simpl in *. split.
      * rewrite !Z.max_r by lia. reflexivity.
      * rewrite Hs', Hout.
        replace (Z.to_nat (SQL.max_retries self - SQL.attempt l))
          with (S (Z.to_nat (SQL.max_retries self - (SQL.attempt l + 1)))) by lia.
        simpl. rewrite <- app_assoc. reflexivity.
    + exists s. replace (Z.to_nat _) with 0%nat by lia.
      rewrite Z.max_l by lia. destruct l; simpl. rewrite app_nil_r. done.
Qed.
End AllAttemptsFail.

(** When the request is found SQL-related and every attempt raises,
    [reply] makes [max_retries] attempts, prints the fallback notice and
    then raises at [return msg]: the local [msg] was never assigned. *)
Lemma reply_all_attempts_fail fuel x (s s1 : SQL.state W) t :
  SQL.is_question_related model is_sql_question_prompt (content x) s
    = (Ok (Some t), s1) ->
  lower t = "yes" ->
  (forall l (s : SQL.state W),
      exists e, (SQL.attempt_body model query_sqlite str self x
                                  (generate_prompt x) l s).1 = Raise e) ->
  (Z.to_nat (SQL.max_retries self) <= fuel)%nat ->
  exists s',
    SQL.reply model query_sqlite is_sql_question_prompt describe_sql
              generate_prompt str self fuel (Some x) s
    = (Raise (UnboundLocalError "msg"), s') /\
    SQL.stdout s' =
      SQL.stdout s1 ++ SQL.retry_lines self (Z.to_nat (SQL.max_retries self)) 0
                    ++ [SQL.sorry_line self].
Proof.
  intros Hq Hyes Hfail Hfuel.
  destruct (retry_loop_all_fail x (generate_prompt x) Hfail fuel
              (SQL.mkLocals 0 None None) s1) as (s2 & Hloop & Hout).
  { simpl. lia. }
  simpl in Hloop, Hout. rewrite Z.sub_0_r in Hout.
  exists (SQL.mkState (SQL.world s2) (SQL.stdout s2 ++ [SQL.sorry_line self])
                      (SQL.spoken s2) (SQL.trace s2)).
  unfold SQL.reply. run. rewrite Hq. simpl. rewrite Hyes. simpl.
  rewrite Hloop. simpl. split; [reflexivity|].
  rewrite Hout, <- app_assoc. reflexivity.
Qed.

End SQLProperties.


(** C1, at a request the model finds SQL-related while every query fails:
    [reply] sends the query [max_retries] = 3 times, prints one line per
    failed attempt and then the fallback notice, and raises
    [UnboundLocalError] out of the call instead of returning. *)
Theorem reply_raises_after_retries :
  let '(r, s) := Scenario.sql_reply (Some Scenario.question) in
  r = Raise (UnboundLocalError "msg") /\
  SQL.queries (SQL.trace s) =
    [ "SELECT id FROM singer" +:+ LF; "SELECT id FROM singer" +:+ LF;
      "SELECT id FROM singer" +:+ LF ] /\
  SQL.stdout s =
    [ "We fail to execute the generated query.Attempt 1 of 3 failed. Retrying!";
      "We fail to execute the generated query.Attempt 2 of 3 failed. Retrying!";
      "We fail to execute the generated query.Attempt 3 of 3 failed. Retrying!";
      "Sorry, the agent failed to execute query after 3 attempts" ] /\
  SQL.spoken s = [].
Proof. vm_compute. repeat split. Qed.

(* ===================================================================== *)
(** * Properties of the CodeAct agent *)
(* ===================================================================== *)

Example search_execute_greedy :
  CodeAct.search_execute "a [execute] x [/execute] b [execute] y [/execute] c"
  = Some " x [/execute] b [execute] y ".
Proof. reflexivity. Qed.

Example search_execute_unclosed :
  CodeAct.search_execute "[/execute] then [execute] print(1)" = None.
Proof. reflexivity. Qed.

Section CodeActProperties.
Context {W P : Type}.
Variable model_format : list Msg -> P.
Variable model : P -> M W (ModelResponse unit unit).
Variable run_code_on_notebook : string -> W -> CodeAct.ServiceResponse * W.
Variable str : val -> string.
Variable self : CodeAct.CodeActAgent.

(** While the model asks for executions and the trailing entry is tagged
    [user], the loop runs one round per execution left and stops at the
    ceiling, the trailing entry being the last execution result. *)
Lemma reply_loop_ceiling fuel count (s : CodeAct.state W P) :
  CodeAct.always_executes model ->
  CodeAct.trailing_user (CodeAct.memory s) ->
  count <= CodeAct.n_max_executions self ->
  (Z.to_nat (CodeAct.n_max_executions self - count) <= fuel)%nat ->
  exists s' calls,
    CodeAct.reply_loop model_format model run_code_on_notebook str self fuel count s
      = (Ok (CodeAct.n_max_executions self), s') /\
    CodeAct.trace s' = CodeAct.trace s ++ CodeAct.rounds calls /\
    length calls = Z.to_nat (CodeAct.n_max_executions self - count) /\
    CodeAct.trailing_user (CodeAct.memory s').
Proof.
  intros Hmodel. revert count s.
  induction fuel as [|fuel IH]; intros count s (m & Hlast & Hrole) Hle Hfuel.
  - assert (count = CodeAct.n_max_executions self) as -> by lia.
    exists s, []. simpl.
    unfold mbind, M_bind, bind, CodeAct.memory_last. rewrite Hlast, Hrole.
    rewrite Z.ltb_irrefl. simpl. rewrite Z.sub_diag, app_nil_r.
    repeat split; eauto. exists m; eauto.
  - destruct (Z.ltb_spec count (CodeAct.n_max_executions self)) as [Hlt|Hge].
    + simpl. unfold mbind, M_bind, bind, CodeAct.memory_last at 1.
      rewrite Hlast, Hrole.
      destruct (Z.ltb_spec count (CodeAct.n_max_executions self)); [|lia].
      simpl.
      destruct (Hmodel (model_format (CodeAct.memory s)) (CodeAct.world s))
        as (r & w' & t & Hm & Ht & [code Hcode]).
      unfold CodeAct.in_world at 1. simpl. rewrite Hm. simpl.
      unfold CodeAct.handle_code_execution. rewrite Ht, Hcode.
      unfold CodeAct.run_code, mbind, M_bind, bind, CodeAct.in_world. simpl.
      destruct (run_code_on_notebook (strip code) w') as [res w''] eqn:Hres.
      simpl.
      match goal with |- context [CodeAct.reply_loop _ _ _ _ _ _ _ ?st] =>
        destruct (IH (count + 1) st) as (s' & calls & Hrun & Htr & Hlen & Hmem) end.
      { eexists. split; [apply last_snoc|reflexivity]. }
      { lia. }
      { lia. }
      exists s', ((model_format (CodeAct.memory s), strip code) :: calls).
      split; [exact Hrun|]. split; [|split; [|exact Hmem]].
      * rewrite Htr. simpl. rewrite <- !app_assoc. reflexivity.
      * simpl. rewrite Hlen. lia.
    + assert (count = CodeAct.n_max_executions self) as -> by lia.
      exists s, []. simpl.
      unfold mbind, M_bind, bind, CodeAct.memory_last. rewrite Hlast, Hrole.
      rewrite Z.ltb_irrefl. simpl. rewrite Z.sub_diag, app_nil_r.
      repeat split; eauto. exists m; eauto.
Qed.

(** C5, amended: when every response of the model contains an execution
    block and the memory ends with a [user] entry once the incoming
    message is added, [reply] performs exactly [n_max_executions] rounds
    of one model call and one execution, makes no model call after the
    last execution, and ends with the fixed notice appended to memory. *)
Theorem reply_reaches_ceiling fuel x (s : CodeAct.state W P) :
  CodeAct.always_executes model ->
  0 <= CodeAct.n_max_executions self ->
  CodeAct.trailing_user (CodeAct.memory s ++ option_list x) ->
  (Z.to_nat (CodeAct.n_max_executions self) <= fuel)%nat ->
  CodeAct.reaches_ceiling model_format model run_code_on_notebook str self fuel x s.
Proof.
  intros Hmodel Hn Huser Hfuel.
  set (s1 := CodeAct.mkState (CodeAct.world s) (CodeAct.memory s ++ option_list x)
                             (CodeAct.spoken s) (CodeAct.trace s)).
  destruct (reply_loop_ceiling fuel 0 s1 Hmodel Huser Hn)
    as (s' & calls & Hrun & Htr & Hlen & Hmem).
  { rewrite Z.sub_0_r. exact Hfuel. }
  destruct Hmem as (m & Hlast & Hrole).
  eexists. exists calls. unfold CodeAct.reply.
  unfold mbind, M_bind, bind, CodeAct.memory_add, modify. simpl.
  fold s1. rewrite Hrun. rewrite Z.eqb_refl.
  unfold CodeAct.memory_last at 1. rewrite Hlast, Hrole. simpl.
  split; [reflexivity|]. simpl. split; [exact Htr|]. split; [lia|].
  apply last_snoc.
Qed.

End CodeActProperties.

Lemma exec_model_always_executes : CodeAct.always_executes Scenario.exec_model.
Proof.
  intros prompt w. eexists _, _, _. split; [reflexivity|]. split; [reflexivity|].
  vm_compute. eauto.
Qed.

Lemma codeact_init_agent : Scenario.codeact_init.1 = Ok Scenario.codeact_agent.
Proof. reflexivity. Qed.

(** The agent just initialised, asked by a user: five rounds, then the
    notice. *)
Lemma reply_reaches_ceiling_witness :
  CodeAct.reaches_ceiling (fun mem => mem) Scenario.exec_model Scenario.notebook
    Scenario.show Scenario.codeact_agent 5 (Some Scenario.from_user)
    Scenario.codeact_start.
Proof.
  apply (reply_reaches_ceiling (fun mem => mem) Scenario.exec_model Scenario.notebook
           Scenario.show Scenario.codeact_agent 5 (Some Scenario.from_user)
           Scenario.codeact_start).
  - intros prompt w. eexists _, _, _. split; [reflexivity|]. split; [reflexivity|].
    vm_compute. eauto.
  - vm_compute. discriminate.
  - exists Scenario.from_user. split; reflexivity.
  - vm_compute. lia.
Defined.

(** C5 as stated fails: the model always asks for an execution, yet on a
    message that another agent sent (its role is [assistant]) the loop is
    not entered; [reply] returns with no execution and no notice. *)
Lemma reply_skips_loop_for_assistant_message :
  CodeAct.always_executes Scenario.exec_model /\
  (forall fuel,
     Scenario.codeact_reply fuel (Some Scenario.from_agent)
     = (Ok tt,
        CodeAct.mkState tt (CodeAct.memory Scenario.codeact_start ++ [Scenario.from_agent])
                        [] [])) /\
  ~ (exists fuel,
       CodeAct.reaches_ceiling (fun mem => mem) Scenario.exec_model Scenario.notebook
         Scenario.show Scenario.codeact_agent fuel (Some Scenario.from_agent)
         Scenario.codeact_start).
Proof.
  assert (forall fuel,
     Scenario.codeact_reply fuel (Some Scenario.from_agent)
     = (Ok tt,
        CodeAct.mkState tt (CodeAct.memory Scenario.codeact_start ++ [Scenario.from_agent])
                        [] [])) as Hrun.
  { intros [|fuel]; reflexivity. }
  split; [exact exec_model_always_executes|]. split; [exact Hrun|].
  intros (fuel & s' & calls & Hreply & Htrace & Hlen & _).
  unfold Scenario.codeact_reply in Hrun. rewrite Hrun in Hreply.
  injection Hreply as <-. simpl in Htrace.
  destruct calls as [|[p c] calls]; [|discriminate].
  vm_compute in Hlen. discriminate.
Qed.

(* ===================================================================== *)
(** * Properties of the chat formatter *)
(* ===================================================================== *)

Section FormatProperties.
Variable as_message : ChatFormat.pyobj -> option Msg.
Variable _convert_to_str : val -> string.

(** Past index 0 every message goes to the dialogue. *)
Lemma enumerate_loop_later i msgs messages dialogue :
  ChatFormat.enumerate_loop _convert_to_str (S i) msgs messages dialogue
  = (messages, dialogue ++ (ChatFormat.dialogue_line _convert_to_str <$> msgs)).
Proof.
  revert i dialogue. induction msgs as [|unit msgs IH]; intros i dialogue; simpl.
  - rewrite app_nil_r. reflexivity.
  - rewrite IH, <- app_assoc. reflexivity.
Qed.

Lemma format_system args m rest :
  ChatFormat.parse_args as_message args [] = Ok (m :: rest) ->
  role m = "system" ->
  ChatFormat.format as_message _convert_to_str args
  = Ok [ {[ "role" := VStr "system";
            "content" := VStr (_convert_to_str (content m)) ]};
         {[ "role" := VStr "user";
            "content" :=
              VStr ("## Dialogue History" +:+ LF +:+
                    join LF ((fun unit => name unit +:+ ": " +:+
                                          _convert_to_str (content unit)) <$> rest)) ]} ].
Proof.
  intros Hparse Hrole. unfold ChatFormat.format. rewrite Hparse. simpl.
  rewrite Hrole. simpl. rewrite enumerate_loop_later. simpl.
  unfold ChatFormat.system_entry, ChatFormat.user_entry. rewrite Hrole.
  reflexivity.
Qed.

Lemma format_no_system args msgs :
  ChatFormat.parse_args as_message args [] = Ok msgs ->
  role <$> head msgs <> Some "system" ->
  ChatFormat.format as_message _convert_to_str args
  = Ok [ {[ "role" := VStr "user";
            "content" :=
              VStr ("## Dialogue History" +:+ LF +:+
                    join LF ((fun unit => name unit +:+ ": " +:+
                                          _convert_to_str (content unit)) <$> msgs)) ]} ].
Proof.
  intros Hparse Hhead. unfold ChatFormat.format. rewrite Hparse.
  destruct msgs as [|m rest]; simpl; [reflexivity|].
  destruct (String.eqb_spec (role m) "system") as [Hsys|_].
  - exfalso. apply Hhead. simpl. rewrite Hsys. reflexivity.
  - rewrite enumerate_loop_later. reflexivity.
Qed.

End FormatProperties.

(** C3: when the parsed message sequence starts with a message of role
    [system], both formatters return exactly two entries: a system entry
    with the content of that message (as text), then one [user] entry
    whose content is the header, a newline, and the lines
    [name: content] of all later messages in order, joined by newlines. *)
Theorem format_leading_system _convert_to_str args m rest :
  role m = "system" ->
  let expected :=
    [ {[ "role" := VStr "system"; "content" := VStr (_convert_to_str (content m)) ]};
      {[ "role" := VStr "user";
         "content" :=
           VStr ("## Dialogue History" +:+ LF +:+
                 join LF ((fun unit => name unit +:+ ": " +:+
                                       _convert_to_str (content unit)) <$> rest)) ]} ] in
  (ChatFormat.parse_args DashScope.as_Msg args [] = Ok (m :: rest) ->
   DashScope.format _convert_to_str args = Ok expected) /\
  (ChatFormat.parse_args Zhipu.as_MessageBase args [] = Ok (m :: rest) ->
   Zhipu.format _convert_to_str args = Ok expected).
Proof.
  intros Hrole expected. split; intros Hparse.
  - exact (format_system DashScope.as_Msg _convert_to_str args m rest Hparse Hrole).
  - exact (format_system Zhipu.as_MessageBase _convert_to_str args m rest Hparse Hrole).
Qed.

(** The example of the docstring of [format]. *)
Lemma format_leading_system_witness :
  let args := [ChatFormat.AObj (ChatFormat.OMsg Scenario.system_prompt);
               ChatFormat.AList [ChatFormat.OMsg Scenario.bob;
                                 ChatFormat.OMsg Scenario.user_turn]] in
  let expected :=
    [ {[ "role" := VStr "system"; "content" := VStr "You're a helpful assistant" ]};
      {[ "role" := VStr "user";
         "content" := VStr ("## Dialogue History" +:+ LF +:+
                            "Bob: Hi, how can I help you?" +:+ LF +:+
                            "user: What's the date today?") ]} ] in
  DashScope.format Scenario.show args = Ok expected /\
  Zhipu.format Scenario.show args = Ok expected.
Proof.
  intros args expected.
  pose proof (format_leading_system Scenario.show args Scenario.system_prompt
                [Scenario.bob; Scenario.user_turn] eq_refl) as [Hd Hz].
  split; [exact (Hd eq_refl) | exact (Hz eq_refl)].
Defined.

(** C9: when the parsed message sequence is empty or starts with a message
    whose role is not [system], both formatters return exactly one entry,
    and its role is [user]. *)
Theorem format_no_leading_system _convert_to_str args msgs :
  role <$> head msgs <> Some "system" ->
  let expected :=
    [ {[ "role" := VStr "user";
         "content" :=
           VStr ("## Dialogue History" +:+ LF +:+
                 join LF ((fun unit => name unit +:+ ": " +:+
                                       _convert_to_str (content unit)) <$> msgs)) ]} ] in
  (ChatFormat.parse_args DashScope.as_Msg args [] = Ok msgs ->
   DashScope.format _convert_to_str args = Ok expected) /\
  (ChatFormat.parse_args Zhipu.as_MessageBase args [] = Ok msgs ->
   Zhipu.format _convert_to_str args = Ok expected).
Proof.
  intros Hhead expected. split; intros Hparse.
  - exact (format_no_system DashScope.as_Msg _convert_to_str args msgs Hparse Hhead).
  - exact (format_no_system Zhipu.as_MessageBase _convert_to_str args msgs Hparse Hhead).
Qed.

(** The empty sequence, and a sequence that starts with an assistant turn. *)
Lemma format_no_leading_system_witness :
  (DashScope.format Scenario.show [ChatFormat.ANone]
   = Ok [ {[ "role" := VStr "user";
             "content" := VStr ("## Dialogue History" +:+ LF) ]} ]) /\
  (Zhipu.format Scenario.show
     [ChatFormat.AList [ChatFormat.OMsg Scenario.bob; ChatFormat.OMsg Scenario.user_turn]]
   = Ok [ {[ "role" := VStr "user";
             "content" := VStr ("## Dialogue History" +:+ LF +:+
                                "Bob: Hi, how can I help you?" +:+ LF +:+
                                "user: What's the date today?") ]} ]).
Proof.
  split.
  - assert (role <$> head ([] : list Msg) <> Some "system") as Hhead
      by (simpl; discriminate).
    exact (proj1 (format_no_leading_system Scenario.show [ChatFormat.ANone] [] Hhead)
                 eq_refl).
  - assert (role <$> head [Scenario.bob; Scenario.user_turn] <> Some "system") as Hhead
      by (simpl; discriminate).
    exact (proj2 (format_no_leading_system Scenario.show
                    [ChatFormat.AList [ChatFormat.OMsg Scenario.bob;
                                       ChatFormat.OMsg Scenario.user_turn]]
                    [Scenario.bob; Scenario.user_turn] Hhead)
                 eq_refl).
Defined.

(* ===================================================================== *)
(** * Properties of the chat wrappers *)
(* ===================================================================== *)

Lemma valid_messages_forallb msgs :
  valid_messages (MsgList msgs) <-> forallb has_role_and_content msgs = true.
Proof.
  unfold valid_messages. rewrite forallb_forall. split.
  - intros (msgs' & [= <-] & H) msg Hin. apply list_elem_of_In, H in Hin.
    unfold has_role_and_content. destruct Hin as [Hr Hc].
    rewrite !bool_decide_eq_true_2 by assumption. reflexivity.
  - intros H. exists msgs. split; [reflexivity|]. intros msg Hin.
    apply list_elem_of_In, H in Hin. unfold has_role_and_content in Hin.
    apply andb_true_iff in Hin as [Hr Hc].
    apply bool_decide_eq_true in Hr, Hc. done.
Qed.



Section DashScopeProperties.
Import DashScope.

Lemma last_cumulative acc d deltas :
  list.last (cumulative acc (d :: deltas)) = Some (acc +:+ assembled (d :: deltas)).
Proof.
  revert acc d. induction deltas as [|d' deltas IH]; intros acc d.
  - simpl. rewrite append_empty_r. reflexivity.
  - change (cumulative acc (d :: d' :: deltas))
      with ((acc +:+ d) :: cumulative (acc +:+ d) (d' :: deltas)).
    rewrite last_cons, IH. simpl. rewrite append_assoc. reflexivity.
Qed.

(** A drain that ends in [StopIteration]: what was yielded and what the
    finalization did. *)
Lemma drain_exhausted fuel : forall g ys s r s',
  finished g = false ->
  drain fuel g ys s = (Ok r, s') ->
  exists a patched,
    final_chunk g = Some a /\
    patched = set_content (heap s a) (gen_text g +:+ assembled (contents (heap s) (response g))) /\
    r = ys ++ cumulative (gen_text g) (contents (heap s) (response g)) /\
    heap s' = <[a := patched]> (heap s) /\
    trace s' = trace s ++ (EvYield <$> cumulative (gen_text g) (contents (heap s) (response g)))
                 ++ [EvUpdateMonitor (usage_amounts patched);
                     EvSaveInvocation (gen_kwargs g) patched] /\
    monitor s' = update_monitor (usage_amounts patched) (monitor s) /\
    invocations s' = invocations s ++ [(gen_kwargs g, patched)].
Proof.
  induction fuel as [|fuel IH]; intros g ys s r s' Hrun Hdrain; [discriminate|].
  destruct g as [kw lc txt pend rest fin]. simpl in Hrun. subst fin.
  simpl in Hdrain. unfold next in Hdrain. simpl in Hdrain.
  destruct rest as [|chunk rest].
  - (* the provider's stream is over *)
    unfold final_chunk. simpl.
    destruct (match pend with Some c => Some c | None => lc end) as [a|] eqn:Hlc;
      [|discriminate].
    unfold mbind, M_bind, bind in Hdrain. simpl in Hdrain.
    injection Hdrain as <- <-. simpl.
    rewrite fn_lookup_insert, append_empty_r, app_nil_r.
    eexists _, _. repeat split; try reflexivity.
    rewrite <- app_assoc. reflexivity.
  - unfold mbind, M_bind, bind in Hdrain. simpl in Hdrain.
    destruct (status_code (heap s chunk) =? HTTPStatus_OK) eqn:Hst; [|discriminate].
    simpl in Hdrain.
    apply IH in Hdrain; [|reflexivity].
    destruct Hdrain as (a & patched & Hfin & Hp & Hr & Hheap & Htr & Hmon & Hinv).
    simpl in *. exists a, patched. repeat split; try assumption.
    + unfold final_chunk in *. simpl in *. rewrite last_cons.
      destruct (list.last rest); [assumption|]. assumption.
    + rewrite Hp. rewrite append_assoc. reflexivity.
    + rewrite Hr, <- app_assoc. reflexivity.
    + rewrite Htr, <- !app_assoc. reflexivity.
Qed.

(** Enough fuel gives the result: on chunks that all have status 200, and
    with a last chunk to finalize, a drain with more fuel than chunks ends
    in [StopIteration]. *)
Lemma drain_total rest : forall g ys s fuel,
  finished g = false ->
  response g = rest ->
  (forall a, a ∈ rest -> status_code (heap s a) = HTTPStatus_OK) ->
  is_Some (final_chunk g) ->
  (length rest < fuel)%nat ->
  exists r s', drain fuel g ys s = (Ok r, s').
Proof.
  induction rest as [|chunk rest IH]; intros g ys s fuel Hrun Hresp Hok Hfin Hfuel;
    destruct g as [kw lc txt pend rest' fin]; simpl in Hrun, Hresp; subst fin rest';
    (destruct fuel as [|fuel]; [simpl in Hfuel; lia|]).
  - unfold final_chunk in Hfin. simpl in Hfin. destruct Hfin as [a Ha].
    simpl. unfold next. simpl. rewrite Ha.
    unfold mbind, M_bind, bind. simpl. eauto.
  - simpl. unfold next. simpl. unfold mbind, M_bind, bind. simpl.
    rewrite (Hok chunk) by (left). simpl.
    apply IH; simpl; try reflexivity.
    + intros a Ha. apply Hok. right. exact Ha.
    + unfold final_chunk. simpl. destruct (list.last rest); eauto.
    + simpl in Hfuel. lia.
Qed.


Variable Generation_call : gmap string val -> GenerationResponse.
Variable Generation_stream : gmap string val -> list addr.
Variable self : DashScopeChatWrapper.

(** A call that returns a stream passed validation, issued one request
    and did nothing else. *)
Lemma call_stream_inv messages stream_arg kwargs s resp s1 g :
  DashScope.call Generation_call Generation_stream self messages stream_arg kwargs s = (Ok resp, s1) ->
  stream resp = Some g ->
  exists msgs,
    messages = MsgList msgs /\
    let kw := request_kwargs self msgs true kwargs in
    g = generator_start kw (Generation_stream kw) /\
    s1 = mkState (heap s) (monitor s) (invocations s) (trace s ++ [EvRequest kw]).
Proof.
  unfold DashScope.call. intros Hcall Hg.
  destruct messages as [msgs|v]; [|discriminate].
  destruct (forallb has_role_and_content msgs); [|discriminate].
  simpl in Hcall. unfold mbind, M_bind, bind in Hcall. simpl in Hcall.
  destruct (effective_stream self stream_arg).
  - injection Hcall as <- <-. simpl in Hg. injection Hg as <-. eauto.
  - destruct (status_code _ =? _); simpl in Hcall; [|discriminate].
    injection Hcall as <- <-. discriminate.
Qed.

(** C2: for a streaming call whose stream is consumed to exhaustion, the
    yielded texts are the cumulative snapshots of the deltas of the
    chunks (each is the full text so far); the last chunk object then
    holds the fully assembled text, which is also the last text yielded;
    and the usage update and the invocation record happen exactly once,
    after every yield. *)
Theorem streaming_call_consumed messages stream_arg kwargs s resp s1 g fuel ys s2 :
  DashScope.call Generation_call Generation_stream self messages stream_arg kwargs s = (Ok resp, s1) ->
  stream resp = Some g ->
  drain fuel g [] s1 = (Ok ys, s2) ->
  let deltas := contents (heap s1) (response g) in
  ys = cumulative EmptyString deltas /\
  exists a patched,
    list.last (response g) = Some a /\
    list.last ys = Some (assembled deltas) /\
    heap s2 a = patched /\
    output_content patched = assembled deltas /\
    trace s2 = trace s1 ++ (EvYield <$> ys)
                 ++ [EvUpdateMonitor (usage_amounts patched);
                     EvSaveInvocation (gen_kwargs g) patched] /\
    usage_amounts patched !! "call_counter" = Some 1 /\
    monitor s2 = update_monitor (usage_amounts patched) (monitor s1) /\
    invocations s2 = invocations s1 ++ [(gen_kwargs g, patched)].
Proof.
  intros Hcall Hg Hdrain deltas.
  destruct (call_stream_inv _ _ _ _ _ _ _ Hcall Hg) as (msgs & -> & Hgen & Hs1).
  assert (finished g = false) as Hrun by (rewrite Hgen; reflexivity).
  destruct (drain_exhausted _ _ _ _ _ _ Hrun Hdrain)
    as (a & patched & Hfin & Hp & Hr & Hheap & Htr & Hmon & Hinv).
  assert (gen_text g = EmptyString) as Ht by (rewrite Hgen; reflexivity).
  rewrite Ht in *. simpl in Hr. fold deltas in Hr, Htr, Hp.
  assert (list.last (response g) = Some a) as Hlast.
  { unfold final_chunk in Hfin. rewrite Hgen in Hfin |- *. simpl in *.
    destruct (list.last _); [assumption|discriminate]. }
  split; [exact Hr|]. exists a, patched.
  split; [exact Hlast|]. split.
  { subst ys. unfold deltas, contents in *.
    destruct (response g) as [|c cs]; [discriminate|].
    simpl fmap. rewrite last_cumulative. reflexivity. }
  split; [rewrite Hheap; apply fn_lookup_insert|].
  split; [rewrite Hp; reflexivity|].
  split; [rewrite Htr, Hr; reflexivity|].
  split; [reflexivity|]. split; assumption.
Qed.

(** C10: when the provider's stream of a streaming call yields no chunk,
    draining the returned stream raises at the end-of-stream
    finalization, which dereferences the missing last chunk; the state is
    left as it was, so no usage update and no invocation record occur. *)
Theorem streaming_call_empty messages stream_arg kwargs s resp s1 g fuel :
  DashScope.call Generation_call Generation_stream self messages stream_arg kwargs s = (Ok resp, s1) ->
  stream resp = Some g ->
  response g = [] ->
  drain (S fuel) g [] s1
  = (Raise (AttributeError "'NoneType' object has no attribute 'output'"), s1).
Proof.
  intros Hcall Hg Hempty.
  destruct (call_stream_inv _ _ _ _ _ _ _ Hcall Hg) as (msgs & -> & Hgen & Hs1).
  simpl in Hgen. rewrite Hgen in Hempty |- *. simpl in Hempty.
  simpl. unfold next. simpl. rewrite Hempty. reflexivity.
Qed.

(** C7: a blocking call whose provider response has a status other than
    200 raises a runtime error whose message contains the request id, the
    status code, the provider's error code and its error message; the
    request is the only thing that happened: the monitor and the
    invocation records are as before. *)
Theorem blocking_call_error messages stream kwargs s msgs :
  messages = MsgList msgs ->
  valid_messages messages ->
  effective_stream self stream = false ->
  let kw := request_kwargs self msgs false kwargs in
  let response := Generation_call kw in
  status_code response <> HTTPStatus_OK ->
  exists msg,
    DashScope.call Generation_call Generation_stream self messages stream kwargs s
    = (Raise (RuntimeError msg),
       mkState (heap s) (monitor s) (invocations s) (trace s ++ [EvRequest kw])) /\
    contains msg (request_id response) /\
    contains msg (str_of_int (status_code response)) /\
    contains msg (code response) /\
    contains msg (message_ response).
Proof.
  intros -> Hvalid Hstream kw response Hstatus.
  apply valid_messages_forallb in Hvalid.
  exists (response_error_msg response). split.
  - apply Z.eqb_neq in Hstatus.
    unfold DashScope.call. rewrite Hvalid, Hstream.
    unfold mbind, M_bind, bind, log, modify. cbn -[request_kwargs].
    fold kw. fold response. rewrite Hstatus. reflexivity.
  - unfold response_error_msg.
    repeat split; repeat first [apply contains_here | apply contains_later].
Qed.


End DashScopeProperties.

Section ZhipuProperties.
Import Zhipu.
Variable chat_completions_create : gmap string val -> result Completion.
Variable model_name : string.
Variable generate_args : gmap string val.


End ZhipuProperties.


Example call_rejects_missing_content :
  (DashScope.call (fun _ => Scenario.server_error) (fun _ => []) Scenario.ds_wrapper
     (MsgList [ {[ "role" := VStr "user" ]} ]) None ∅ Scenario.ds_start).1
  = Raise (ValueError ("Each message in the 'messages' list must contain a 'role' " +:+
                       "and 'content' key for DashScope API.")).
Proof. reflexivity. Qed.

Example call_rejects_non_list :
  (Zhipu.call (fun _ => Raise (ExternalError "APIError" "unreachable")) "glm-4" ∅
     (NotList (VStr "Hi")) ∅ (Zhipu.mkState ∅ [] [])).1
  = Raise (ValueError ("ZhipuAI `messages` field expected type `list`, " +:+
                       "got `<class 'str'>` instead.")).
Proof. reflexivity. Qed.

(** A provider that streams the two chunks of the scenario. *)
Lemma streaming_call_consumed_witness :
  (Scenario.ds_drained [0%nat; 1%nat]).1 = Ok ["Hel"; "Hello"] /\
  DashScope.output_content
    (DashScope.heap (Scenario.ds_drained [0%nat; 1%nat]).2 1%nat) = "Hello" /\
  DashScope.monitor (Scenario.ds_drained [0%nat; 1%nat]).2 !! "call_counter" = Some 1 /\
  length (DashScope.invocations (Scenario.ds_drained [0%nat; 1%nat]).2) = 1%nat.
Proof.
  pose proof (streaming_call_consumed
                (fun _ => Scenario.server_error) (fun _ => [0%nat; 1%nat])
                Scenario.ds_wrapper (MsgList Scenario.user_messages) (Some true) ∅
                Scenario.ds_start
                (mkModelResponse None None
                   (Some (Scenario.ds_generator [0%nat; 1%nat]))
                   (DashScope.RawStream [0%nat; 1%nat]))
                (Scenario.ds_stream_call [0%nat; 1%nat]).2
                (Scenario.ds_generator [0%nat; 1%nat]) 3
                ["Hel"; "Hello"] (Scenario.ds_drained [0%nat; 1%nat]).2
                eq_refl eq_refl eq_refl)
    as (Hys & a & patched & Hlast & Hlastys & Hheap & Hcontent & Htrace & Hcount & Hmon & Hinv).
  injection Hlast as <-.
  split; [reflexivity|].
  split; [rewrite Hheap; exact Hcontent|].
  split; [rewrite Hmon; vm_compute; reflexivity|].
  rewrite Hinv. reflexivity.
Defined.

(** A provider whose stream is empty. *)
Lemma streaming_call_empty_witness :
  Scenario.ds_drained []
  = (Raise (AttributeError "'NoneType' object has no attribute 'output'"),
     (Scenario.ds_stream_call []).2).
Proof.
  exact (streaming_call_empty
           (fun _ => Scenario.server_error) (fun _ => [])
           Scenario.ds_wrapper (MsgList Scenario.user_messages) (Some true) ∅
           Scenario.ds_start
           (mkModelResponse None None (Some (Scenario.ds_generator []))
              (DashScope.RawStream []))
           (Scenario.ds_stream_call []).2 (Scenario.ds_generator []) 2
           eq_refl eq_refl eq_refl).
Defined.

Lemma user_messages_valid : valid_messages (MsgList Scenario.user_messages).
Proof.
  exists Scenario.user_messages. split; [reflexivity|].
  intros msg Hin. apply list_elem_of_singleton in Hin as ->.
  split; vm_compute; eauto.
Defined.

(** A provider that answers with status 500. *)
Lemma blocking_call_error_witness :
  exists msg,
    Scenario.ds_blocking_call.1 = Raise (RuntimeError msg) /\
    contains msg "req-2" /\ contains msg "500" /\
    contains msg "InternalError" /\ contains msg "server busy" /\
    DashScope.monitor Scenario.ds_blocking_call.2 = ∅ /\
    DashScope.invocations Scenario.ds_blocking_call.2 = [].
Proof.
  destruct (blocking_call_error
              (fun _ => Scenario.server_error) (fun _ => []) Scenario.ds_wrapper
              (MsgList Scenario.user_messages) None ∅ Scenario.ds_start
              Scenario.user_messages eq_refl user_messages_valid eq_refl)
    as (msg & Hcall & Hid & Hstatus & Hcode & Hmessage).
  { vm_compute. discriminate. }
  exists msg. unfold Scenario.ds_blocking_call. rewrite Hcall.
  repeat split; assumption.
Defined.

(* ===================================================================== *)
(** * Properties of the embedding wrappers *)
(* ===================================================================== *)

Section EmbeddingProperties.
Variable embeddings_create : val -> string -> result Zhipu.EmbeddingsResponded.
Variable model_name : string.
Variable generate_args : gmap string val.

(** On a successful answer whose [data] is a non-empty list of items that
    all carry an embedding, the ZhipuAI wrapper returns the list of the
    embedding vectors. *)
Lemma zhipu_embedding_nonempty texts kwargs s response item items vectors :
  embeddings_create texts model_name = Ok response ->
  Zhipu.emb_usage response !! "call_counter" = None ->
  getitem (Zhipu.emb_model_dump response) "data" = Ok (VList (item :: items)) ->
  project_each "embedding" (VList (item :: items)) = Ok vectors ->
  exists s',
    Zhipu.embedding_call embeddings_create model_name generate_args texts kwargs s
    = (Ok (mkModelResponse None (Some (VList vectors)) None
             (Zhipu.emb_model_dump response)), s').
Proof.
  intros Hcreate Husage Hdata Hvectors. unfold Zhipu.embedding_call.
  unfold Zhipu.self_update_monitor, Zhipu._save_model_invocation.
  unfold mbind, M_bind, bind, mret, M_ret, ret, raise, modify, lift, Zhipu.log.
  simpl. rewrite Hcreate. simpl. rewrite Husage. simpl.
  rewrite Hdata. cbn -[project_each]. rewrite Hvectors. eauto.
Qed.

(** On a successful answer whose [data] is the empty list, the ZhipuAI
    wrapper takes the branch guarded by [len(...) == 0] and raises: it
    indexes the list by a string. *)
Lemma zhipu_embedding_empty texts kwargs s response :
  embeddings_create texts model_name = Ok response ->
  Zhipu.emb_usage response !! "call_counter" = None ->
  getitem (Zhipu.emb_model_dump response) "data" = Ok (VList []) ->
  (Zhipu.embedding_call embeddings_create model_name generate_args texts kwargs s).1
  = Raise (TypeError "list indices must be integers or slices, not str").
Proof.
  intros Hcreate Husage Hdata. unfold Zhipu.embedding_call.
  unfold Zhipu.self_update_monitor, Zhipu._save_model_invocation.
  unfold mbind, M_bind, bind, mret, M_ret, ret, raise, modify, lift, Zhipu.log.
  simpl. rewrite Hcreate. simpl. rewrite Husage. simpl.
  rewrite Hdata. reflexivity.
Qed.

Variable TextEmbedding_call : val -> gmap string val -> DashScope.EmbeddingResponse.

(** On a successful answer, the DashScope wrapper returns the list of the
    embedding vectors, whatever their number. *)
Lemma dashscope_embedding_ok texts kwargs s items vectors :
  let response := TextEmbedding_call texts (kwargs ∪ generate_args) in
  DashScope.emb_status_code response = DashScope.HTTPStatus_OK ->
  DashScope.emb_usage response !! "call_counter" = None ->
  getitem (DashScope.emb_output response) "embeddings" = Ok (VList items) ->
  comprehension (fun x => getitem x "embedding") items = Ok vectors ->
  exists s',
    DashScope.embedding_call TextEmbedding_call model_name generate_args texts kwargs s
    = (Ok (mkModelResponse None (Some (VList vectors)) None response), s').
Proof.
  intros response Hstatus Husage Houtput Hvectors. unfold DashScope.embedding_call.
  unfold mbind, M_bind, bind, mret, M_ret, ret, raise, modify, lift, DashScope.emb_log.
  simpl. fold response. rewrite Hstatus. simpl. rewrite Husage. simpl.
  rewrite Houtput. cbn -[comprehension]. rewrite Hvectors. eauto.
Qed.

End EmbeddingProperties.

(** A response that holds exactly one embedding yields the list of that one
    vector. *)
Example zhipu_embedding_singleton :
  (Scenario.zhipu_embed [VDict {[ "embedding" := Scenario.vector ]}]).1
  = Ok (mkModelResponse None (Some (VList [Scenario.vector])) None
          (Zhipu.emb_model_dump
             (Scenario.embeddings_of [VDict {[ "embedding" := Scenario.vector ]}]))).
Proof. reflexivity. Qed.

(** C8, at a successful answer that holds no embedding: the ZhipuAI wrapper
    does not return the (empty) list of vectors; it raises a type error
    after the monitor update and the invocation record were made. *)
Theorem zhipu_embedding_empty_data_raises :
  let '(r, s) := Scenario.zhipu_embed [] in
  r = Raise (TypeError "list indices must be integers or slices, not str") /\
  length (Zhipu.invocations s) = 1%nat /\
  Zhipu.monitor s !! "call_counter" = Some 1.
Proof. vm_compute. repeat split. Qed.

(* ===================================================================== *)
(** * Further properties of the SQL agent *)
(* ===================================================================== *)

Lemma prefix_cons a b (p s : string) :
  String.prefix (String a p) (String b s)
  = if ascii_dec a b then String.prefix p s else false.
Proof. reflexivity. Qed.

Lemma prefix_split (p s : string) :
  String.prefix p s = true -> exists r, s = p +:+ r.
Proof.
  revert s. induction p as [|a p IH]; intros s H.
  - exists s. reflexivity.
  - destruct s as [|b s]; [discriminate|]. rewrite prefix_cons in H.
    destruct (ascii_dec a b) as [->|]; [|discriminate].
    destruct (IH s H) as [r ->]. exists r. reflexivity.
Qed.

Lemma prefix_append (p r : string) : String.prefix p (p +:+ r) = true.
Proof.
  induction p as [|a p IH]; [destruct r; reflexivity|].
  rewrite append_cons, prefix_cons. destruct (ascii_dec a a); [exact IH|contradiction].
Qed.

Lemma rev_app_append (s acc : string) :
  String.rev_app s acc = String.rev_app s EmptyString +:+ acc.
Proof.
  revert acc. induction s as [|c s IH]; intros acc; [reflexivity|].
  simpl. rewrite IH, (IH (String c EmptyString)), append_assoc. reflexivity.
Qed.

Lemma first_split_go sep s cur :
  first (split_go sep s 0 cur) = String.rev cur +:+ Observe.before sep s.
Proof.
  revert cur. induction s as [|c s IH]; intros cur.
  - simpl. rewrite append_empty_r. reflexivity.
  - cbn [split_go Observe.before].
    destruct (startswith (String c s) sep).
    + simpl. rewrite append_empty_r. reflexivity.
    + rewrite IH. unfold String.rev. simpl String.rev_app.
      rewrite (rev_app_append cur), append_assoc. reflexivity.
Qed.

Lemma first_split s sep : first (split s sep) = Observe.before sep s.
Proof. unfold split. rewrite first_split_go. reflexivity. Qed.

(** What [before] cuts off is empty or starts with the separator. *)
Lemma before_rest sep s :
  exists rest, s = Observe.before sep s +:+ rest /\
               (rest = EmptyString \/ startswith rest sep = true).
Proof.
  induction s as [|c s (rest & Hs & Hrest)].
  - exists EmptyString. split; [reflexivity|left; reflexivity].
  - cbn [Observe.before]. destruct (startswith (String c s) sep) eqn:Hp.
    + exists (String c s). split; [reflexivity|right; exact Hp].
    + exists rest. rewrite append_cons, <- Hs. split; [reflexivity|exact Hrest].
Qed.

Lemma before_no_sep sep s :
  sep <> EmptyString -> ~ contains (Observe.before sep s) sep.
Proof.
  intros Hsep. induction s as [|c s IH]; intros (pre & post & Heq).
  - simpl in Heq. destruct pre; [|discriminate]. destruct sep; [done|discriminate].
  - cbn [Observe.before] in Heq. destruct (startswith (String c s) sep) eqn:Hp.
    + destruct pre; [|discriminate]. destruct sep; [done|discriminate].
    + destruct pre as [|c' pre].
      * change (EmptyString +:+ sep +:+ post) with (sep +:+ post) in Heq.
        destruct (before_rest sep s) as (rest & Hs & _).
        assert (String c s = sep +:+ (post +:+ rest)) as Hall.
        { rewrite Hs at 1. rewrite <- append_cons, Heq, append_assoc. reflexivity. }
        unfold startswith in Hp. rewrite Hall, prefix_append in Hp. discriminate.
      * rewrite append_cons in Heq. injection Heq as <- Heq.
        apply IH. exists pre, post. exact Heq.
Qed.

Lemma cons_word_nonspace w ws :
  Observe.starts_nonspace w ->
  Forall (fun x => x <> EmptyString /\ Observe.starts_nonspace x) ws ->
  Forall (fun x => x <> EmptyString /\ Observe.starts_nonspace x) (cons_word w ws).
Proof.
  intros Hw Hws. unfold cons_word.
  destruct (String.eqb_spec w EmptyString); [exact Hws|].
  constructor; [split; assumption|exact Hws].
Qed.

Lemma split_run_nonspace s w ws :
  split_run s = (w, ws) ->
  Observe.starts_nonspace w /\
  Forall (fun x => x <> EmptyString /\ Observe.starts_nonspace x) ws.
Proof.
  revert w ws. induction s as [|c s IH]; intros w ws; simpl.
  - intros [= <- <-]. split; [exact I|constructor].
  - destruct (split_run s) as [w0 ws0].
    destruct (IH w0 ws0 eq_refl) as [Hw0 Hws0].
    destruct (isspace c) eqn:Hc; intros [= <- <-].
    + split; [exact I|]. apply cons_word_nonspace; assumption.
    + split; [exact Hc|exact Hws0].
Qed.

Lemma split_ws_nonspace s :
  Forall (fun x => x <> EmptyString /\ Observe.starts_nonspace x) (split_ws s).
Proof.
  unfold split_ws. destruct (split_run s) as [w ws] eqn:Hrun.
  destruct (split_run_nonspace s w ws Hrun). apply cons_word_nonspace; assumption.
Qed.

Lemma join_nonspace sep l :
  Forall (fun x => x <> EmptyString /\ Observe.starts_nonspace x) l ->
  Observe.starts_nonspace (join sep l).
Proof.
  intros Hl. destruct Hl as [|x l [Hne Hx] Hl]; [exact I|].
  destruct x as [|c x]; [done|].
  destruct l; exact Hx.
Qed.

Lemma strip_nonspace s :
  Observe.starts_nonspace s -> Observe.starts_nonspace (strip s).
Proof.
  intros Hs. unfold strip. destruct s as [|c s]; [exact I|].
  simpl in Hs. simpl lstrip. rewrite Hs. simpl.
  destruct (isspace c && _); [exact I|exact Hs].
Qed.

Lemma before_nonspace sep s :
  Observe.starts_nonspace s -> Observe.starts_nonspace (Observe.before sep s).
Proof.
  destruct s as [|c s]; [done|]. intros Hs. cbn [Observe.before].
  destruct (startswith _ _); [exact I|exact Hs].
Qed.

Lemma nonspace_not_startswith_space s :
  Observe.starts_nonspace s -> startswith s " " = false.
Proof.
  destruct s as [|c s]; [reflexivity|]. intros Hs. unfold startswith.
  rewrite prefix_cons.
  destruct (ascii_dec " " c) as [<-|]; [discriminate Hs|reflexivity].
Qed.

(** The statement [get_response_from_prompt] builds never starts with a
    space. *)
Lemma normalised_sql_nonspace t :
  startswith (SQL.process_duplication
                (join " " (split_ws (replace_char "010" " " t)))) " " = false.
Proof.
  apply nonspace_not_startswith_space. unfold SQL.process_duplication.
  rewrite first_split. apply before_nonspace, strip_nonspace, join_nonspace,
    split_ws_nonspace.
Qed.

Section SQLMore.
Context {W : Type}.
Variable model : list (gmap string val) -> M W (ModelResponse unit unit).

(** X1: whatever text the model answers with, the statement built from it
    never starts with a space, so the rule for a leading space is never
    taken: the response is the statement and a newline when the statement
    starts with [SELECT], and [SELECT], a space, the statement and a newline
    otherwise.  In both cases it starts with [SELECT] and ends with a
    newline. *)
Theorem get_response_from_prompt_two_rules prompt (s : SQL.state W) r w' t :
  model (SQL.assistant_messages prompt) (SQL.world s) = (Ok r, w') ->
  text r = Some t ->
  let sql := SQL.process_duplication
               (join " " (split_ws (replace_char "010" " " t))) in
  let response := (SQL.get_response_from_prompt model prompt s).1 in
  startswith sql " " = false /\
  response = Ok (if startswith sql "SELECT" then sql +:+ LF
                 else "SELECT " +:+ sql +:+ LF) /\
  exists body, response = Ok ("SELECT" +:+ body +:+ LF).
Proof.
  intros Hm Ht sql response. subst response.
  pose proof (normalised_sql_nonspace t) as Hdead. fold sql in Hdead.
  split; [exact Hdead|].
  rewrite (get_response_from_prompt_text model _ _ _ _ _ Hm Ht).
  cbv zeta. fold sql. rewrite Hdead. split; [reflexivity|].
  destruct (startswith sql "SELECT") eqn:Hsel.
  - apply prefix_split in Hsel as [body ->]. exists body.
    rewrite append_assoc. reflexivity.
  - exists (" " +:+ sql). reflexivity.
Qed.

End SQLMore.

(** X2: [process_duplication] returns the stripped text up to its first
    comment opener: what it cuts off is empty or starts with the opener,
    and what it returns contains no opener. *)
Theorem process_duplication_cuts_comment sql :
  (exists rest,
     strip sql = SQL.process_duplication sql +:+ rest /\
     (rest = EmptyString \/ startswith rest "/*" = true)) /\
  ~ contains (SQL.process_duplication sql) "/*".
Proof.
  unfold SQL.process_duplication. rewrite first_split. split.
  - apply before_rest.
  - apply before_no_sep. discriminate.
Qed.

Lemma queries_app (t1 t2 : list SQL.event) :
  SQL.queries (t1 ++ t2) = SQL.queries t1 ++ SQL.queries t2.
Proof. unfold SQL.queries. apply omap_app. Qed.

Section SQLBound.
Context {W : Type}.
Variable model : list (gmap string val) -> M W (ModelResponse unit unit).
Variable query_sqlite : string -> string -> M W string.
Variable is_sql_question_prompt : val -> val.
Variable describe_sql : val.
Variable generate_prompt : Msg -> val.
Variable str : val -> string.
Variable self : SQL.SQLAgent.

Lemma aq_weaken {A} k k' (m : M (SQL.state W) A) :
  (k <= k')%nat -> Observe.adds_queries k m -> Observe.adds_queries k' m.
Proof. intros Hk Hm s. destruct (Hm s) as (t & Ht & Hlen). exists t. split; [done|lia]. Qed.

Lemma aq_bind {A B} k1 k2 (m : M (SQL.state W) A) (f : A -> M (SQL.state W) B) :
  Observe.adds_queries k1 m -> (forall a, Observe.adds_queries k2 (f a)) ->
  Observe.adds_queries (k1 + k2) (m ≫= f).
Proof.
  intros Hm Hf s. unfold mbind, M_bind, bind.
  destruct (Hm s) as (t1 & Ht1 & Hlen1).
  destruct (m s) as [[a|e|] s1]; simpl in *.
  - destruct (Hf a s1) as (t2 & Ht2 & Hlen2). exists (t1 ++ t2).
    rewrite Ht2, Ht1, <- app_assoc, queries_app, length_app. split; [done|lia].
  - exists t1. split; [done|lia].
  - exists t1. split; [done|lia].
Qed.

Lemma aq_bind0 {A B} k (m : M (SQL.state W) A) (f : A -> M (SQL.state W) B) :
  Observe.adds_queries 0 m -> (forall a, Observe.adds_queries k (f a)) ->
  Observe.adds_queries k (m ≫= f).
Proof. intros Hm Hf. apply (aq_bind 0 k); assumption. Qed.

Lemma aq_try_except {A} k1 k2 (m : M (SQL.state W) A) (h : exn -> M (SQL.state W) A) :
  Observe.adds_queries k1 m -> (forall e, Observe.adds_queries k2 (h e)) ->
  Observe.adds_queries (k1 + k2) (try_except m h).
Proof.
  intros Hm Hh s. unfold try_except.
  destruct (Hm s) as (t1 & Ht1 & Hlen1).
  destruct (m s) as [[a|e|] s1]; simpl in *.
  - exists t1. split; [done|lia].
  - destruct (Hh e s1) as (t2 & Ht2 & Hlen2). exists (t1 ++ t2).
    rewrite Ht2, Ht1, <- app_assoc, queries_app, length_app. split; [done|lia].
  - exists t1. split; [done|lia].
Qed.

Lemma aq_pure {A} (m : M (SQL.state W) A) :
  (forall s, SQL.trace (m s).2 = SQL.trace s) -> Observe.adds_queries 0 m.
Proof. intros Hm s. exists []. rewrite Hm, app_nil_r. done. Qed.

Lemma aq_ret {A} (a : A) : Observe.adds_queries 0 (mret a : M (SQL.state W) A).
Proof. by apply aq_pure. Qed.

Lemma aq_raise {A} e : Observe.adds_queries 0 (raise e : M (SQL.state W) A).
Proof. by apply aq_pure. Qed.

Lemma aq_out_of_fuel {A} : Observe.adds_queries 0 (out_of_fuel : M (SQL.state W) A).
Proof. by apply aq_pure. Qed.

Lemma aq_speak m : Observe.adds_queries 0 (SQL.speak m : M (SQL.state W) unit).
Proof. by apply aq_pure. Qed.

Lemma aq_print l : Observe.adds_queries 0 (SQL.print l : M (SQL.state W) unit).
Proof. by apply aq_pure. Qed.

Lemma aq_in_world {A} (m : M W A) : Observe.adds_queries 0 (SQL.in_world m).
Proof.
  apply aq_pure. intros s. unfold SQL.in_world. destruct (m (SQL.world s)). done.
Qed.

Lemma aq_log_model ms :
  Observe.adds_queries 0 (SQL.log (SQL.EvModel ms) : M (SQL.state W) unit).
Proof. intros s. exists [SQL.EvModel ms]. done. Qed.

Lemma aq_log_query sql path :
  Observe.adds_queries 1 (SQL.log (SQL.EvQuery sql path) : M (SQL.state W) unit).
Proof. intros s. exists [SQL.EvQuery sql path]. done. Qed.

Ltac aq0 :=
  repeat first
    [ apply aq_ret | apply aq_raise | apply aq_speak | apply aq_print
    | apply aq_in_world | apply aq_log_model | apply aq_out_of_fuel
    | apply aq_bind0; [|intros ?] | case_match ].

Lemma aq_call_model ms : Observe.adds_queries 0 (SQL.call_model model ms).
Proof. unfold SQL.call_model. aq0. Qed.

Lemma aq_attempt_body x prompt l :
  Observe.adds_queries 1 (SQL.attempt_body model query_sqlite str self x prompt l).
Proof.
  unfold SQL.attempt_body.
  apply (aq_bind 0 1).
  { unfold SQL.get_response_from_prompt, SQL.call_model, SQL.text_or_raise. aq0. }
  intros sql. apply (aq_bind 1 0).
  { apply (aq_bind 1 0); [apply aq_log_query|intros ?; apply aq_in_world]. }
  intros exec. unfold SQL.answer_from_result, SQL.call_model. aq0.
Qed.

Lemma aq_retry_loop fuel x prompt l :
  Observe.adds_queries (Z.to_nat (SQL.max_retries self - SQL.attempt l))
    (SQL.retry_loop model query_sqlite str self fuel x prompt l).
Proof.
  revert l. induction fuel as [|fuel IH]; intros l; simpl;
    destruct (Z.ltb_spec (SQL.attempt l) (SQL.max_retries self)) as [Hlt|Hge].
  - eapply aq_weaken; [|apply aq_out_of_fuel]. lia.
  - eapply aq_weaken; [|apply aq_ret]. lia.
  - eapply aq_weaken;
      [|apply (aq_try_except 1 (Z.to_nat (SQL.max_retries self - (SQL.attempt l + 1))))].
    + lia.
    + apply aq_attempt_body.
    + intros e. apply aq_bind0; [apply aq_print|]. intros _.
      apply (IH (SQL.mkLocals (SQL.attempt l + 1) (SQL.result_ l) (SQL.msg l))).
  - eapply aq_weaken; [|apply aq_ret]. lia.
Qed.

(** X5: whatever the collaborators do, one call of [reply] only adds to
    the trace and sends at most [max_retries] statements to the database. *)
Theorem reply_queries_bounded fuel x (s : SQL.state W) :
  exists t,
    SQL.trace (SQL.reply model query_sqlite is_sql_question_prompt describe_sql
                         generate_prompt str self fuel x s).2
    = SQL.trace s ++ t /\
    (length (SQL.queries t) <= Z.to_nat (SQL.max_retries self))%nat.
Proof.
  revert s.
  change (Observe.adds_queries (Z.to_nat (SQL.max_retries self))
            (SQL.reply model query_sqlite is_sql_question_prompt describe_sql
                       generate_prompt str self fuel x)).
  unfold SQL.reply. destruct x as [x|].
  - apply aq_bind0.
    { unfold SQL.is_question_related, SQL.call_model. aq0. }
    intros r. apply aq_bind0; [aq0|]. intros t.
    destruct (negb _).
    + eapply aq_weaken; [|aq0]. lia.
    + eapply aq_weaken; [|apply (aq_bind (Z.to_nat (SQL.max_retries self - 0)) 0)].
      * lia.
      * apply (aq_retry_loop fuel x _ (SQL.mkLocals 0 None None)).
      * intros l. unfold SQL.return_local. aq0.
  - eapply aq_weaken; [|unfold SQL.call_model; aq0]. lia.
Qed.

Lemma ends_bind {S A B} (m : M S A) (f : A -> M S B) :
  Observe.ends m -> (forall a, Observe.ends (f a)) -> Observe.ends (m ≫= f).
Proof.
  intros Hm Hf s. unfold mbind, M_bind, bind. specialize (Hm s).
  destruct (m s) as [[a|e|] s1]; simpl in *; [apply Hf|done|done].
Qed.

Lemma ends_try_except {S A} (m : M S A) (h : exn -> M S A) :
  Observe.ends m -> (forall e, Observe.ends (h e)) -> Observe.ends (try_except m h).
Proof.
  intros Hm Hh s. unfold try_except. specialize (Hm s).
  destruct (m s) as [[a|e|] s1]; simpl in *; [done|apply Hh|done].
Qed.

Lemma ends_ret {S A} (a : A) : Observe.ends (mret a : M S A).
Proof. intros s. done. Qed.

Lemma ends_raise {S A} e : Observe.ends (raise e : M S A).
Proof. intros s. done. Qed.

Lemma ends_modify {S} (f : S -> S) : Observe.ends (modify f).
Proof. intros s. done. Qed.

Lemma ends_in_world {A} (m : M W A) :
  Observe.ends m -> Observe.ends (SQL.in_world m).
Proof.
  intros Hm s. unfold SQL.in_world. specialize (Hm (SQL.world s)).
  destruct (m (SQL.world s)). exact Hm.
Qed.

Hypothesis model_ends : forall ms, Observe.ends (model ms).
Hypothesis query_ends : forall sql path, Observe.ends (query_sqlite sql path).

Ltac solve_ends :=
  repeat first
    [ apply ends_ret | apply ends_raise | apply ends_modify
    | apply ends_in_world; first [apply model_ends | apply query_ends]
    | apply ends_bind; [|intros ?] | case_match ].

Lemma retry_loop_ends fuel x prompt l :
  (Z.to_nat (SQL.max_retries self - SQL.attempt l) <= fuel)%nat ->
  Observe.ends (SQL.retry_loop model query_sqlite str self fuel x prompt l).
Proof.
  revert l. induction fuel as [|fuel IH]; intros l Hfuel; simpl;
    destruct (Z.ltb_spec (SQL.attempt l) (SQL.max_retries self)) as [Hlt|Hge];
    try apply ends_ret; [lia|].
  apply ends_try_except.
  - unfold SQL.attempt_body, SQL.get_response_from_prompt, SQL.answer_from_result,
      SQL.call_model, SQL.text_or_raise, SQL.log, SQL.speak. solve_ends.
  - intros e. apply ends_bind; [apply ends_modify|]. intros _.
    apply IH. simpl. lia.
Qed.

(** X6: the retry loop ends: with collaborators that answer, [reply]
    returns or raises within [max_retries] iterations of its loop. *)
Theorem reply_ends fuel x :
  (Z.to_nat (SQL.max_retries self) <= fuel)%nat ->
  Observe.ends (SQL.reply model query_sqlite is_sql_question_prompt describe_sql
                          generate_prompt str self fuel x).
Proof.
  intros Hfuel. unfold SQL.reply. destruct x as [x|].
  - apply ends_bind.
    { unfold SQL.is_question_related, SQL.call_model, SQL.log. solve_ends. }
    intros r. apply ends_bind; [solve_ends|]. intros t.
    destruct (negb _); [unfold SQL.speak; solve_ends|].
    apply ends_bind; [apply retry_loop_ends; simpl; lia|].
    intros l. unfold SQL.return_local, SQL.print. solve_ends.
  - unfold SQL.call_model, SQL.log, SQL.speak. solve_ends.
Qed.

End SQLBound.

Section SQLReply.
Context {W : Type}.
Variable model : list (gmap string val) -> M W (ModelResponse unit unit).
Variable query_sqlite : string -> string -> M W string.
Variable is_sql_question_prompt : val -> val.
Variable describe_sql : val.
Variable generate_prompt : Msg -> val.
Variable str : val -> string.
Variable self : SQL.SQLAgent.

(** X3: when the model does not find the request SQL-related, its answer
    is passed through verbatim as the reply; the classification is the only
    call made: no statement is generated, no query is sent and nothing is
    printed. *)
Theorem reply_passes_chat_answer_through fuel x (s : SQL.state W) r w' t :
  let messages := SQL.assistant_messages (is_sql_question_prompt (content x)) in
  model messages (SQL.world s) = (Ok r, w') ->
  text r = Some t ->
  lower t <> "yes" ->
  let msg := mkMsg (SQL.self_name self) (VStr t) "sql assistant" None in
  SQL.reply model query_sqlite is_sql_question_prompt describe_sql
            generate_prompt str self fuel (Some x) s
  = (Ok msg,
     SQL.mkState w' (SQL.stdout s) (SQL.spoken s ++ [msg])
                 (SQL.trace s ++ [SQL.EvModel messages])).
Proof.
  intros messages Hm Ht Hno msg. unfold SQL.reply, SQL.is_question_related, SQL.call_model.
  unfold mbind, M_bind, bind, mret, M_ret, ret, raise, modify, SQL.log, SQL.in_world,
    SQL.speak. simpl. fold messages. rewrite Hm. simpl. rewrite Ht.
  destruct (String.eqb_spec (lower t) "yes"); [contradiction|]. reflexivity.
Qed.

(** X4: an exception of the model during the classification is not
    caught: it leaves [reply], which has neither spoken nor printed
    anything. *)
Theorem reply_classification_error_escapes fuel x (s : SQL.state W) e w' :
  let messages := SQL.assistant_messages (is_sql_question_prompt (content x)) in
  model messages (SQL.world s) = (Raise e, w') ->
  SQL.reply model query_sqlite is_sql_question_prompt describe_sql
            generate_prompt str self fuel (Some x) s
  = (Raise e,
     SQL.mkState w' (SQL.stdout s) (SQL.spoken s)
                 (SQL.trace s ++ [SQL.EvModel messages])).
Proof.
  intros messages Hm. unfold SQL.reply, SQL.is_question_related, SQL.call_model.
  unfold mbind, M_bind, bind, mret, M_ret, ret, raise, modify, SQL.log, SQL.in_world.
  simpl. fold messages. rewrite Hm. reflexivity.
Qed.

(** X7: when the first attempt succeeds, [reply] returns the message that
    holds the statement, the result of the query and the answer of the
    model; the loop is left at once: no retry line and no fallback notice
    are printed. *)
Theorem reply_first_attempt_succeeds fuel x (s s1 s2 s4 : SQL.state W) t sql res w3 ans :
  SQL.is_question_related model is_sql_question_prompt (content x) s
    = (Ok (Some t), s1) ->
  lower t = "yes" ->
  0 < SQL.max_retries self ->
  SQL.get_response_from_prompt model (generate_prompt x) s1 = (Ok sql, s2) ->
  query_sqlite sql (SQL.db_path self) (SQL.world s2) = (Ok res, w3) ->
  let response_text :=
    "Generated SQL query is: " +:+ sql +:+ " " +:+ LF +:+ LF +:+
    "                The execution result is: " +:+ res in
  SQL.answer_from_result model (str (content x)) response_text
    (SQL.mkState w3 (SQL.stdout s2) (SQL.spoken s2)
                 (SQL.trace s2 ++ [SQL.EvQuery sql (SQL.db_path self)]))
    = (Ok (Some ans), s4) ->
  let msg := mkMsg (SQL.self_name self) (VStr (response_text +:+ LF +:+ LF +:+ ans))
                   "sql assistant" None in
  SQL.reply model query_sqlite is_sql_question_prompt describe_sql
            generate_prompt str self (S fuel) (Some x) s
  = (Ok msg,
     SQL.mkState (SQL.world s4) (SQL.stdout s4) (SQL.spoken s4 ++ [msg]) (SQL.trace s4)) /\
  SQL.stdout s4 = SQL.stdout s1.
Proof.
  intros Hq Hyes Hmax Hgen Hquery response_text Hans msg. split.
  - unfold SQL.reply.
    unfold mbind, M_bind, bind, mret, M_ret, ret, raise, modify.
    rewrite Hq. simpl. rewrite Hyes. simpl.
    destruct (Z.ltb_spec 0 (SQL.max_retries self)); [|lia].
    unfold try_except, SQL.attempt_body.
    unfold mbind, M_bind, bind, mret, M_ret, ret, raise, modify.
    rewrite Hgen. unfold SQL.log, SQL.in_world, modify. simpl.
    rewrite Hquery. simpl. fold response_text. rewrite Hans.
    unfold SQL.speak, modify. simpl. reflexivity.
  - pose proof (attempt_body_stdout model query_sqlite str self x (generate_prompt x)
                  (SQL.mkLocals 0 None None) s1) as Hout.
    unfold SQL.attempt_body in Hout.
    unfold mbind, M_bind, bind, mret, M_ret, ret, raise, modify in Hout.
    rewrite Hgen in Hout. unfold SQL.log, SQL.in_world, modify in Hout. simpl in Hout.
    rewrite Hquery in Hout. simpl in Hout. fold response_text in Hout.
    rewrite Hans in Hout. exact Hout.
Qed.
End SQLReply.

(** A model that answers over two lines and with a trailing comment. *)
Lemma get_response_from_prompt_two_rules_witness :
  (SQL.get_response_from_prompt
     (Scenario.constant_model ("name  FROM" +:+ LF +:+ " singer /* all of them */ WHERE 1"))
     (VStr "generate") Scenario.sql_start).1
  = Ok ("SELECT name FROM singer " +:+ LF).
Proof.
  exact (proj1 (proj2 (get_response_from_prompt_two_rules
           (Scenario.constant_model ("name  FROM" +:+ LF +:+ " singer /* all of them */ WHERE 1"))
           (VStr "generate") Scenario.sql_start
           (Scenario.reply_text ("name  FROM" +:+ LF +:+ " singer /* all of them */ WHERE 1")) tt
           ("name  FROM" +:+ LF +:+ " singer /* all of them */ WHERE 1") eq_refl eq_refl))).
Defined.

(** A model that declines: its answer is the reply, and the database is
    not queried. *)
Lemma reply_passes_chat_answer_through_witness :
  let run := Scenario.sql_reply_with
               (Scenario.constant_model "I can only help with the database.")
               Scenario.failing_query 0 (Some Scenario.question) in
  run.1 = Ok (mkMsg "sql agent" (VStr "I can only help with the database.")
                    "sql assistant" None) /\
  SQL.queries (SQL.trace run.2) = [].
Proof.
  intros run. subst run. unfold Scenario.sql_reply_with.
  rewrite (reply_passes_chat_answer_through
             (Scenario.constant_model "I can only help with the database.")
             Scenario.failing_query (fun _ => VStr "classify") (VStr "describe")
             (fun _ => VStr "generate") Scenario.show Scenario.sql_agent 0
             Scenario.question Scenario.sql_start
             (Scenario.reply_text "I can only help with the database.") tt
             "I can only help with the database." eq_refl eq_refl).
  - split; reflexivity.
  - vm_compute. discriminate.
Defined.

(** A model that cannot be reached. *)
Lemma reply_classification_error_escapes_witness :
  let run := Scenario.sql_reply_with Scenario.unreachable_model Scenario.failing_query
               3 (Some Scenario.question) in
  run.1 = Raise (ExternalError "ConnectionError" "timed out") /\
  SQL.spoken run.2 = [] /\ SQL.stdout run.2 = [].
Proof.
  intros run. subst run. unfold Scenario.sql_reply_with.
  rewrite (reply_classification_error_escapes
             Scenario.unreachable_model
             Scenario.failing_query (fun _ => VStr "classify") (VStr "describe")
             (fun _ => VStr "generate") Scenario.show Scenario.sql_agent 3
             Scenario.question Scenario.sql_start
             (ExternalError "ConnectionError" "timed out") tt eq_refl).
  repeat split.
Defined.

(** The agent on a database on which every query fails: three
    iterations are enough. *)
Lemma reply_ends_witness :
  (Scenario.sql_reply_with Scenario.sql_model Scenario.failing_query 3
     (Some Scenario.question)).1 <> OutOfFuel.
Proof.
  apply (reply_ends Scenario.sql_model Scenario.failing_query (fun _ => VStr "classify")
           (VStr "describe") (fun _ => VStr "generate") Scenario.show Scenario.sql_agent).
  - intros ms s. unfold Scenario.sql_model.
    repeat case_match; simpl; discriminate.
  - intros sql path s. simpl. discriminate.
  - vm_compute. lia.
Defined.

(** The agent on a database that answers. *)
Lemma reply_first_attempt_succeeds_witness :
  let run := Scenario.sql_reply_with Scenario.sql_model Scenario.answering_query 1
               (Some Scenario.question) in
  (exists msg, run.1 = Ok msg /\ SQL.spoken run.2 = [msg]) /\
  SQL.stdout run.2 = [] /\
  length (SQL.queries (SQL.trace run.2)) = 1%nat.
Proof.
  intros run. subst run. unfold Scenario.sql_reply_with.
  edestruct (reply_first_attempt_succeeds
               Scenario.sql_model Scenario.answering_query (fun _ => VStr "classify")
               (VStr "describe") (fun _ => VStr "generate") Scenario.show
               Scenario.sql_agent 0 Scenario.question Scenario.sql_start)
    as [Hreply Hout];
    [reflexivity | reflexivity | vm_compute; reflexivity | reflexivity | reflexivity
    | reflexivity | ].
  rewrite Hreply. split; [eexists; split; reflexivity|]. split; reflexivity.
Defined.

(* ===================================================================== *)
(** * Further properties of the CodeAct agent *)
(* ===================================================================== *)

Lemma append_length (a b : string) :
  String.length (a +:+ b) = (String.length a + String.length b)%nat.
Proof. induction a as [|x a IH]; [reflexivity|]. rewrite append_cons. simpl. lia. Qed.

Lemma drop_chars_append (p r : string) :
  CodeAct.drop_chars (String.length p) (p +:+ r) = r.
Proof. induction p as [|a p IH]; [destruct r; reflexivity|]. exact IH. Qed.

Lemma startswith_drop (s pat : string) :
  startswith s pat = true ->
  s = pat +:+ CodeAct.drop_chars (String.length pat) s.
Proof.
  intros Hp. apply prefix_split in Hp as [r ->].
  rewrite drop_chars_append. reflexivity.
Qed.

(** Two ways to cut one string: the shorter head is a head of the longer. *)
Lemma append_eq_split (a u b v : string) :
  a +:+ u = b +:+ v -> (String.length a <= String.length b)%nat ->
  exists x, b = a +:+ x /\ u = x +:+ v.
Proof.
  revert b. induction a as [|c a IH]; intros b Heq Hlen.
  - exists b. split; [reflexivity|exact Heq].
  - destruct b as [|c' b]; [simpl in Hlen; lia|].
    rewrite !append_cons in Heq. injection Heq as <- Heq.
    destruct (IH b Heq) as (x & -> & ->); [simpl in Hlen; lia|].
    exists x. split; reflexivity.
Qed.

Section Tags.
Variable pat : string.

Lemma after_first_sound s r :
  CodeAct.after_first pat s = Some r ->
  exists pre, s = pre +:+ pat +:+ r /\
    forall pre' r', s = pre' +:+ pat +:+ r' ->
                    (String.length pre <= String.length pre')%nat.
Proof.
  revert r. induction s as [|c s IH]; intros r; cbn [CodeAct.after_first].
  - destruct (startswith EmptyString pat) eqn:Hp; [|discriminate].
    intros [= <-]. exists EmptyString. split; [|simpl; lia].
    apply (startswith_drop _ _ Hp).
  - destruct (startswith (String c s) pat) eqn:Hp.
    + intros [= <-]. exists EmptyString. split; [|simpl; lia].
      apply (startswith_drop _ _ Hp).
    + intros Hs. destruct (IH r Hs) as (pre & -> & Hmin).
      exists (String c pre). split; [reflexivity|].
      intros pre' r' Heq. destruct pre' as [|c' pre'].
      * change (EmptyString +:+ pat +:+ r') with (pat +:+ r') in Heq.
        unfold startswith in Hp. rewrite Heq, prefix_append in Hp. discriminate.
      * rewrite append_cons in Heq. injection Heq as <- Heq.
        simpl. apply le_n_S, (Hmin pre' r'), Heq.
Qed.

Lemma after_first_complete pre r :
  is_Some (CodeAct.after_first pat (pre +:+ pat +:+ r)).
Proof.
  induction pre as [|c pre IH].
  - change (EmptyString +:+ pat +:+ r) with (pat +:+ r).
    destruct (pat +:+ r) eqn:Heq; cbn [CodeAct.after_first]; unfold startswith;
      rewrite <- Heq, prefix_append; eauto.
  - rewrite append_cons. cbn [CodeAct.after_first].
    destruct (startswith _ pat); eauto.
Qed.

Lemma before_last_complete b post :
  is_Some (CodeAct.before_last pat (b +:+ pat +:+ post)).
Proof.
  induction b as [|c b IH].
  - change (EmptyString +:+ pat +:+ post) with (pat +:+ post).
    destruct (pat +:+ post) eqn:Heq; cbn [CodeAct.before_last].
    + unfold startswith. rewrite <- Heq, prefix_append. eauto.
    + destruct (CodeAct.before_last pat s); [eauto|].
      unfold startswith. rewrite <- Heq, prefix_append. eauto.
  - rewrite append_cons. cbn [CodeAct.before_last].
    destruct IH as [x ->]. eauto.
Qed.

Lemma before_last_sound r b :
  CodeAct.before_last pat r = Some b ->
  exists post, r = b +:+ pat +:+ post /\
    forall b' post', r = b' +:+ pat +:+ post' ->
                     (String.length b' <= String.length b)%nat.
Proof.
  revert b. induction r as [|c r IH]; intros b; cbn [CodeAct.before_last].
  - destruct (startswith EmptyString pat) eqn:Hp; [|discriminate].
    intros [= <-]. apply prefix_split in Hp as [post Hr].
    exists post. split; [exact Hr|].
    intros [|c' b'] post' Heq; [simpl; lia|discriminate].
  - destruct (CodeAct.before_last pat r) as [b0|] eqn:Hb0.
    + intros [= <-]. destruct (IH b0 eq_refl) as (post & -> & Hmax).
      exists post. split; [reflexivity|].
      intros [|c' b'] post' Heq; [simpl; lia|].
      rewrite !append_cons in Heq. injection Heq as <- Heq.
      simpl. apply le_n_S, (Hmax b' post'), Heq.
    + destruct (startswith (String c r) pat) eqn:Hp; [|discriminate].
      intros [= <-]. apply prefix_split in Hp as [post Hr].
      exists post. split; [exact Hr|].
      intros [|c' b'] post' Heq; [simpl; lia|].
      rewrite append_cons in Heq. injection Heq as <- Heq.
      pose proof (before_last_complete b' post') as [x Hx].
      rewrite <- Heq, Hb0 in Hx. discriminate.
Qed.
End Tags.

(** X8: the group that the search of [handle_code_execution] captures (the
    snippet, before it is stripped) is enclosed in the response between an
    opening and a closing tag; the opening tag is the first one of the
    response and the closing tag is the last one after it, so the snippet
    runs from the first opening to the last closing tag. *)
Theorem search_execute_sound response_text code :
  CodeAct.search_execute response_text = Some code ->
  exists pre post,
    response_text = pre +:+ "[execute]" +:+ code +:+ "[/execute]" +:+ post /\
    (forall pre' rest',
       response_text = pre' +:+ "[execute]" +:+ rest' ->
       (String.length pre <= String.length pre')%nat) /\
    (forall code' post',
       code +:+ "[/execute]" +:+ post = code' +:+ "[/execute]" +:+ post' ->
       (String.length code' <= String.length code)%nat).
Proof.
  unfold CodeAct.search_execute. intros H.
  destruct (CodeAct.after_first "[execute]" response_text) as [rest|] eqn:Hrest;
    [|discriminate].
  simpl in H.
  destruct (after_first_sound _ _ _ Hrest) as (pre & -> & Hmin).
  destruct (before_last_sound _ _ _ H) as (post & -> & Hmax).
  exists pre, post. split; [reflexivity|]. split; [exact Hmin|exact Hmax].
Qed.

(** X9: a snippet is found exactly when the response holds an opening tag
    with a closing tag somewhere after it. *)
Theorem search_execute_complete response_text :
  is_Some (CodeAct.search_execute response_text) <->
  exists pre code post,
    response_text = pre +:+ "[execute]" +:+ code +:+ "[/execute]" +:+ post.
Proof.
  split.
  - intros [code H]. unfold CodeAct.search_execute in H.
    destruct (CodeAct.after_first "[execute]" response_text) as [rest|] eqn:Hrest;
      [|discriminate].
    simpl in H.
    destruct (after_first_sound _ _ _ Hrest) as (pre & -> & _).
    destruct (before_last_sound _ _ _ H) as (post & -> & _).
    eauto.
  - intros (pre & code & post & ->). unfold CodeAct.search_execute.
    destruct (after_first_complete "[execute]" pre (code +:+ "[/execute]" +:+ post))
      as [rest Hrest].
    rewrite Hrest. simpl.
    destruct (after_first_sound _ _ _ Hrest) as (pre0 & Heq & Hmin).
    assert ((pre0 +:+ "[execute]") +:+ rest
            = (pre +:+ "[execute]") +:+ (code +:+ "[/execute]" +:+ post)) as Hcut.
    { rewrite !append_assoc. symmetry. exact Heq. }
    apply append_eq_split in Hcut as (x & _ & ->).
    + rewrite <- append_assoc. apply before_last_complete.
    + rewrite !append_length. specialize (Hmin pre _ eq_refl). lia.
Qed.

Lemma executions_app {P} (t1 t2 : list (CodeAct.event P)) :
  Observe.executions (t1 ++ t2) = (Observe.executions t1 + Observe.executions t2)%nat.
Proof. unfold Observe.executions. rewrite List.filter_app, length_app. reflexivity. Qed.

Lemma model_calls_app {P} (t1 t2 : list (CodeAct.event P)) :
  Observe.model_calls (t1 ++ t2) = (Observe.model_calls t1 + Observe.model_calls t2)%nat.
Proof. unfold Observe.model_calls. rewrite List.filter_app, length_app. reflexivity. Qed.

Section CodeActMore.
Context {W P : Type}.
Variable model_format : list Msg -> P.
Variable model : P -> M W (ModelResponse unit unit).
Variable run_code_on_notebook : string -> W -> CodeAct.ServiceResponse * W.
Variable str : val -> string.
Variable self : CodeAct.CodeActAgent.

(** The loop is left at once when the trailing entry is not tagged [user]. *)
Lemma reply_loop_stops fuel count (s : CodeAct.state W P) m :
  list.last (CodeAct.memory s) = Some m ->
  role m <> "user" ->
  CodeAct.reply_loop model_format model run_code_on_notebook str self fuel count s
  = (Ok count, s).
Proof.
  intros Hlast Hrole.
  destruct fuel; simpl; unfold mbind, M_bind, bind, CodeAct.memory_last;
    rewrite Hlast; destruct (String.eqb_spec (role m) "user"); done.
Qed.

Lemma reply_loop_within_ceiling fuel : forall count (s : CodeAct.state W P),
  let '(r, s') := CodeAct.reply_loop model_format model run_code_on_notebook str
                                     self fuel count s in
  (exists t,
     CodeAct.trace s' = CodeAct.trace s ++ t /\
     (Observe.executions t <= Z.to_nat (CodeAct.n_max_executions self - count))%nat /\
     (Observe.model_calls t <= Z.to_nat (CodeAct.n_max_executions self - count))%nat) /\
  ((forall prompt, Observe.ends (model prompt)) ->
   (Z.to_nat (CodeAct.n_max_executions self - count) <= fuel)%nat ->
   r <> OutOfFuel).
Proof.
  assert (forall (s : CodeAct.state W P) k, exists t : list (CodeAct.event P),
            CodeAct.trace s = CodeAct.trace s ++ t /\
            (Observe.executions t <= k)%nat /\ (Observe.model_calls t <= k)%nat)
    as Hnone.
  { intros s k. exists []. rewrite app_nil_r.
    split; [reflexivity|split; apply Nat.le_0_l]. }
  assert (forall (tr : list (CodeAct.event P)) p k, (1 <= k)%nat ->
            exists t : list (CodeAct.event P),
              tr ++ [CodeAct.EvModel p] = tr ++ t /\
              (Observe.executions t <= k)%nat /\ (Observe.model_calls t <= k)%nat)
    as Hone.
  { intros tr p k Hk. exists [CodeAct.EvModel p].
    split; [reflexivity|split; [apply Nat.le_0_l|exact Hk]]. }
  induction fuel as [|fuel IH]; intros count s.
  - simpl. unfold mbind, M_bind, bind, CodeAct.memory_last.
    destruct (list.last (CodeAct.memory s)) as [m|]; simpl; [|split; [apply Hnone|done]].
    destruct (String.eqb (role m) "user"); simpl; [|split; [apply Hnone|done]].
    destruct (Z.ltb_spec count (CodeAct.n_max_executions self)); simpl;
      (split; [apply Hnone|]); [intros _ Hfuel; lia|done].
  - simpl. unfold mbind, M_bind, bind, CodeAct.memory_last at 1.
    destruct (list.last (CodeAct.memory s)) as [m|] eqn:Hlast; simpl;
      [|split; [apply Hnone|done]].
    destruct (String.eqb (role m) "user"); simpl; [|split; [apply Hnone|done]].
    destruct (Z.ltb_spec count (CodeAct.n_max_executions self)) as [Hlt|Hge]; simpl;
      [|split; [apply Hnone|done]].
    assert (1 <= Z.to_nat (CodeAct.n_max_executions self - count))%nat as Hk by lia.
    unfold CodeAct.in_world at 1. simpl.
    pose proof (fun H : forall prompt, Observe.ends (model prompt) =>
                  H (model_format (CodeAct.memory s)) (CodeAct.world s)) as Hends.
    destruct (model (model_format (CodeAct.memory s)) (CodeAct.world s))
      as [[r|e|] w'] eqn:Hm; simpl; simpl in Hends;
      [|split; [apply Hone, Hk|done]
       |split; [apply Hone, Hk|intros H _; by destruct (Hends H)]].
    unfold CodeAct.handle_code_execution.
    destruct (text r) as [t|]; simpl; [|split; [apply Hone, Hk|done]].
    destruct (CodeAct.search_execute t) as [code|]; simpl.
    + unfold CodeAct.run_code, mbind, M_bind, bind, CodeAct.in_world. simpl.
      destruct (run_code_on_notebook (strip code) w') as [res w'']. simpl.
      match goal with |- context [CodeAct.reply_loop _ _ _ _ _ _ _ ?st] =>
        specialize (IH (count + 1) st);
        destruct (CodeAct.reply_loop model_format model run_code_on_notebook str
                                     self fuel (count + 1) st) as [r' s'] end.
      destruct IH as [(t' & Htr & Hex & Hmc) Hend]. simpl in Htr. split.
      * exists ([CodeAct.EvModel (model_format (CodeAct.memory s));
                 CodeAct.EvExec (strip code)] ++ t').
        rewrite Htr, <- !app_assoc. split; [reflexivity|].
        rewrite executions_app, model_calls_app.
        change (Observe.executions [CodeAct.EvModel (model_format (CodeAct.memory s));
                                    CodeAct.EvExec (strip code)]) with 1%nat.
        change (Observe.model_calls [CodeAct.EvModel (model_format (CodeAct.memory s));
                                     CodeAct.EvExec (strip code)]) with 1%nat.
        replace (CodeAct.n_max_executions self - (count + 1))
          with (CodeAct.n_max_executions self - count - 1) in Hex, Hmc by lia.
        lia.
      * intros Hmodel Hfuel. apply Hend; [exact Hmodel|lia].
    + rewrite (reply_loop_stops fuel count _
                 (mkMsg (CodeAct.self_name self) (VStr t) "assistant" None));
        [|simpl; apply last_snoc|simpl; discriminate].
      split; [apply Hone, Hk|done].
Qed.

Lemma reply_bound_and_end fuel x (s : CodeAct.state W P) :
  let '(r, s') := CodeAct.reply model_format model run_code_on_notebook str
                                self fuel x s in
  (exists t,
     CodeAct.trace s' = CodeAct.trace s ++ t /\
     (Observe.executions t <= Z.to_nat (CodeAct.n_max_executions self))%nat /\
     (Observe.model_calls t <= Z.to_nat (CodeAct.n_max_executions self))%nat) /\
  ((forall prompt, Observe.ends (model prompt)) ->
   (Z.to_nat (CodeAct.n_max_executions self) <= fuel)%nat ->
   r <> OutOfFuel).
Proof.
  unfold CodeAct.reply.
  unfold mbind, M_bind, bind, CodeAct.memory_add, modify. simpl.
  match goal with |- context [CodeAct.reply_loop _ _ _ _ _ _ _ ?st] =>
    pose proof (reply_loop_within_ceiling fuel 0 st) as Hloop;
    destruct (CodeAct.reply_loop model_format model run_code_on_notebook str
                                 self fuel 0 st) as [r s'] end.
  rewrite Z.sub_0_r in Hloop. destruct Hloop as [Hbound Hend]. simpl in Hbound.
  destruct r as [count|e|]; simpl.
  - destruct (count =? CodeAct.n_max_executions self); simpl.
    + unfold CodeAct.memory_last.
      destruct (list.last (CodeAct.memory s')) as [m|]; simpl; [|split; done].
      destruct (String.eqb (role m) "user"); simpl; split; done.
    + split; done.
  - split; done.
  - split; [done|]. intros Hmodel Hfuel. by destruct (Hend Hmodel Hfuel).
Qed.

(** X11: whatever the model and the executor do, one call of [reply] only
    adds to the trace, runs at most [n_max_executions] snippets and calls
    the model at most [n_max_executions] times. *)
Theorem reply_within_ceiling fuel x (s : CodeAct.state W P) :
  exists t,
    CodeAct.trace (CodeAct.reply model_format model run_code_on_notebook str
                                 self fuel x s).2
    = CodeAct.trace s ++ t /\
    (Observe.executions t <= Z.to_nat (CodeAct.n_max_executions self))%nat /\
    (Observe.model_calls t <= Z.to_nat (CodeAct.n_max_executions self))%nat.
Proof.
  pose proof (reply_bound_and_end fuel x s) as H.
  destruct (CodeAct.reply _ _ _ _ _ _ _ s) as [r s']. exact (proj1 H).
Qed.

(** X12: the loop of [reply] ends: with a model that answers, [reply]
    returns or raises within [n_max_executions] iterations. *)
Theorem codeact_reply_ends fuel x :
  (forall prompt, Observe.ends (model prompt)) ->
  (Z.to_nat (CodeAct.n_max_executions self) <= fuel)%nat ->
  Observe.ends (CodeAct.reply model_format model run_code_on_notebook str
                              self fuel x).
Proof.
  intros Hmodel Hfuel s. pose proof (reply_bound_and_end fuel x s) as H.
  destruct (CodeAct.reply _ _ _ _ _ _ _ s) as [r s']. exact (proj2 H Hmodel Hfuel).
Qed.

(** X10: when the response of the model holds no execution block, [reply]
    makes that one model call, runs nothing, remembers and speaks the
    response, and returns without the notice. *)
Theorem reply_without_execution fuel x (s : CodeAct.state W P) r w' t :
  CodeAct.trailing_user (CodeAct.memory s ++ option_list x) ->
  0 < CodeAct.n_max_executions self ->
  let prompt := model_format (CodeAct.memory s ++ option_list x) in
  model prompt (CodeAct.world s) = (Ok r, w') ->
  text r = Some t ->
  CodeAct.search_execute t = None ->
  let msg_res := mkMsg (CodeAct.self_name self) (VStr t) "assistant" None in
  CodeAct.reply model_format model run_code_on_notebook str self (S fuel) x s
  = (Ok tt,
     CodeAct.mkState w' (CodeAct.memory s ++ option_list x ++ [msg_res])
                     (CodeAct.spoken s ++ [msg_res])
                     (CodeAct.trace s ++ [CodeAct.EvModel prompt])).
Proof.
  intros (m & Hlast & Hrole) Hn prompt Hm Ht Hsearch msg_res.
  unfold CodeAct.reply. unfold mbind, M_bind, bind, CodeAct.memory_add, modify.
  simpl. unfold mbind, M_bind, bind, CodeAct.memory_last at 1. simpl.
  rewrite Hlast, Hrole. simpl.
  destruct (Z.ltb_spec 0 (CodeAct.n_max_executions self)); [|lia]. simpl.
  unfold CodeAct.in_world at 1. simpl. fold prompt. rewrite Hm. simpl.
  unfold CodeAct.handle_code_execution. rewrite Ht, Hsearch. simpl.
  rewrite (reply_loop_stops fuel 0 _ msg_res);
    [|simpl; apply last_snoc|simpl; discriminate].
  destruct (Z.eqb_spec 0 (CodeAct.n_max_executions self)); [lia|].
  rewrite <- app_assoc. reflexivity.
Qed.
End CodeActMore.

(** A response with two blocks: the snippet runs from the first opening
    tag to the last closing tag. *)
Lemma search_execute_sound_witness :
  exists pre post,
    "a [execute] x = 1 [/execute] b [execute] print(x) [/execute] c"
    = pre +:+ "[execute]" +:+ " x = 1 [/execute] b [execute] print(x) " +:+
      "[/execute]" +:+ post.
Proof.
  destruct (search_execute_sound
              "a [execute] x = 1 [/execute] b [execute] print(x) [/execute] c"
              " x = 1 [/execute] b [execute] print(x) " eq_refl)
    as (pre & post & Heq & _).
  exists pre, post. exact Heq.
Defined.

(** A model that answers at once. *)
Lemma reply_without_execution_witness :
  let run := Scenario.codeact_reply_with (Scenario.constant_model "The answer is 2.") 1
               (Some Scenario.from_user) in
  run.1 = Ok tt /\
  CodeAct.spoken run.2 = [mkMsg "assistant" (VStr "The answer is 2.") "assistant" None] /\
  Observe.executions (CodeAct.trace run.2) = 0%nat.
Proof.
  intros run. subst run. unfold Scenario.codeact_reply_with.
  rewrite (reply_without_execution (fun mem => mem)
             (Scenario.constant_model "The answer is 2.") Scenario.notebook Scenario.show
             Scenario.codeact_agent 0 (Some Scenario.from_user) Scenario.codeact_start
             (Scenario.reply_text "The answer is 2.") tt "The answer is 2.").
  - repeat split.
  - exists Scenario.from_user. split; reflexivity.
  - reflexivity.
  - reflexivity.
  - reflexivity.
  - reflexivity.
Defined.

(** The model that always asks for an execution: five iterations are
    enough. *)
Lemma codeact_reply_ends_witness :
  (Scenario.codeact_reply 5 (Some Scenario.from_user)).1 <> OutOfFuel.
Proof.
  apply (codeact_reply_ends (fun mem => mem) Scenario.exec_model Scenario.notebook
           Scenario.show Scenario.codeact_agent 5 (Some Scenario.from_user)).
  - intros prompt s. simpl. discriminate.
  - vm_compute. lia.
Defined.

(* ===================================================================== *)
(** * Further properties of the chat formatter *)
(* ===================================================================== *)

Section FormatMore.
Variable as_message : ChatFormat.pyobj -> option Msg.
Variable _convert_to_str : val -> string.

Lemma all_messages_omap l :
  forallb (fun o => bool_decide (is_Some (as_message o))) l = true ->
  ChatFormat.all_messages as_message l = Some (omap as_message l).
Proof.
  induction l as [|o l IH]; simpl; [reflexivity|].
  intros H. apply andb_true_iff in H as [Ho Hl].
  apply bool_decide_eq_true in Ho as [m Hm]. rewrite Hm, (IH Hl). reflexivity.
Qed.

Lemma all_messages_none l :
  forallb (fun o => bool_decide (is_Some (as_message o))) l = false ->
  ChatFormat.all_messages as_message l = None.
Proof.
  induction l as [|o l IH]; simpl; [discriminate|].
  intros H. apply andb_false_iff in H as [Ho|Hl].
  - apply bool_decide_eq_false in Ho.
    destruct (as_message o); [exfalso; apply Ho; eauto|reflexivity].
  - rewrite (IH Hl). destruct (as_message o); reflexivity.
Qed.

Lemma parse_args_acceptable args : forall input_msgs,
  forallb (Observe.acceptable as_message) args = true ->
  ChatFormat.parse_args as_message args input_msgs
  = Ok (input_msgs ++ Observe.messages_of as_message args).
Proof.
  induction args as [|a args IH]; intros input_msgs H.
  - simpl. unfold Observe.messages_of. simpl. rewrite app_nil_r. reflexivity.
  - simpl in H. apply andb_true_iff in H as [Ha Hargs].
    unfold Observe.messages_of. simpl. fold (Observe.messages_of as_message args).
    destruct a as [|o|l]; simpl in *.
    + apply IH, Hargs.
    + apply bool_decide_eq_true in Ha as [m Hm]. rewrite Hm. simpl.
      rewrite (IH _ Hargs), <- app_assoc. reflexivity.
    + rewrite (all_messages_omap l Ha), (IH _ Hargs), <- app_assoc. reflexivity.
Qed.

Lemma parse_args_rejects good a rest : forall input_msgs,
  forallb (Observe.acceptable as_message) good = true ->
  Observe.acceptable as_message a = false ->
  ChatFormat.parse_args as_message (good ++ a :: rest) input_msgs
  = Raise (ChatFormat.type_error a).
Proof.
  induction good as [|g good IH]; intros input_msgs Hgood Ha.
  - simpl. destruct a as [|o|l]; simpl in Ha; [discriminate| |].
    + apply bool_decide_eq_false in Ha.
      destruct (as_message o); [exfalso; apply Ha; eauto|reflexivity].
    + rewrite (all_messages_none l Ha). reflexivity.
  - simpl in Hgood. apply andb_true_iff in Hgood as [Hg Hgood].
    destruct g as [|o|l]; simpl in *.
    + apply IH; assumption.
    + apply bool_decide_eq_true in Hg as [m Hm]. rewrite Hm. apply IH; assumption.
    + rewrite (all_messages_omap l Hg). apply IH; assumption.
Qed.

Lemma format_rejects good a rest :
  forallb (Observe.acceptable as_message) good = true ->
  Observe.acceptable as_message a = false ->
  ChatFormat.format as_message _convert_to_str (good ++ a :: rest)
  = Raise (TypeError ("The input should be a Msg object or a list " +:+
                      "of Msg objects, got " +:+ ChatFormat.arg_type_name a +:+ ".")).
Proof.
  intros Hgood Ha. unfold ChatFormat.format.
  rewrite (parse_args_rejects good a rest [] Hgood Ha). reflexivity.
Qed.

Lemma enumerate_loop_entries i msgs : forall messages dialogue,
  Forall (fun e => has_role_and_content e = true) messages ->
  Forall (fun e => has_role_and_content e = true)
         (ChatFormat.enumerate_loop _convert_to_str i msgs messages dialogue).1.
Proof.
  revert i. induction msgs as [|unit msgs IH]; intros i messages dialogue H; simpl;
    [exact H|].
  destruct (Nat.eqb i 0 && String.eqb (role unit) "system"); apply IH; [|exact H].
  apply Forall_app. split; [exact H|]. constructor; [|constructor]. reflexivity.
Qed.

Lemma format_valid args out :
  ChatFormat.format as_message _convert_to_str args = Ok out ->
  valid_messages (MsgList out).
Proof.
  unfold ChatFormat.format.
  destruct (ChatFormat.parse_args as_message args []) as [msgs|e|]; [|discriminate..].
  pose proof (enumerate_loop_entries 0 msgs [] [] (Forall_nil_2 _)) as Hentries.
  destruct (ChatFormat.enumerate_loop _convert_to_str 0 msgs [] []) as [messages dialogue].
  intros [= <-]. apply valid_messages_forallb, forallb_forall.
  intros e He. apply in_app_or in He as [He|[<-|[]]].
  - simpl in Hentries. rewrite Forall_forall in Hentries.
    apply Hentries, He.
  - reflexivity.
Qed.

Lemma format_flat args :
  forallb (Observe.acceptable as_message) args = true ->
  (forall m, as_message (ChatFormat.OMsg m) = Some m) ->
  ChatFormat.format as_message _convert_to_str args
  = ChatFormat.format as_message _convert_to_str
      [ChatFormat.AList (ChatFormat.OMsg <$> Observe.messages_of as_message args)].
Proof.
  intros Hargs Hmsg. unfold ChatFormat.format.
  rewrite (parse_args_acceptable args [] Hargs).
  assert (ChatFormat.all_messages as_message
            (ChatFormat.OMsg <$> Observe.messages_of as_message args)
          = Some (Observe.messages_of as_message args)) as Hall.
  { induction (Observe.messages_of as_message args) as [|m l IH]; [reflexivity|].
    rewrite fmap_cons. cbn [ChatFormat.all_messages]. rewrite Hmsg, IH. reflexivity. }
  simpl. rewrite Hall. simpl. reflexivity.
Qed.
End FormatMore.

(** X13: a prompt that a chat formatter returns always passes the
    validation of the chat wrappers. *)
Theorem format_output_passes_validation _convert_to_str args out :
  DashScope.format _convert_to_str args = Ok out \/
  Zhipu.format _convert_to_str args = Ok out ->
  valid_messages (MsgList out).
Proof.
  intros [H|H]; exact (format_valid _ _ _ _ H).
Qed.

(** X14: [format] fails on the first argument that is neither [None], nor a
    message of the accepted class, nor a list of such messages, with a
    type error that names the class of that argument. *)
Theorem format_rejects_bad_argument _convert_to_str good a rest :
  let error :=
    TypeError ("The input should be a Msg object or a list " +:+
               "of Msg objects, got " +:+ ChatFormat.arg_type_name a +:+ ".") in
  (forallb (Observe.acceptable DashScope.as_Msg) good = true ->
   Observe.acceptable DashScope.as_Msg a = false ->
   DashScope.format _convert_to_str (good ++ a :: rest) = Raise error) /\
  (forallb (Observe.acceptable Zhipu.as_MessageBase) good = true ->
   Observe.acceptable Zhipu.as_MessageBase a = false ->
   Zhipu.format _convert_to_str (good ++ a :: rest) = Raise error).
Proof.
  intros error. split; intros Hgood Ha; exact (format_rejects _ _ good a rest Hgood Ha).
Qed.

(** X15: the prompt depends only on the sequence of messages that the
    arguments carry: [None] arguments are skipped, and passing the messages
    one by one, in several lists or in one list gives the same prompt. *)
Theorem format_ignores_grouping _convert_to_str args :
  (forallb (Observe.acceptable DashScope.as_Msg) args = true ->
   DashScope.format _convert_to_str args
   = DashScope.format _convert_to_str
       [ChatFormat.AList (ChatFormat.OMsg <$> Observe.messages_of DashScope.as_Msg args)]) /\
  (forallb (Observe.acceptable Zhipu.as_MessageBase) args = true ->
   Zhipu.format _convert_to_str args
   = Zhipu.format _convert_to_str
       [ChatFormat.AList
          (ChatFormat.OMsg <$> Observe.messages_of Zhipu.as_MessageBase args)]).
Proof.
  split; intros Hargs; apply format_flat; try exact Hargs; reflexivity.
Qed.

(** The prompt of a system message and two turns passes the validation. *)
Lemma format_output_passes_validation_witness :
  exists out,
    DashScope.format Scenario.show
      [ChatFormat.AObj (ChatFormat.OMsg Scenario.system_prompt);
       ChatFormat.AList [ChatFormat.OMsg Scenario.bob; ChatFormat.OMsg Scenario.user_turn]]
    = Ok out /\
    valid_messages (MsgList out).
Proof.
  eexists. split; [reflexivity|].
  apply (format_output_passes_validation Scenario.show
           [ChatFormat.AObj (ChatFormat.OMsg Scenario.system_prompt);
            ChatFormat.AList [ChatFormat.OMsg Scenario.bob;
                              ChatFormat.OMsg Scenario.user_turn]]).
  left. reflexivity.
Defined.

(** A string among the arguments; the first wrapper takes objects of the
    class [Msg] only, so it also rejects an object of the base class. *)
Lemma format_rejects_bad_argument_witness :
  DashScope.format Scenario.show
    [ChatFormat.AObj (ChatFormat.OMsg Scenario.bob);
     ChatFormat.AObj (ChatFormat.OVal (VStr "Hi")); ChatFormat.ANone]
  = Raise (TypeError ("The input should be a Msg object or a list of Msg objects, " +:+
                      "got <class 'str'>.")) /\
  Zhipu.format Scenario.show
    [ChatFormat.AObj (ChatFormat.OMsg Scenario.bob);
     ChatFormat.AObj (ChatFormat.OVal (VStr "Hi")); ChatFormat.ANone]
  = Raise (TypeError ("The input should be a Msg object or a list of Msg objects, " +:+
                      "got <class 'str'>.")).
Proof.
  pose proof (format_rejects_bad_argument Scenario.show
                [ChatFormat.AObj (ChatFormat.OMsg Scenario.bob)]
                (ChatFormat.AObj (ChatFormat.OVal (VStr "Hi"))) [ChatFormat.ANone])
    as [Hds Hzhipu].
  split; [exact (Hds eq_refl eq_refl) | exact (Hzhipu eq_refl eq_refl)].
Defined.

(** One message, [None] and a list of two messages, against the list of
    the three messages. *)
Lemma format_ignores_grouping_witness :
  DashScope.format Scenario.show
    [ChatFormat.AObj (ChatFormat.OMsg Scenario.system_prompt); ChatFormat.ANone;
     ChatFormat.AList [ChatFormat.OMsg Scenario.bob; ChatFormat.OMsg Scenario.user_turn]]
  = DashScope.format Scenario.show
      [ChatFormat.AList [ChatFormat.OMsg Scenario.system_prompt;
                         ChatFormat.OMsg Scenario.bob; ChatFormat.OMsg Scenario.user_turn]].
Proof.
  exact (proj1 (format_ignores_grouping Scenario.show
           [ChatFormat.AObj (ChatFormat.OMsg Scenario.system_prompt); ChatFormat.ANone;
            ChatFormat.AList [ChatFormat.OMsg Scenario.bob;
                              ChatFormat.OMsg Scenario.user_turn]]) eq_refl).
Defined.

(* ===================================================================== *)
(** * Further properties of the chat wrappers *)
(* ===================================================================== *)

Section DashScopeMore.
Import DashScope.

Lemma drain_aborts good : forall g ys s fuel bad rest,
  finished g = false ->
  response g = good ++ bad :: rest ->
  (forall a, a ∈ good -> status_code (heap s a) = HTTPStatus_OK) ->
  status_code (heap s bad) <> HTTPStatus_OK ->
  (length good < fuel)%nat ->
  drain fuel g ys s
  = (Raise (RuntimeError (chunk_error_msg (heap s bad))),
     mkState (heap s) (monitor s) (invocations s)
             (trace s ++ (EvYield <$> cumulative (gen_text g) (contents (heap s) good)))).
Proof.
  induction good as [|chunk good IH]; intros g ys s fuel bad rest Hrun Hresp Hok Hbad Hfuel;
    destruct g as [kw lc txt pend resp fin]; simpl in Hrun, Hresp; subst fin resp;
    (destruct fuel as [|fuel]; [simpl in Hfuel; lia|]).
  - simpl. unfold next. simpl. unfold mbind, M_bind, bind. simpl.
    apply Z.eqb_neq in Hbad. rewrite Hbad. simpl.
    rewrite app_nil_r. destruct s; reflexivity.
  - simpl. unfold next. simpl. unfold mbind, M_bind, bind. simpl.
    rewrite (Hok chunk) by left. simpl.
    rewrite (IH _ _ _ fuel bad rest); simpl; try reflexivity.
    + rewrite <- app_assoc. reflexivity.
    + intros a Ha. apply Hok. right. exact Ha.
    + exact Hbad.
    + simpl in Hfuel. lia.
Qed.

Variable Generation_call : gmap string val -> GenerationResponse.
Variable Generation_stream : gmap string val -> list addr.
Variable self : DashScopeChatWrapper.

(** X16: a chunk with a status other than 200 aborts the stream: the
    texts of the chunks before it have been yielded, a runtime error built
    from that chunk is raised, and neither a usage update nor an invocation
    record nor the patch of a chunk has happened. *)
Theorem streaming_call_aborts messages stream_arg kwargs s resp s1 g good bad rest fuel :
  DashScope.call Generation_call Generation_stream self messages stream_arg kwargs s
    = (Ok resp, s1) ->
  stream resp = Some g ->
  response g = good ++ bad :: rest ->
  (forall a, a ∈ good -> status_code (heap s1 a) = HTTPStatus_OK) ->
  status_code (heap s1 bad) <> HTTPStatus_OK ->
  (length good < fuel)%nat ->
  drain fuel g [] s1
  = (Raise (RuntimeError (chunk_error_msg (heap s1 bad))),
     mkState (heap s1) (monitor s1) (invocations s1)
             (trace s1 ++ (EvYield <$> cumulative EmptyString (contents (heap s1) good)))).
Proof.
  intros Hcall Hg Hresp Hok Hbad Hfuel.
  destruct (call_stream_inv _ _ _ _ _ _ _ _ _ _ Hcall Hg) as (msgs & -> & Hgen & Hs1).
  assert (finished g = false) as Hrun by (rewrite Hgen; reflexivity).
  assert (gen_text g = EmptyString) as Ht by (rewrite Hgen; reflexivity).
  rewrite (drain_aborts good g [] s1 fuel bad rest Hrun Hresp Hok Hbad Hfuel), Ht.
  reflexivity.
Qed.

(** X17: a blocking call whose response has status 200 returns the text of
    the response, after one usage update (which counts one call more) and
    one invocation record. *)
Theorem blocking_call_success messages stream_arg kwargs s msgs :
  messages = MsgList msgs ->
  valid_messages messages ->
  effective_stream self stream_arg = false ->
  let kw := request_kwargs self msgs false kwargs in
  let response := Generation_call kw in
  status_code response = HTTPStatus_OK ->
  DashScope.call Generation_call Generation_stream self messages stream_arg kwargs s
  = (Ok (mkModelResponse (Some (output_content response)) None None
           (RawResponse response)),
     mkState (heap s)
             (update_monitor (usage_amounts response) (monitor s))
             (invocations s ++ [(kw, response)])
             (trace s ++ [EvRequest kw; EvUpdateMonitor (usage_amounts response);
                          EvSaveInvocation kw response])) /\
  update_monitor (usage_amounts response) (monitor s) !! "call_counter"
  = Some (default 0 (monitor s !! "call_counter") + 1).
Proof.
  intros -> Hvalid Hstream kw response Hstatus.
  apply valid_messages_forallb in Hvalid. split.
  - apply Z.eqb_eq in Hstatus.
    unfold DashScope.call. rewrite Hvalid, Hstream.
    unfold _save_model_invocation_and_update_monitor, self_update_monitor,
      _save_model_invocation.
    unfold mbind, M_bind, bind, mret, M_ret, ret, log, modify. cbn -[request_kwargs].
    fold kw. fold response. rewrite Hstatus. cbn -[request_kwargs].
    rewrite <- !app_assoc. reflexivity.
  - unfold update_monitor. rewrite lookup_union_with.
    unfold usage_amounts. rewrite lookup_insert_eq.
    destruct (monitor s !! "call_counter"); reflexivity.
Qed.

End DashScopeMore.

(** X18: in the request of the chat wrapper the keys the wrapper sets
    itself win over every option; for any other key the option of the call
    wins over the default of the wrapper. *)
Theorem request_kwargs_precedence (self : DashScope.DashScopeChatWrapper)
    msgs stream kwargs key :
  let request := DashScope.request_kwargs self msgs stream kwargs in
  request !! "model" = Some (VStr (DashScope.model_name self)) /\
  request !! "messages" = Some (VList (VDict <$> msgs)) /\
  request !! "result_format" = Some (VStr "message") /\
  request !! "stream" = Some (VBool stream) /\
  (stream = true -> request !! "incremental_output" = Some (VBool true)) /\
  (key ∉ Observe.reserved_keys ->
   request !! key = match kwargs !! key with
                    | Some v => Some v
                    | None => DashScope.generate_args self !! key
                    end).
Proof.
  intros request. subst request. unfold DashScope.request_kwargs, Observe.reserved_keys.
  assert (forall (m : gmap string val) k, k <> "incremental_output" ->
            (if stream then <[ "incremental_output" := VBool true ]> m else m) !! k
            = m !! k) as Hinc.
  { intros m k Hk. destruct stream; [rewrite lookup_insert_ne by done|]; reflexivity. }
  split; [rewrite Hinc by discriminate; by simplify_map_eq|].
  split; [rewrite Hinc by discriminate; by simplify_map_eq|].
  split; [rewrite Hinc by discriminate; by simplify_map_eq|].
  split; [rewrite Hinc by discriminate; by simplify_map_eq|].
  split; [intros ->; apply lookup_insert_eq|].
  intros Hkey. rewrite Hinc by set_solver.
  rewrite !lookup_insert_ne by set_solver.
  rewrite lookup_union.
  destruct (kwargs !! key), (DashScope.generate_args self !! key); reflexivity.
Qed.

Section ZhipuMore.
Import Zhipu.
Variable chat_completions_create : gmap string val -> result Completion.
Variable model_name : string.
Variable generate_args : gmap string val.

Ltac run_zhipu :=
  unfold Zhipu.call, self_update_monitor, _save_model_invocation;
  unfold mbind, M_bind, bind, mret, M_ret, ret, raise, modify, lift, log.

(** X19: a call of the ZhipuAI chat wrapper that the provider answers
    returns the content of the first choice, after one request, one
    invocation record and one usage update, in this order. *)
Theorem zhipu_call_success messages msgs kwargs s response content rest :
  messages = MsgList msgs ->
  valid_messages messages ->
  let options := kwargs ∪ generate_args in
  options !! "model" = None ->
  options !! "messages" = None ->
  let request := <[ "model" := VStr model_name ]>
                 (<[ "messages" := VList (VDict <$> msgs) ]> options) in
  chat_completions_create request = Ok response ->
  usage response !! "call_counter" = None ->
  choices response = content :: rest ->
  let arguments := options ∪ {[ "model" := VStr model_name;
                                "messages" := VList (VDict <$> msgs) ]} in
  let amounts := <[ "call_counter" := 1 ]> (usage response) in
  Zhipu.call chat_completions_create model_name generate_args messages kwargs s
  = (Ok (mkModelResponse content None None (model_dump response)),
     mkState (update_monitor amounts (monitor s))
             (invocations s ++ [(arguments, model_dump response)])
             (trace s ++ [EvRequest request;
                          EvSaveInvocation arguments (model_dump response);
                          EvUpdateMonitor amounts])).
Proof.
  intros -> Hvalid options Hmodel Hmessages request Hcreate Husage Hchoices
    arguments amounts.
  apply valid_messages_forallb in Hvalid.
  run_zhipu. rewrite Hvalid. simpl. fold options. rewrite Hmodel, Hmessages. simpl.
  fold request. rewrite Hcreate. simpl. rewrite Husage, Hchoices. simpl.
  rewrite <- !app_assoc. reflexivity.
Qed.

(** X20: an exception of the ZhipuAI client leaves the call as it is; the
    request is the only thing that happened. *)
Theorem zhipu_call_provider_error messages msgs kwargs s e :
  messages = MsgList msgs ->
  valid_messages messages ->
  let options := kwargs ∪ generate_args in
  options !! "model" = None ->
  options !! "messages" = None ->
  let request := <[ "model" := VStr model_name ]>
                 (<[ "messages" := VList (VDict <$> msgs) ]> options) in
  chat_completions_create request = Raise e ->
  Zhipu.call chat_completions_create model_name generate_args messages kwargs s
  = (Raise e, mkState (monitor s) (invocations s) (trace s ++ [EvRequest request])).
Proof.
  intros -> Hvalid options Hmodel Hmessages request Hcreate.
  apply valid_messages_forallb in Hvalid.
  run_zhipu. rewrite Hvalid. simpl. fold options. rewrite Hmodel, Hmessages. simpl.
  fold request. rewrite Hcreate. reflexivity.
Qed.

(** X21: an option named [model] or [messages], given at the call or among
    the defaults of the wrapper, makes the call fail with a type error
    before any request: the wrapper passes both by name as well. *)
Theorem zhipu_call_reserved_option messages kwargs s key :
  valid_messages messages ->
  key ∈ ["model"; "messages"] ->
  is_Some ((kwargs ∪ generate_args) !! key) ->
  exists msg,
    Zhipu.call chat_completions_create model_name generate_args messages kwargs s
    = (Raise (TypeError msg), s).
Proof.
  intros (msgs & -> & Hvalid') Hkey Hsome.
  assert (valid_messages (MsgList msgs)) as Hvalid by (exists msgs; done).
  apply valid_messages_forallb in Hvalid.
  run_zhipu. rewrite Hvalid. simpl.
  destruct (bool_decide (is_Some ((kwargs ∪ generate_args) !! "model"))) eqn:Hm;
    simpl; [eauto|].
  destruct (bool_decide (is_Some ((kwargs ∪ generate_args) !! "messages"))) eqn:Hs;
    simpl; [eauto|].
  apply bool_decide_eq_false in Hm, Hs.
  set_unfold. destruct Hkey as [->|[->|[]]]; contradiction.
Qed.
End ZhipuMore.

(** A stream whose second chunk reports a server error: the first text has
    been yielded, nothing is counted or recorded. *)
Lemma streaming_call_aborts_witness :
  let call := DashScope.call (fun _ => Scenario.server_error) (fun _ => [0%nat; 1%nat])
                Scenario.ds_wrapper (MsgList Scenario.user_messages) (Some true) ∅
                Scenario.ds_failing_start in
  let run := DashScope.drain 3 (Scenario.ds_generator [0%nat; 1%nat]) [] call.2 in
  run.1 = Raise (RuntimeError (DashScope.chunk_error_msg Scenario.server_error)) /\
  DashScope.monitor run.2 = ∅ /\
  DashScope.invocations run.2 = [] /\
  DashScope.trace run.2 = DashScope.trace call.2 ++ [DashScope.EvYield "Hel"].
Proof.
  intros call run. subst run.
  rewrite (streaming_call_aborts
             (fun _ => Scenario.server_error) (fun _ => [0%nat; 1%nat])
             Scenario.ds_wrapper (MsgList Scenario.user_messages) (Some true) ∅
             Scenario.ds_failing_start
             (mkModelResponse None None (Some (Scenario.ds_generator [0%nat; 1%nat]))
                (DashScope.RawStream [0%nat; 1%nat]))
             call.2 (Scenario.ds_generator [0%nat; 1%nat]) [0%nat] 1%nat [] 3
             eq_refl eq_refl eq_refl).
  - repeat split.
  - intros a Ha. apply list_elem_of_singleton in Ha as ->. reflexivity.
  - vm_compute. discriminate.
  - simpl. lia.
Defined.

(** A provider that answers with the text [Hello]. *)
Lemma blocking_call_success_witness :
  (exists resp, Scenario.ds_ok_call.1 = Ok resp /\ text resp = Some "Hello") /\
  DashScope.monitor Scenario.ds_ok_call.2 !! "call_counter" = Some 1 /\
  length (DashScope.invocations Scenario.ds_ok_call.2) = 1%nat.
Proof.
  destruct (blocking_call_success
              (fun _ => Scenario.chunk "Hello") (fun _ => []) Scenario.ds_wrapper
              (MsgList Scenario.user_messages) None ∅ Scenario.ds_start
              Scenario.user_messages eq_refl user_messages_valid eq_refl eq_refl)
    as [Hcall Hcount].
  unfold Scenario.ds_ok_call. rewrite Hcall. simpl.
  split; [eexists; split; reflexivity|]. split; [exact Hcount | reflexivity].
Defined.

(** A wrapper with a default temperature, called with a temperature and
    with a model name of its own: the temperature of the call and the
    model name of the wrapper reach the provider. *)
Lemma request_kwargs_precedence_witness :
  let self := DashScope.mkWrapper "qwen-max" {[ "temperature" := VInt 1; "seed" := VInt 7 ]}
                                  false in
  let request := DashScope.request_kwargs self Scenario.user_messages true
                   {[ "temperature" := VInt 0; "model" := VStr "other" ]} in
  request !! "model" = Some (VStr "qwen-max") /\
  request !! "incremental_output" = Some (VBool true) /\
  request !! "temperature" = Some (VInt 0) /\
  request !! "seed" = Some (VInt 7).
Proof.
  intros self request.
  pose proof (request_kwargs_precedence self Scenario.user_messages true
                {[ "temperature" := VInt 0; "model" := VStr "other" ]} "temperature")
    as (Hmodel & _ & _ & _ & Hinc & Htemp).
  pose proof (request_kwargs_precedence self Scenario.user_messages true
                {[ "temperature" := VInt 0; "model" := VStr "other" ]} "seed")
    as (_ & _ & _ & _ & _ & Hseed).
  split; [exact Hmodel|]. split; [exact (Hinc eq_refl)|].
  split; [apply Htemp | apply Hseed];
    unfold Observe.reserved_keys; set_unfold;
    intros [H|[H|[H|[H|[H|[]]]]]]; discriminate H.
Defined.

(** A provider that answers with one choice. *)
Lemma zhipu_call_success_witness :
  let run := Zhipu.call (fun _ => Ok Scenario.completion) "glm-4" ∅
               (MsgList Scenario.user_messages) {[ "temperature" := VInt 0 ]}
               Scenario.zhipu_start in
  (exists resp, run.1 = Ok resp /\ text resp = Some "Hello") /\
  Zhipu.monitor run.2 !! "call_counter" = Some 1 /\
  Zhipu.monitor run.2 !! "total_tokens" = Some 5 /\
  length (Zhipu.invocations run.2) = 1%nat.
Proof.
  intros run. subst run.
  rewrite (zhipu_call_success (fun _ => Ok Scenario.completion) "glm-4" ∅
             (MsgList Scenario.user_messages) Scenario.user_messages
             {[ "temperature" := VInt 0 ]} Scenario.zhipu_start Scenario.completion
             (Some "Hello") [] eq_refl user_messages_valid);
    try (vm_compute; reflexivity).
  split; [eexists; split; reflexivity|]. repeat split.
Defined.

(** A provider that cannot be reached. *)
Lemma zhipu_call_provider_error_witness :
  let run := Zhipu.call (fun _ => Raise (ExternalError "APITimeoutError" "timed out"))
               "glm-4" ∅ (MsgList Scenario.user_messages) ∅ Scenario.zhipu_start in
  run.1 = Raise (ExternalError "APITimeoutError" "timed out") /\
  Zhipu.monitor run.2 = ∅ /\ Zhipu.invocations run.2 = [].
Proof.
  intros run. subst run.
  rewrite (zhipu_call_provider_error
             (fun _ => Raise (ExternalError "APITimeoutError" "timed out")) "glm-4" ∅
             (MsgList Scenario.user_messages) Scenario.user_messages ∅
             Scenario.zhipu_start (ExternalError "APITimeoutError" "timed out")
             eq_refl user_messages_valid);
    try (vm_compute; reflexivity).
  repeat split.
Defined.

(** A caller that names the model among the options of the call. *)
Lemma zhipu_call_reserved_option_witness :
  exists msg,
    Zhipu.call (fun _ => Ok Scenario.completion) "glm-4" ∅
      (MsgList Scenario.user_messages) {[ "model" := VStr "glm-3-turbo" ]}
      Scenario.zhipu_start
    = (Raise (TypeError msg), Scenario.zhipu_start).
Proof.
  apply (zhipu_call_reserved_option (fun _ => Ok Scenario.completion) "glm-4" ∅
           (MsgList Scenario.user_messages) {[ "model" := VStr "glm-3-turbo" ]}
           Scenario.zhipu_start "model" user_messages_valid).
  - set_unfold. left. reflexivity.
  - vm_compute. eauto.
Defined.

(* ===================================================================== *)
(** * Properties of the multimodal and image wrappers *)
(* ===================================================================== *)

Section MultiModalMore.
Variable MultiModalConversation_call : gmap string val -> MultiModal.answer.
Variable _guess_type_by_extension : string -> string.
Variable _convert_to_str : val -> string.
Variable os_path_exists : string -> bool.
Variable model_name : string.
Variable generate_args : gmap string val.


Lemma convert_url_cons x l :
  (MultiModal.convert_url _guess_type_by_extension os_path_exists) (VList (x :: l))
  = match (MultiModal.convert_url _guess_type_by_extension os_path_exists) x with
    | Ok ds => match (MultiModal.convert_url _guess_type_by_extension os_path_exists) (VList l) with
               | Ok dicts => Ok (ds ++ dicts)
               | Raise e => Raise e
               | OutOfFuel => OutOfFuel
               end
    | Raise e => Raise e
    | OutOfFuel => OutOfFuel
    end.
Proof. reflexivity. Qed.

(** X22: every dictionary that [convert_url] returns has exactly one entry,
    under the key [image] or the key [audio]. *)
Theorem convert_url_media : forall url ds,
  (MultiModal.convert_url _guess_type_by_extension os_path_exists) url = Ok ds -> Forall Observe.media_dict ds.
Proof.
  fix IH 1. intros [| b | z | m e | u | l | d] ds; try discriminate.
  - intros [= <-]. constructor.
  - simpl. case_bool_decide as Hty; intros [= <-]; [|constructor].
    constructor; [|constructor].
    set_unfold. eexists. destruct Hty as [->|[->|[]]]; eauto.
  - revert ds. induction l as [|x l IHl]; intros ds.
    + intros [= <-]. constructor.
    + rewrite convert_url_cons.
      destruct ((MultiModal.convert_url _guess_type_by_extension os_path_exists) x) as [dx|e|] eqn:Hx; [|discriminate..].
      destruct ((MultiModal.convert_url _guess_type_by_extension os_path_exists) (VList l)) as [dl|e|] eqn:Hl; [|discriminate..].
      intros [= <-]. apply Forall_app. split; [apply (IH x), Hx|apply IHl; reflexivity].
Qed.

(** X23: [convert_url] flattens lists and keeps the order: the conversion
    of two lists one after the other, or of the list of the two lists, is
    the conversion of the first followed by that of the second. *)
Theorem convert_url_concat l1 l2 d1 d2 :
  (MultiModal.convert_url _guess_type_by_extension os_path_exists) (VList l1) = Ok d1 ->
  (MultiModal.convert_url _guess_type_by_extension os_path_exists) (VList l2) = Ok d2 ->
  (MultiModal.convert_url _guess_type_by_extension os_path_exists) (VList (l1 ++ l2)) = Ok (d1 ++ d2) /\
  (MultiModal.convert_url _guess_type_by_extension os_path_exists) (VList [VList l1; VList l2]) = Ok (d1 ++ d2).
Proof.
  intros H1 H2. split.
  - revert d1 H1. induction l1 as [|x l1 IH]; intros d1.
    + intros [= <-]. exact H2.
    + rewrite <- app_comm_cons, !convert_url_cons.
      destruct ((MultiModal.convert_url _guess_type_by_extension os_path_exists) x) as [dx|e|]; [|discriminate..].
      destruct ((MultiModal.convert_url _guess_type_by_extension os_path_exists) (VList l1)) as [dl|e|]; [|discriminate..].
      intros [= <-]. rewrite (IH dl eq_refl), <- app_assoc. reflexivity.
  - rewrite !convert_url_cons, H1, H2. simpl. rewrite app_nil_r. reflexivity.
Qed.

Lemma mm_enumerate_loop_later i rest : forall messages dialogue dicts,
  MultiModal.enumerate_loop _guess_type_by_extension _convert_to_str os_path_exists
    (S i) rest messages dialogue dicts
  = match (MultiModal.convert_url _guess_type_by_extension os_path_exists) (VList (MultiModal.url_of <$> rest)) with
    | Ok media =>
        Ok (messages,
            dialogue ++ ((fun unit => name unit +:+ ": " +:+
                                      _convert_to_str (content unit)) <$> rest),
            dicts ++ media)
    | Raise e => Raise e
    | OutOfFuel => OutOfFuel
    end.
Proof.
  revert i. induction rest as [|unit rest IH]; intros i messages dialogue dicts.
  - simpl. rewrite !app_nil_r. reflexivity.
  - rewrite fmap_cons, convert_url_cons. cbn [MultiModal.enumerate_loop].
    change (Nat.eqb (S i) 0) with false. cbn [andb].
    destruct ((MultiModal.convert_url _guess_type_by_extension os_path_exists) (MultiModal.url_of unit)) as [ds|e|]; [|reflexivity..].
    rewrite IH. destruct ((MultiModal.convert_url _guess_type_by_extension os_path_exists) (VList (MultiModal.url_of <$> rest))); [|reflexivity..].
    rewrite fmap_cons, <- !app_assoc. reflexivity.
Qed.

(** X24: on a sequence that starts with a system message, the multimodal
    formatter returns two entries: the system entry with the media of that
    message before its text, and one user entry with the media of all
    later messages, in order, before the single text block of the dialogue
    history. *)
Theorem multimodal_format_system args m rest sys_media media :
  ChatFormat.parse_args DashScope.as_Msg args [] = Ok (m :: rest) ->
  role m = "system" ->
  (MultiModal.convert_url _guess_type_by_extension os_path_exists) (MultiModal.url_of m) = Ok sys_media ->
  (MultiModal.convert_url _guess_type_by_extension os_path_exists) (VList (MultiModal.url_of <$> rest)) = Ok media ->
  MultiModal.format _guess_type_by_extension _convert_to_str os_path_exists args
  = Ok [ {[ "role" := VStr "system";
            "content" :=
              VList (VDict <$> (sys_media ++
                       [ {[ "text" := VStr (_convert_to_str (content m)) ]} ])) ]};
         {[ "role" := VStr "user";
            "content" :=
              VList (VDict <$> (media ++
                       [ {[ "text" :=
                              VStr ("## Dialogue History" +:+ LF +:+
                                    join LF ((fun unit =>
                                                name unit +:+ ": " +:+
                                                _convert_to_str (content unit))
                                             <$> rest)) ]} ])) ]} ].
Proof.
  intros Hparse Hrole Hsys Hmedia. unfold MultiModal.format. rewrite Hparse.
  cbn [MultiModal.enumerate_loop]. rewrite Hrole. simpl andb. cbv iota.
  rewrite Hsys, mm_enumerate_loop_later, Hmedia. reflexivity.
Qed.

(** X25: on a sequence without a leading system message, the multimodal
    formatter returns one user entry: the media of all messages, in order,
    before the text block of the dialogue history. *)
Theorem multimodal_format_no_system args msgs media :
  ChatFormat.parse_args DashScope.as_Msg args [] = Ok msgs ->
  role <$> head msgs <> Some "system" ->
  (MultiModal.convert_url _guess_type_by_extension os_path_exists) (VList (MultiModal.url_of <$> msgs)) = Ok media ->
  MultiModal.format _guess_type_by_extension _convert_to_str os_path_exists args
  = Ok [ {[ "role" := VStr "user";
            "content" :=
              VList (VDict <$> (media ++
                       [ {[ "text" :=
                              VStr ("## Dialogue History" +:+ LF +:+
                                    join LF ((fun unit =>
                                                name unit +:+ ": " +:+
                                                _convert_to_str (content unit))
                                             <$> msgs)) ]} ])) ]} ].
Proof.
  intros Hparse Hhead Hmedia. unfold MultiModal.format. rewrite Hparse.
  destruct msgs as [|m rest].
  - simpl in Hmedia. injection Hmedia as <-. reflexivity.
  - cbn [MultiModal.enumerate_loop].
    destruct (String.eqb_spec (role m) "system") as [Hsys|_].
    { exfalso. apply Hhead. simpl. rewrite Hsys. reflexivity. }
    simpl andb. cbv iota.
    rewrite fmap_cons, convert_url_cons in Hmedia.
    destruct ((MultiModal.convert_url _guess_type_by_extension os_path_exists) (MultiModal.url_of m)) as [ds|e|]; [|discriminate..].
    rewrite mm_enumerate_loop_later.
    destruct ((MultiModal.convert_url _guess_type_by_extension os_path_exists) (VList (MultiModal.url_of <$> rest))) as [dr|e|]; [|discriminate..].
    injection Hmedia as <-. reflexivity.
Qed.

(** X26: an error of [convert_url] on the url of any message (a url that
    is neither [None], a string nor a list) leaves the multimodal
    formatter. *)
Theorem multimodal_format_bad_url args msgs e :
  ChatFormat.parse_args DashScope.as_Msg args [] = Ok msgs ->
  (MultiModal.convert_url _guess_type_by_extension os_path_exists) (VList (MultiModal.url_of <$> msgs)) = Raise e ->
  MultiModal.format _guess_type_by_extension _convert_to_str os_path_exists args
  = Raise e.
Proof.
  intros Hparse Hbad. unfold MultiModal.format. rewrite Hparse.
  destruct msgs as [|m rest]; [discriminate|].
  rewrite fmap_cons, convert_url_cons in Hbad.
  cbn [MultiModal.enumerate_loop].
  destruct (Nat.eqb 0 0 && String.eqb (role m) "system");
    (destruct ((MultiModal.convert_url _guess_type_by_extension os_path_exists) (MultiModal.url_of m)) as [ds|e'|]; [|congruence|discriminate]);
    rewrite mm_enumerate_loop_later;
    (destruct ((MultiModal.convert_url _guess_type_by_extension os_path_exists) (VList (MultiModal.url_of <$> rest))) as [dr|e'|];
       [discriminate|congruence|discriminate]).
Qed.
End MultiModalMore.

Section MultiModalCall.
Import MultiModal.
Variable MultiModalConversation_call : gmap string val -> answer.
Variable model_name : string.
Variable generate_args : gmap string val.

Ltac run_mm :=
  unfold MultiModal.call, self_update_monitor, _save_model_invocation;
  unfold mbind, M_bind, bind, mret, M_ret, ret, raise, modify, lift, log.

(** X27: the multimodal wrapper forwards [messages] as they are, without
    validation; on a response with status 200 it returns the content when
    it is a text and the text of the first block when it is a list of
    blocks, after one invocation record and one usage update whose total
    counts the image and audio tokens too. *)
Theorem multimodal_call_success messages kwargs s response v :
  let options := kwargs ∪ generate_args in
  options !! "model" = None ->
  options !! "messages" = None ->
  let request := <[ "model" := VStr model_name ]> (<[ "messages" := messages ]> options) in
  MultiModalConversation_call request = Answer response ->
  status_code response = DashScope.HTTPStatus_OK ->
  ((exists t, output_content response = VStr t /\ v = VStr t) \/
   (exists block more, output_content response = VList (VDict block :: more) /\
                       block !! "text" = Some v)) ->
  let input_tokens := default 0 (usage response !! "input_tokens") in
  let output_tokens := default 0 (usage response !! "output_tokens") in
  let image_tokens := default 0 (usage response !! "image_tokens") in
  let audio_tokens := default 0 (usage response !! "audio_tokens") in
  let amounts : gmap string Z :=
    {[ "call_counter" := 1;
       "prompt_tokens" := input_tokens;
       "completion_tokens" := output_tokens;
       "total_tokens" := input_tokens + output_tokens + image_tokens + audio_tokens ]} in
  let arguments := options ∪ {[ "model" := VStr model_name; "messages" := messages ]} in
  MultiModal.call MultiModalConversation_call model_name generate_args messages kwargs s
  = (Ok (mkTextResponse v response),
     mkState (update_monitor amounts (monitor s))
             (invocations s ++ [(arguments, response)])
             (trace s ++ [EvRequest request; EvSaveInvocation arguments response;
                          EvUpdateMonitor amounts])).
Proof.
  intros options Hmodel Hmessages request Hcall Hstatus Hcontent
    input_tokens output_tokens image_tokens audio_tokens amounts arguments.
  apply Z.eqb_eq in Hstatus.
  run_mm. simpl. fold options. rewrite Hmodel, Hmessages. simpl.
  fold request. rewrite Hcall, Hstatus. simpl.
  destruct Hcontent as [(t & -> & ->)|(block & more & -> & Hv)]; simpl.
  - rewrite <- !app_assoc. reflexivity.
  - rewrite Hv. rewrite <- !app_assoc. reflexivity.
Qed.

(** X28: when the response has a status other than 200 the multimodal
    wrapper raises a runtime error whose message holds the four fields of
    the response, and when the provider hands back a generator it raises
    an attribute error; in both cases only the request has happened. *)
Theorem multimodal_call_failure messages kwargs s :
  let options := kwargs ∪ generate_args in
  options !! "model" = None ->
  options !! "messages" = None ->
  let request := <[ "model" := VStr model_name ]> (<[ "messages" := messages ]> options) in
  let after := mkState (monitor s) (invocations s) (trace s ++ [EvRequest request]) in
  (forall response,
     MultiModalConversation_call request = Answer response ->
     status_code response <> DashScope.HTTPStatus_OK ->
     exists msg,
       MultiModal.call MultiModalConversation_call model_name generate_args
                       messages kwargs s
       = (Raise (RuntimeError msg), after) /\
       contains msg (request_id response) /\
       contains msg (str_of_int (status_code response)) /\
       contains msg (code response) /\
       contains msg (message_ response)) /\
  (MultiModalConversation_call request = Generator ->
   exists msg,
     MultiModal.call MultiModalConversation_call model_name generate_args
                     messages kwargs s
     = (Raise (AttributeError msg), after)).
Proof.
  intros options Hmodel Hmessages request after. split.
  - intros response Hcall Hstatus. apply Z.eqb_neq in Hstatus.
    exists (error_msg response). split.
    + run_mm. simpl. fold options. rewrite Hmodel, Hmessages. simpl.
      fold request. rewrite Hcall, Hstatus. reflexivity.
    + unfold error_msg.
      repeat split; repeat first [apply contains_here | apply contains_later].
  - intros Hcall. eexists.
    run_mm. simpl. fold options. rewrite Hmodel, Hmessages. simpl.
    fold request. rewrite Hcall. reflexivity.
Qed.
End MultiModalCall.

Section ImageMore.
Import ImageSynthesis.
Context {W : Type}.
Variable ImageSynthesis_call : gmap string val -> Response.
Variable save_image : val -> M W val.
Variable model_name : string.
Variable generate_args : gmap string val.

Lemma save_all_saves urls : forall (s : state W),
  (forall url w, exists local w', save_image url w = (Ok local, w')) ->
  exists saved w',
    save_all save_image urls s
    = (Ok saved, mkState w' (monitor s) (invocations s)
                         (trace s ++ (EvSaveImage <$> urls))) /\
    length saved = length urls.
Proof.
  induction urls as [|url urls IH]; intros s Hsave.
  - exists [], (world s). simpl. rewrite app_nil_r. destruct s. done.
  - simpl. unfold mbind, M_bind, bind, mret, M_ret, ret, log, modify. simpl.
    destruct (Hsave url (world s)) as (local & w1 & Hurl). rewrite Hurl. simpl.
    match goal with |- context [save_all _ _ ?st] =>
      destruct (IH st Hsave) as (saved & w' & Hrest & Hlen) end.
    rewrite Hrest. simpl. exists (local :: saved), w'.
    rewrite <- app_assoc. split; [reflexivity|]. simpl. lia.
Qed.

(** X29: on a response with status 200 the image wrapper returns one url
    per image, in order; without [save_local] these are the urls of the
    response and the file manager is not touched, with [save_local] each
    url is handed to the file manager, in order, after the invocation
    record and the usage update. *)
Theorem image_call_returns_urls prompt save_local kwargs (s : state W) items urls :
  let options := kwargs ∪ generate_args in
  options !! "model" = None ->
  options !! "prompt" = None ->
  let request := <[ "model" := VStr model_name ]> (<[ "prompt" := VStr prompt ]> options) in
  let response := ImageSynthesis_call request in
  status_code response = DashScope.HTTPStatus_OK ->
  usage response !! "call_counter" = None ->
  getitem (output response) "results" = Ok (VList items) ->
  project_each "url" (VList items) = Ok urls ->
  (forall url w, exists local w', save_image url w = (Ok local, w')) ->
  let arguments := options ∪ {[ "model" := VStr model_name; "prompt" := VStr prompt ]} in
  let amounts := <[ "call_counter" := 1 ]> (usage response) in
  exists result w',
    ImageSynthesis.call ImageSynthesis_call save_image model_name generate_args
                        prompt save_local kwargs s
    = (Ok (mkImageResponse result response),
       mkState w' (update_monitor amounts (monitor s))
               (invocations s ++ [(arguments, response)])
               (trace s ++ [EvRequest request; EvSaveInvocation arguments response;
                            EvUpdateMonitor amounts]
                        ++ (if save_local then EvSaveImage <$> urls else []))) /\
    length result = length urls /\
    (save_local = false -> result = urls /\ w' = world s).
Proof.
  intros options Hmodel Hprompt request response Hstatus Husage Hresults Hurls Hsave
    arguments amounts.
  apply Z.eqb_eq in Hstatus.
  unfold ImageSynthesis.call.
  unfold mbind, M_bind, bind, mret, M_ret, ret, raise, modify, lift, log.
  cbn -[project_each save_all]. fold options. rewrite Hmodel, Hprompt.
  cbn -[project_each save_all]. fold request. fold response. rewrite Hstatus.
  cbn -[project_each save_all]. rewrite Husage.
  cbn -[project_each save_all]. rewrite Hresults.
  cbn -[project_each save_all]. rewrite Hurls.
  destruct save_local.
  - match goal with |- context [save_all _ _ ?st] =>
      destruct (save_all_saves urls st Hsave) as (saved & w' & Hrun & Hlen) end.
    rewrite Hrun. cbn. exists saved, w'. rewrite <- !app_assoc.
    split; [reflexivity|]. split; [exact Hlen|discriminate].
  - cbn. exists urls, (world s). rewrite ?app_nil_r, <- ?app_assoc.
    split; [reflexivity|]. split; [reflexivity|]. done.
Qed.

(** X30: when the response has a status other than 200 the image wrapper
    raises a runtime error whose message holds the four fields of the
    response; nothing is recorded, counted or saved. *)
Theorem image_call_failure prompt save_local kwargs (s : state W) :
  let options := kwargs ∪ generate_args in
  options !! "model" = None ->
  options !! "prompt" = None ->
  let request := <[ "model" := VStr model_name ]> (<[ "prompt" := VStr prompt ]> options) in
  let response := ImageSynthesis_call request in
  status_code response <> DashScope.HTTPStatus_OK ->
  exists msg,
    ImageSynthesis.call ImageSynthesis_call save_image model_name generate_args
                        prompt save_local kwargs s
    = (Raise (RuntimeError msg),
       mkState (world s) (monitor s) (invocations s) (trace s ++ [EvRequest request])) /\
    contains msg (request_id response) /\
    contains msg (str_of_int (status_code response)) /\
    contains msg (code response) /\
    contains msg (message_ response).
Proof.
  intros options Hmodel Hprompt request response Hstatus.
  apply Z.eqb_neq in Hstatus. eexists. split.
  - unfold ImageSynthesis.call.
    unfold mbind, M_bind, bind, mret, M_ret, ret, raise, modify, lift, log.
    cbn -[project_each save_all]. fold options. rewrite Hmodel, Hprompt.
    cbn -[project_each save_all]. fold request. fold response. rewrite Hstatus.
    reflexivity.
  - repeat split; repeat first [apply contains_here | apply contains_later].
Qed.
End ImageMore.

(** A list with a remote picture, a text file and a sound: two
    dictionaries, each with one entry. *)
Lemma convert_url_media_witness :
  MultiModal.convert_url Scenario.guess_type Scenario.local_file
    (VList [VStr "https://example.com/dog.jpg"; VStr "notes.txt"; VStr "hello.mp3"])
  = Ok [ {[ "image" := VStr "https://example.com/dog.jpg" ]};
         {[ "audio" := VStr "hello.mp3" ]} ] /\
  Forall Observe.media_dict
    [ ({[ "image" := VStr "https://example.com/dog.jpg" ]} : gmap string val);
      {[ "audio" := VStr "hello.mp3" ]} ].
Proof.
  split; [reflexivity|].
  exact (convert_url_media Scenario.guess_type Scenario.local_file
           (VList [VStr "https://example.com/dog.jpg"; VStr "notes.txt"; VStr "hello.mp3"])
           _ eq_refl).
Defined.

(** A local picture, then a remote picture and a text file. *)
Lemma convert_url_concat_witness :
  MultiModal.convert_url Scenario.guess_type Scenario.local_file
    (VList [VList [VStr "cat.png"];
            VList [VStr "https://example.com/dog.jpg"; VStr "notes.txt"]])
  = Ok [ {[ "image" := VStr "file://cat.png" ]};
         {[ "image" := VStr "https://example.com/dog.jpg" ]} ].
Proof.
  exact (proj2 (convert_url_concat Scenario.guess_type Scenario.local_file
           [VStr "cat.png"] [VStr "https://example.com/dog.jpg"; VStr "notes.txt"]
           [ {[ "image" := VStr "file://cat.png" ]} ]
           [ {[ "image" := VStr "https://example.com/dog.jpg" ]} ]
           eq_refl eq_refl)).
Defined.

(** A system message with a local figure, and two turns with figures. *)
Lemma multimodal_format_system_witness :
  MultiModal.format Scenario.guess_type Scenario.show Scenario.local_file
    [ChatFormat.AObj (ChatFormat.OMsg Scenario.system_with_figure);
     ChatFormat.AList [ChatFormat.OMsg Scenario.bob_with_figures;
                       ChatFormat.OMsg Scenario.user_with_audio]]
  = Ok [ {[ "role" := VStr "system";
            "content" :=
              VList [VDict {[ "image" := VStr "file://cat.png" ]};
                     VDict {[ "text" := VStr "You're a helpful assistant" ]}] ]};
         {[ "role" := VStr "user";
            "content" :=
              VList [VDict {[ "image" := VStr "https://example.com/dog.jpg" ]};
                     VDict {[ "audio" := VStr "hello.mp3" ]};
                     VDict {[ "text" :=
                                VStr ("## Dialogue History" +:+ LF +:+
                                      "Bob: How about this picture?" +:+ LF +:+
                                      "user: Listen to this.") ]}] ]} ].
Proof.
  exact (multimodal_format_system Scenario.guess_type Scenario.show Scenario.local_file
           [ChatFormat.AObj (ChatFormat.OMsg Scenario.system_with_figure);
            ChatFormat.AList [ChatFormat.OMsg Scenario.bob_with_figures;
                              ChatFormat.OMsg Scenario.user_with_audio]]
           Scenario.system_with_figure
           [Scenario.bob_with_figures; Scenario.user_with_audio]
           [ {[ "image" := VStr "file://cat.png" ]} ]
           [ {[ "image" := VStr "https://example.com/dog.jpg" ]};
             {[ "audio" := VStr "hello.mp3" ]} ]
           eq_refl eq_refl eq_refl eq_refl).
Defined.

(** Two turns with figures and no system message. *)
Lemma multimodal_format_no_system_witness :
  MultiModal.format Scenario.guess_type Scenario.show Scenario.local_file
    [ChatFormat.AObj (ChatFormat.OMsg Scenario.bob_with_figures);
     ChatFormat.AObj (ChatFormat.OMsg Scenario.user_with_audio)]
  = Ok [ {[ "role" := VStr "user";
            "content" :=
              VList [VDict {[ "image" := VStr "https://example.com/dog.jpg" ]};
                     VDict {[ "audio" := VStr "hello.mp3" ]};
                     VDict {[ "text" :=
                                VStr ("## Dialogue History" +:+ LF +:+
                                      "Bob: How about this picture?" +:+ LF +:+
                                      "user: Listen to this.") ]}] ]} ].
Proof.
  apply (multimodal_format_no_system Scenario.guess_type Scenario.show Scenario.local_file
           [ChatFormat.AObj (ChatFormat.OMsg Scenario.bob_with_figures);
            ChatFormat.AObj (ChatFormat.OMsg Scenario.user_with_audio)]
           [Scenario.bob_with_figures; Scenario.user_with_audio]
           [ {[ "image" := VStr "https://example.com/dog.jpg" ]};
             {[ "audio" := VStr "hello.mp3" ]} ]
           eq_refl).
  - vm_compute. discriminate.
  - reflexivity.
Defined.

(** A message whose url is a number. *)
Lemma multimodal_format_bad_url_witness :
  MultiModal.format Scenario.guess_type Scenario.show Scenario.local_file
    [ChatFormat.AObj (ChatFormat.OMsg Scenario.bob_with_figures);
     ChatFormat.AObj (ChatFormat.OMsg Scenario.user_with_bad_url)]
  = Raise (TypeError "Unsupported url type <class 'int'>, str or list expected.").
Proof.
  exact (multimodal_format_bad_url Scenario.guess_type Scenario.show Scenario.local_file
           [ChatFormat.AObj (ChatFormat.OMsg Scenario.bob_with_figures);
            ChatFormat.AObj (ChatFormat.OMsg Scenario.user_with_bad_url)]
           [Scenario.bob_with_figures; Scenario.user_with_bad_url]
           (TypeError "Unsupported url type <class 'int'>, str or list expected.")
           eq_refl eq_refl).
Defined.

(** A provider that answers with a list of blocks; the messages are a
    text, which no list check rejects. *)
Lemma multimodal_call_success_witness :
  let run := MultiModal.call (fun _ => MultiModal.Answer Scenario.mm_response)
               "qwen-vl-plus" ∅ (VStr "not a list") ∅ Scenario.mm_start in
  (exists resp, run.1 = Ok resp /\ MultiModal.text_value resp = VStr "A cat.") /\
  MultiModal.monitor run.2 !! "total_tokens" = Some 15 /\
  MultiModal.monitor run.2 !! "call_counter" = Some 1 /\
  length (MultiModal.invocations run.2) = 1%nat.
Proof.
  intros run. subst run.
  rewrite (multimodal_call_success (fun _ => MultiModal.Answer Scenario.mm_response)
             "qwen-vl-plus" ∅ (VStr "not a list") ∅ Scenario.mm_start
             Scenario.mm_response (VStr "A cat."));
    try (vm_compute; reflexivity).
  - split; [eexists; split; reflexivity|]. repeat split.
  - right. eexists _, _. split; reflexivity.
Defined.

(** A provider that answers with status 400, and one that streams. *)
Lemma multimodal_call_failure_witness :
  (exists msg,
     (MultiModal.call (fun _ => MultiModal.Answer Scenario.mm_error) "qwen-vl-plus" ∅
        (VList []) ∅ Scenario.mm_start).1 = Raise (RuntimeError msg) /\
     contains msg "req-5" /\ contains msg "400" /\
     contains msg "InvalidParameter" /\ contains msg "bad image") /\
  (exists msg,
     (MultiModal.call (fun _ => MultiModal.Generator) "qwen-vl-plus" ∅
        (VList []) {[ "stream" := VBool true ]} Scenario.mm_start).1
     = Raise (AttributeError msg)).
Proof.
  split.
  - destruct (multimodal_call_failure
                (fun _ => MultiModal.Answer Scenario.mm_error) "qwen-vl-plus" ∅
                (VList []) ∅ Scenario.mm_start) as [Hstatus _];
      try (vm_compute; reflexivity).
    destruct (Hstatus Scenario.mm_error eq_refl)
      as (msg & Hcall & Hid & Hnumber & Hcode & Hmessage).
    { vm_compute. discriminate. }
    exists msg. rewrite Hcall. repeat split; assumption.
  - destruct (multimodal_call_failure
                (fun _ => MultiModal.Generator) "qwen-vl-plus" ∅
                (VList []) {[ "stream" := VBool true ]} Scenario.mm_start)
      as [_ Hgenerator];
      try (vm_compute; reflexivity).
    destruct (Hgenerator eq_refl) as (msg & Hcall).
    exists msg. rewrite Hcall. reflexivity.
Defined.

(** Two images, saved locally. *)
Lemma image_call_returns_urls_witness :
  let run := ImageSynthesis.call (fun _ => Scenario.image_response) Scenario.save_image
               "wanx-v1" ∅ "a cat" true ∅ Scenario.image_start in
  exists resp,
    run.1 = Ok resp /\
    length (ImageSynthesis.image_urls resp) = 2%nat /\
    ImageSynthesis.monitor run.2 !! "image_count" = Some 2 /\
    List.filter (fun e => match e with ImageSynthesis.EvSaveImage _ => true | _ => false end)
      (ImageSynthesis.trace run.2)
    = [ImageSynthesis.EvSaveImage (VStr "https://example.com/1.png");
       ImageSynthesis.EvSaveImage (VStr "https://example.com/2.png")].
Proof.
  intros run. subst run.
  destruct (image_call_returns_urls (fun _ => Scenario.image_response) Scenario.save_image
              "wanx-v1" ∅ "a cat" true ∅ Scenario.image_start
              [VDict {[ "url" := VStr "https://example.com/1.png" ]};
               VDict {[ "url" := VStr "https://example.com/2.png" ]}]
              [VStr "https://example.com/1.png"; VStr "https://example.com/2.png"])
    as (result & w' & Hcall & Hlen & _);
    try (vm_compute; reflexivity).
  { intros url w. eexists _, _. reflexivity. }
  rewrite Hcall. eexists. split; [reflexivity|]. split; [exact Hlen|].
  split; reflexivity.
Defined.

(** A provider that answers with status 429. *)
Lemma image_call_failure_witness :
  let run := ImageSynthesis.call (fun _ => Scenario.image_error) Scenario.save_image
               "wanx-v1" ∅ "a cat" true ∅ Scenario.image_start in
  exists msg,
    run.1 = Raise (RuntimeError msg) /\
    contains msg "req-7" /\ contains msg "429" /\
    contains msg "Throttling" /\ contains msg "too many requests" /\
    ImageSynthesis.monitor run.2 = ∅ /\ ImageSynthesis.invocations run.2 = [].
Proof.
  intros run. subst run.
  destruct (image_call_failure (fun _ => Scenario.image_error) Scenario.save_image
              "wanx-v1" ∅ "a cat" true ∅ Scenario.image_start)
    as (msg & Hcall & Hid & Hstatus & Hcode & Hmessage);
    try (vm_compute; reflexivity).
  { vm_compute. discriminate. }
  exists msg. rewrite Hcall. repeat split; assumption.
Defined.
